(** * Android backend of the immediate-mode GUI (EGL + OpenGL ES 3)

    A shallow embedding of [src/platform/android/imgui_impl_android.cpp]:
    the file-level statics, the GUI library's IO block and the ambient GL
    state form one explicit state; every entry point is a function in a
    small state-and-trace monad that also records the platform calls it
    issues (EGL, GL, ANativeWindow, logging), in order.  What the platform
    answers (EGL results, window size, shader compile status, clock) is
    passed to each entry point as a [Platform] record. *)

From Stdlib Require Import ZArith QArith List String Bool Lia.
Import ListNotations.
Local Open Scope Z_scope.

(** ** Floating point

    The source computes with C [float] and [double].  Their arithmetic is
    kept abstract: every definition and theorem below is stated for an
    arbitrary implementation of the operations the source uses, so nothing
    depends on a rounding mode.  [f_to_int] is the C cast [(int)f]. *)

Class FloatModel : Type := {
  float : Type;
  double : Type;
  f_lit : Q -> float;                 (* a literal such as [2.0f] *)
  f_of_int : Z -> float;              (* [(float)i] *)
  f_to_int : float -> Z;              (* [(int)f] *)
  f_add : float -> float -> float;
  f_sub : float -> float -> float;
  f_div : float -> float -> float;
  d_lit : Q -> double;                (* a literal such as [0.0] *)
  d_sub : double -> double -> double;
  d_gt : double -> double -> bool;    (* [a > b] *)
  f_of_double : double -> float       (* [(float)d] *)
}.

(** Exact rationals, used to run the model on concrete inputs. *)

Definition Q_to_int (q : Q) : Z := Z.quot (Qnum q) (Zpos (Qden q)).
Definition Q_gt (a b : Q) : bool := negb (Qle_bool a b).

#[export] Instance ExactModel : FloatModel := {|
  float := Q;
  double := Q;
  f_lit := Qred;
  f_of_int := inject_Z;
  f_to_int := Q_to_int;
  f_add := fun a b => Qred (Qplus a b);
  f_sub := fun a b => Qred (Qminus a b);
  f_div := fun a b => Qred (Qdiv a b);
  d_lit := Qred;
  d_sub := fun a b => Qred (Qminus a b);
  d_gt := Q_gt;
  f_of_double := fun d => d
|}.

(** ** Constants of the platform headers *)

(* <EGL/egl.h> *)
Definition EGL_NO_DISPLAY : Z := 0.
Definition EGL_NO_SURFACE : Z := 0.
Definition EGL_NO_CONTEXT : Z := 0.
Definition NULL : Z := 0.

(* <GLES3/gl3.h> *)
Definition GL_TEXTURE0 : Z := 0x84C0.
Definition GL_FUNC_ADD : Z := 0x8006.
Definition GL_SRC_ALPHA : Z := 0x0302.
Definition GL_ONE_MINUS_SRC_ALPHA : Z := 0x0303.
Definition GL_ONE : Z := 1.

(* <android/input.h> *)
Definition AINPUT_EVENT_TYPE_KEY : Z := 1.
Definition AINPUT_EVENT_TYPE_MOTION : Z := 2.
Definition AMOTION_EVENT_ACTION_MASK : Z := 0xff.
Definition AMOTION_EVENT_ACTION_POINTER_INDEX_MASK : Z := 0xff00.
Definition AMOTION_EVENT_ACTION_POINTER_INDEX_SHIFT : Z := 8.
Definition AMOTION_EVENT_ACTION_DOWN : Z := 0.
Definition AMOTION_EVENT_ACTION_UP : Z := 1.
Definition AMOTION_EVENT_ACTION_MOVE : Z := 2.
Definition AMOTION_EVENT_ACTION_CANCEL : Z := 3.
Definition AMOTION_EVENT_ACTION_POINTER_DOWN : Z := 5.
Definition AMOTION_EVENT_ACTION_POINTER_UP : Z := 6.

(* imgui.h *)
Definition ImGuiConfigFlags_NavEnableKeyboard : Z := Z.shiftl 1 0.
Definition ImGuiConfigFlags_IsTouchScreen : Z := Z.shiftl 1 21.
Definition sizeof_ImDrawVert : Z := 20.
Definition sizeof_ImDrawIdx : Z := 2.

Inductive GLcap : Type := GL_BLEND | GL_CULL_FACE | GL_DEPTH_TEST | GL_SCISSOR_TEST.
Inductive GLbuffer : Type := GL_ARRAY_BUFFER | GL_ELEMENT_ARRAY_BUFFER.
Inductive GLshader : Type := GL_VERTEX_SHADER | GL_FRAGMENT_SHADER.
Inductive GLpname : Type :=
  | GL_ACTIVE_TEXTURE | GL_CURRENT_PROGRAM | GL_TEXTURE_BINDING_2D
  | GL_ARRAY_BUFFER_BINDING | GL_ELEMENT_ARRAY_BUFFER_BINDING
  | GL_VERTEX_ARRAY_BINDING
  | GL_BLEND_SRC_RGB | GL_BLEND_DST_RGB | GL_BLEND_SRC_ALPHA | GL_BLEND_DST_ALPHA
  | GL_BLEND_EQUATION_RGB | GL_BLEND_EQUATION_ALPHA.
Inductive LogPriority : Type :=
  ANDROID_LOG_INFO | ANDROID_LOG_WARN | ANDROID_LOG_ERROR.

(** A viewport or scissor box: x, y, width, height. *)
Record Box : Type := mkBox { box_x : Z; box_y : Z; box_w : Z; box_h : Z }.

(** ** The ambient GL state

    The fields are those the renderer queries with [glGetIntegerv] and
    [glIsEnabled] before drawing. *)

Record GLState : Type := mkGL {
  gl_active_texture : Z;  (* GL_ACTIVE_TEXTURE *)
  gl_current_program : Z;  (* GL_CURRENT_PROGRAM *)
  gl_texture_2d : Z -> Z;  (* texture bound to GL_TEXTURE_2D, per texture unit *)
  gl_array_buffer : Z;  (* GL_ARRAY_BUFFER_BINDING *)
  gl_element_array_buffer : Z;  (* GL_ELEMENT_ARRAY_BUFFER_BINDING *)
  gl_vertex_array : Z;  (* GL_VERTEX_ARRAY_BINDING *)
  gl_blend_src_rgb : Z;
  gl_blend_dst_rgb : Z;
  gl_blend_src_alpha : Z;
  gl_blend_dst_alpha : Z;
  gl_blend_equation_rgb : Z;
  gl_blend_equation_alpha : Z;
  gl_viewport : Box;  (* GL_VIEWPORT *)
  gl_scissor_box : Box;  (* GL_SCISSOR_BOX *)
  gl_blend : bool;  (* glIsEnabled(GL_BLEND) *)
  gl_cull_face : bool;  (* glIsEnabled(GL_CULL_FACE) *)
  gl_depth_test : bool;  (* glIsEnabled(GL_DEPTH_TEST) *)
  gl_scissor_test : bool  (* glIsEnabled(GL_SCISSOR_TEST) *)
}.

Definition set_gl_active_texture (v : Z) (r : GLState) : GLState :=
  mkGL v (gl_current_program r) (gl_texture_2d r) (gl_array_buffer r)
    (gl_element_array_buffer r) (gl_vertex_array r) (gl_blend_src_rgb r)
    (gl_blend_dst_rgb r) (gl_blend_src_alpha r) (gl_blend_dst_alpha r)
    (gl_blend_equation_rgb r) (gl_blend_equation_alpha r) (gl_viewport r)
    (gl_scissor_box r) (gl_blend r) (gl_cull_face r) (gl_depth_test r)
    (gl_scissor_test r).
Definition set_gl_current_program (v : Z) (r : GLState) : GLState :=
  mkGL (gl_active_texture r) v (gl_texture_2d r) (gl_array_buffer r)
    (gl_element_array_buffer r) (gl_vertex_array r) (gl_blend_src_rgb r)
    (gl_blend_dst_rgb r) (gl_blend_src_alpha r) (gl_blend_dst_alpha r)
    (gl_blend_equation_rgb r) (gl_blend_equation_alpha r) (gl_viewport r)
    (gl_scissor_box r) (gl_blend r) (gl_cull_face r) (gl_depth_test r)
    (gl_scissor_test r).
Definition set_gl_texture_2d (v : Z -> Z) (r : GLState) : GLState :=
  mkGL (gl_active_texture r) (gl_current_program r) v (gl_array_buffer r)
    (gl_element_array_buffer r) (gl_vertex_array r) (gl_blend_src_rgb r)
    (gl_blend_dst_rgb r) (gl_blend_src_alpha r) (gl_blend_dst_alpha r)
    (gl_blend_equation_rgb r) (gl_blend_equation_alpha r) (gl_viewport r)
    (gl_scissor_box r) (gl_blend r) (gl_cull_face r) (gl_depth_test r)
    (gl_scissor_test r).
Definition set_gl_array_buffer (v : Z) (r : GLState) : GLState :=
  mkGL (gl_active_texture r) (gl_current_program r) (gl_texture_2d r) v
    (gl_element_array_buffer r) (gl_vertex_array r) (gl_blend_src_rgb r)
    (gl_blend_dst_rgb r) (gl_blend_src_alpha r) (gl_blend_dst_alpha r)
    (gl_blend_equation_rgb r) (gl_blend_equation_alpha r) (gl_viewport r)
    (gl_scissor_box r) (gl_blend r) (gl_cull_face r) (gl_depth_test r)
    (gl_scissor_test r).
Definition set_gl_element_array_buffer (v : Z) (r : GLState) : GLState :=
  mkGL (gl_active_texture r) (gl_current_program r) (gl_texture_2d r)
    (gl_array_buffer r) v (gl_vertex_array r) (gl_blend_src_rgb r) (gl_blend_dst_rgb r)
    (gl_blend_src_alpha r) (gl_blend_dst_alpha r) (gl_blend_equation_rgb r)
    (gl_blend_equation_alpha r) (gl_viewport r) (gl_scissor_box r) (gl_blend r)
    (gl_cull_face r) (gl_depth_test r) (gl_scissor_test r).
Definition set_gl_blend_src_rgb (v : Z) (r : GLState) : GLState :=
  mkGL (gl_active_texture r) (gl_current_program r) (gl_texture_2d r)
    (gl_array_buffer r) (gl_element_array_buffer r) (gl_vertex_array r) v
    (gl_blend_dst_rgb r) (gl_blend_src_alpha r) (gl_blend_dst_alpha r)
    (gl_blend_equation_rgb r) (gl_blend_equation_alpha r) (gl_viewport r)
    (gl_scissor_box r) (gl_blend r) (gl_cull_face r) (gl_depth_test r)
    (gl_scissor_test r).
Definition set_gl_blend_dst_rgb (v : Z) (r : GLState) : GLState :=
  mkGL (gl_active_texture r) (gl_current_program r) (gl_texture_2d r)
    (gl_array_buffer r) (gl_element_array_buffer r) (gl_vertex_array r)
    (gl_blend_src_rgb r) v (gl_blend_src_alpha r) (gl_blend_dst_alpha r)
    (gl_blend_equation_rgb r) (gl_blend_equation_alpha r) (gl_viewport r)
    (gl_scissor_box r) (gl_blend r) (gl_cull_face r) (gl_depth_test r)
    (gl_scissor_test r).
Definition set_gl_blend_src_alpha (v : Z) (r : GLState) : GLState :=
  mkGL (gl_active_texture r) (gl_current_program r) (gl_texture_2d r)
    (gl_array_buffer r) (gl_element_array_buffer r) (gl_vertex_array r)
    (gl_blend_src_rgb r) (gl_blend_dst_rgb r) v (gl_blend_dst_alpha r)
    (gl_blend_equation_rgb r) (gl_blend_equation_alpha r) (gl_viewport r)
    (gl_scissor_box r) (gl_blend r) (gl_cull_face r) (gl_depth_test r)
    (gl_scissor_test r).
Definition set_gl_blend_dst_alpha (v : Z) (r : GLState) : GLState :=
  mkGL (gl_active_texture r) (gl_current_program r) (gl_texture_2d r)
    (gl_array_buffer r) (gl_element_array_buffer r) (gl_vertex_array r)
    (gl_blend_src_rgb r) (gl_blend_dst_rgb r) (gl_blend_src_alpha r) v
    (gl_blend_equation_rgb r) (gl_blend_equation_alpha r) (gl_viewport r)
    (gl_scissor_box r) (gl_blend r) (gl_cull_face r) (gl_depth_test r)
    (gl_scissor_test r).
Definition set_gl_blend_equation_rgb (v : Z) (r : GLState) : GLState :=
  mkGL (gl_active_texture r) (gl_current_program r) (gl_texture_2d r)
    (gl_array_buffer r) (gl_element_array_buffer r) (gl_vertex_array r)
    (gl_blend_src_rgb r) (gl_blend_dst_rgb r) (gl_blend_src_alpha r)
    (gl_blend_dst_alpha r) v (gl_blend_equation_alpha r) (gl_viewport r)
    (gl_scissor_box r) (gl_blend r) (gl_cull_face r) (gl_depth_test r)
    (gl_scissor_test r).
Definition set_gl_blend_equation_alpha (v : Z) (r : GLState) : GLState :=
  mkGL (gl_active_texture r) (gl_current_program r) (gl_texture_2d r)
    (gl_array_buffer r) (gl_element_array_buffer r) (gl_vertex_array r)
    (gl_blend_src_rgb r) (gl_blend_dst_rgb r) (gl_blend_src_alpha r)
    (gl_blend_dst_alpha r) (gl_blend_equation_rgb r) v (gl_viewport r)
    (gl_scissor_box r) (gl_blend r) (gl_cull_face r) (gl_depth_test r)
    (gl_scissor_test r).
Definition set_gl_viewport (v : Box) (r : GLState) : GLState :=
  mkGL (gl_active_texture r) (gl_current_program r) (gl_texture_2d r)
    (gl_array_buffer r) (gl_element_array_buffer r) (gl_vertex_array r)
    (gl_blend_src_rgb r) (gl_blend_dst_rgb r) (gl_blend_src_alpha r)
    (gl_blend_dst_alpha r) (gl_blend_equation_rgb r) (gl_blend_equation_alpha r) v
    (gl_scissor_box r) (gl_blend r) (gl_cull_face r) (gl_depth_test r)
    (gl_scissor_test r).
Definition set_gl_scissor_box (v : Box) (r : GLState) : GLState :=
  mkGL (gl_active_texture r) (gl_current_program r) (gl_texture_2d r)
    (gl_array_buffer r) (gl_element_array_buffer r) (gl_vertex_array r)
    (gl_blend_src_rgb r) (gl_blend_dst_rgb r) (gl_blend_src_alpha r)
    (gl_blend_dst_alpha r) (gl_blend_equation_rgb r) (gl_blend_equation_alpha r)
    (gl_viewport r) v (gl_blend r) (gl_cull_face r) (gl_depth_test r)
    (gl_scissor_test r).
Definition set_gl_blend (v : bool) (r : GLState) : GLState :=
  mkGL (gl_active_texture r) (gl_current_program r) (gl_texture_2d r)
    (gl_array_buffer r) (gl_element_array_buffer r) (gl_vertex_array r)
    (gl_blend_src_rgb r) (gl_blend_dst_rgb r) (gl_blend_src_alpha r)
    (gl_blend_dst_alpha r) (gl_blend_equation_rgb r) (gl_blend_equation_alpha r)
    (gl_viewport r) (gl_scissor_box r) v (gl_cull_face r) (gl_depth_test r)
    (gl_scissor_test r).
Definition set_gl_cull_face (v : bool) (r : GLState) : GLState :=
  mkGL (gl_active_texture r) (gl_current_program r) (gl_texture_2d r)
    (gl_array_buffer r) (gl_element_array_buffer r) (gl_vertex_array r)
    (gl_blend_src_rgb r) (gl_blend_dst_rgb r) (gl_blend_src_alpha r)
    (gl_blend_dst_alpha r) (gl_blend_equation_rgb r) (gl_blend_equation_alpha r)
    (gl_viewport r) (gl_scissor_box r) (gl_blend r) v (gl_depth_test r)
    (gl_scissor_test r).
Definition set_gl_depth_test (v : bool) (r : GLState) : GLState :=
  mkGL (gl_active_texture r) (gl_current_program r) (gl_texture_2d r)
    (gl_array_buffer r) (gl_element_array_buffer r) (gl_vertex_array r)
    (gl_blend_src_rgb r) (gl_blend_dst_rgb r) (gl_blend_src_alpha r)
    (gl_blend_dst_alpha r) (gl_blend_equation_rgb r) (gl_blend_equation_alpha r)
    (gl_viewport r) (gl_scissor_box r) (gl_blend r) (gl_cull_face r) v
    (gl_scissor_test r).
Definition set_gl_scissor_test (v : bool) (r : GLState) : GLState :=
  mkGL (gl_active_texture r) (gl_current_program r) (gl_texture_2d r)
    (gl_array_buffer r) (gl_element_array_buffer r) (gl_vertex_array r)
    (gl_blend_src_rgb r) (gl_blend_dst_rgb r) (gl_blend_src_alpha r)
    (gl_blend_dst_alpha r) (gl_blend_equation_rgb r) (gl_blend_equation_alpha r)
    (gl_viewport r) (gl_scissor_box r) (gl_blend r) (gl_cull_face r) (gl_depth_test r)
    v.
Section Backend.

Context {FM : FloatModel}.

(** ** Data of the GUI library and of the platform *)

Record ImVec2 : Type := mkVec2 { ImVec2_x : float; ImVec2_y : float }.

Record ImVec4 : Type := mkVec4 {
  ImVec4_x : float; ImVec4_y : float; ImVec4_z : float; ImVec4_w : float
}.

(** [ImGuiIO], restricted to the fields the backend touches. *)
Record ImGuiIO : Type := mkIO {
  DisplaySize : ImVec2;
  ConfigFlags : Z;
  FontGlobalScale : float;
  DeltaTime : float;
  MousePos : ImVec2;
  MouseDown0 : bool;  (* io.MouseDown[0] *)
  FontsTexID : Z;  (* io.Fonts->TexID *)
  FontsIsBuilt : bool  (* io.Fonts->IsBuilt() *)
}.

Definition set_DisplaySize (v : ImVec2) (r : ImGuiIO) : ImGuiIO :=
  mkIO v (ConfigFlags r) (FontGlobalScale r) (DeltaTime r) (MousePos r) (MouseDown0 r)
    (FontsTexID r) (FontsIsBuilt r).
Definition set_ConfigFlags (v : Z) (r : ImGuiIO) : ImGuiIO :=
  mkIO (DisplaySize r) v (FontGlobalScale r) (DeltaTime r) (MousePos r) (MouseDown0 r)
    (FontsTexID r) (FontsIsBuilt r).
Definition set_FontGlobalScale (v : float) (r : ImGuiIO) : ImGuiIO :=
  mkIO (DisplaySize r) (ConfigFlags r) v (DeltaTime r) (MousePos r) (MouseDown0 r)
    (FontsTexID r) (FontsIsBuilt r).
Definition set_DeltaTime (v : float) (r : ImGuiIO) : ImGuiIO :=
  mkIO (DisplaySize r) (ConfigFlags r) (FontGlobalScale r) v (MousePos r) (MouseDown0 r)
    (FontsTexID r) (FontsIsBuilt r).
Definition set_MousePos (v : ImVec2) (r : ImGuiIO) : ImGuiIO :=
  mkIO (DisplaySize r) (ConfigFlags r) (FontGlobalScale r) (DeltaTime r) v
    (MouseDown0 r) (FontsTexID r) (FontsIsBuilt r).
Definition set_MouseDown0 (v : bool) (r : ImGuiIO) : ImGuiIO :=
  mkIO (DisplaySize r) (ConfigFlags r) (FontGlobalScale r) (DeltaTime r) (MousePos r) v
    (FontsTexID r) (FontsIsBuilt r).
Definition set_FontsTexID (v : Z) (r : ImGuiIO) : ImGuiIO :=
  mkIO (DisplaySize r) (ConfigFlags r) (FontGlobalScale r) (DeltaTime r) (MousePos r)
    (MouseDown0 r) v (FontsIsBuilt r).
Definition set_FontsIsBuilt (v : bool) (r : ImGuiIO) : ImGuiIO :=
  mkIO (DisplaySize r) (ConfigFlags r) (FontGlobalScale r) (DeltaTime r) (MousePos r)
    (MouseDown0 r) (FontsTexID r) v.
(** A draw command.  A user callback is arbitrary code run in place of the
    draw; it is modelled by what it does to the ambient GL state.  What else
    such code may do (write the IO block, call back into the backend) is
    outside the model: a property that would depend on it is stated for
    draw data without callbacks. *)
Record ImDrawCmd : Type := mkDrawCmd {
  ElemCount : Z;
  ClipRect : ImVec4;
  TextureId : Z;
  UserCallback : option (GLState -> GLState)
}.

Record ImDrawList : Type := mkDrawList {
  CmdBuffer : list ImDrawCmd;
  VtxBuffer_Size : Z;
  IdxBuffer_Size : Z
}.

(** [CmdListsCount] is the length of [CmdLists]. *)
Record ImDrawData : Type := mkDrawData {
  draw_DisplaySize : ImVec2;
  CmdLists : list ImDrawList
}.

Definition CmdListsCount (draw_data : ImDrawData) : Z :=
  Z.of_nat (List.length (CmdLists draw_data)).

(** An input event: its type, and for a motion event the packed action
    word and the pointers it carries. *)
Record Pointer : Type := mkPointer {
  pointer_id : Z; pointer_x : float; pointer_y : float
}.

Record AInputEvent : Type := mkEvent {
  event_type : Z;
  motion_action : Z;
  motion_pointers : list Pointer
}.

Definition AInputEvent_getType (event : AInputEvent) : Z := event_type event.
Definition AMotionEvent_getAction (event : AInputEvent) : Z := motion_action event.

(* A pointer index past the end reads as pointer id 0 at the origin. *)
Definition motion_pointer (event : AInputEvent) (pointerIndex : Z) : Pointer :=
  nth (Z.to_nat pointerIndex) (motion_pointers event)
      (mkPointer 0 (f_lit 0) (f_lit 0)).
Definition AMotionEvent_getPointerId (event : AInputEvent) (i : Z) : Z :=
  pointer_id (motion_pointer event i).
Definition AMotionEvent_getX (event : AInputEvent) (i : Z) : float :=
  pointer_x (motion_pointer event i).
Definition AMotionEvent_getY (event : AInputEvent) (i : Z) : float :=
  pointer_y (motion_pointer event i).

(** What the platform answers during one call of an entry point. *)
Record Platform : Type := mkPlatform {
  window_width : Z;                      (* ANativeWindow_getWidth *)
  window_height : Z;                     (* ANativeWindow_getHeight *)
  egl_display : Z;                       (* eglGetDisplay *)
  egl_initialize : bool;                 (* eglInitialize == EGL_TRUE *)
  egl_version : Z * Z;
  egl_choose_config : bool;              (* eglChooseConfig == EGL_TRUE *)
  egl_surface : Z;                       (* eglCreateWindowSurface *)
  egl_context : Z;                       (* eglCreateContext *)
  egl_make_current : bool;               (* eglMakeCurrent == EGL_TRUE *)
  gl_create_shader : GLshader -> Z;      (* glCreateShader *)
  gl_compile_status : Z -> bool;         (* GL_COMPILE_STATUS of a shader *)
  gl_shader_info_log : Z -> string;      (* glGetShaderInfoLog *)
  gl_create_program : Z;                 (* glCreateProgram *)
  gl_link_status : Z -> bool;            (* GL_LINK_STATUS of a program *)
  gl_program_info_log : Z -> string;     (* glGetProgramInfoLog *)
  gl_uniform_location : Z -> string -> Z;
  gl_attrib_location : Z -> string -> Z;
  gl_gen_buffer_1 : Z;                   (* first glGenBuffers *)
  gl_gen_buffer_2 : Z;                   (* second glGenBuffers *)
  gl_gen_texture : Z;                    (* glGenTextures *)
  atlas_size : Z * Z;                    (* GetTexDataAsRGBA32 width, height *)
  imgui_time : double                    (* ImGui::GetTime() *)
}.

(** GL_INFO_LOG_LENGTH: 0 when there is no log, else its length with the
    terminating NUL. *)
Definition info_log_length (log : string) : Z :=
  match log with
  | EmptyString => 0
  | _ => Z.of_nat (String.length log) + 1
  end.

(** ** The statics of the translation unit *)

Record Backend : Type := mkBackend {
  g_EglDisplay : Z;  (* EGLDisplay, EGL_NO_DISPLAY when unbound *)
  g_EglSurface : Z;  (* EGLSurface, EGL_NO_SURFACE when unbound *)
  g_EglContext : Z;  (* EGLContext, EGL_NO_CONTEXT when unbound *)
  g_Window : Z;  (* ANativeWindow*, NULL is 0 *)
  g_Initialized : bool;
  g_FontTexture : Z;
  g_ShaderHandle : Z;
  g_VertHandle : Z;
  g_FragHandle : Z;
  g_AttribLocationTex : Z;
  g_AttribLocationProjMtx : Z;
  g_AttribLocationVtxPos : Z;
  g_AttribLocationVtxUV : Z;
  g_AttribLocationVtxColor : Z;
  g_VboHandle : Z;
  g_ElementsHandle : Z;
  lastWidth : Z;  (* static local of NewFrame *)
  lastHeight : Z;  (* static local of NewFrame *)
  displayScale : float;  (* static local of NewFrame *)
  g_Time : double  (* static local of NewFrame *)
}.

Definition set_g_EglDisplay (v : Z) (r : Backend) : Backend :=
  mkBackend v (g_EglSurface r) (g_EglContext r) (g_Window r) (g_Initialized r)
    (g_FontTexture r) (g_ShaderHandle r) (g_VertHandle r) (g_FragHandle r)
    (g_AttribLocationTex r) (g_AttribLocationProjMtx r) (g_AttribLocationVtxPos r)
    (g_AttribLocationVtxUV r) (g_AttribLocationVtxColor r) (g_VboHandle r)
    (g_ElementsHandle r) (lastWidth r) (lastHeight r) (displayScale r) (g_Time r).
Definition set_g_EglSurface (v : Z) (r : Backend) : Backend :=
  mkBackend (g_EglDisplay r) v (g_EglContext r) (g_Window r) (g_Initialized r)
    (g_FontTexture r) (g_ShaderHandle r) (g_VertHandle r) (g_FragHandle r)
    (g_AttribLocationTex r) (g_AttribLocationProjMtx r) (g_AttribLocationVtxPos r)
    (g_AttribLocationVtxUV r) (g_AttribLocationVtxColor r) (g_VboHandle r)
    (g_ElementsHandle r) (lastWidth r) (lastHeight r) (displayScale r) (g_Time r).
Definition set_g_EglContext (v : Z) (r : Backend) : Backend :=
  mkBackend (g_EglDisplay r) (g_EglSurface r) v (g_Window r) (g_Initialized r)
    (g_FontTexture r) (g_ShaderHandle r) (g_VertHandle r) (g_FragHandle r)
    (g_AttribLocationTex r) (g_AttribLocationProjMtx r) (g_AttribLocationVtxPos r)
    (g_AttribLocationVtxUV r) (g_AttribLocationVtxColor r) (g_VboHandle r)
    (g_ElementsHandle r) (lastWidth r) (lastHeight r) (displayScale r) (g_Time r).
Definition set_g_Window (v : Z) (r : Backend) : Backend :=
  mkBackend (g_EglDisplay r) (g_EglSurface r) (g_EglContext r) v (g_Initialized r)
    (g_FontTexture r) (g_ShaderHandle r) (g_VertHandle r) (g_FragHandle r)
    (g_AttribLocationTex r) (g_AttribLocationProjMtx r) (g_AttribLocationVtxPos r)
    (g_AttribLocationVtxUV r) (g_AttribLocationVtxColor r) (g_VboHandle r)
    (g_ElementsHandle r) (lastWidth r) (lastHeight r) (displayScale r) (g_Time r).
Definition set_g_Initialized (v : bool) (r : Backend) : Backend :=
  mkBackend (g_EglDisplay r) (g_EglSurface r) (g_EglContext r) (g_Window r) v
    (g_FontTexture r) (g_ShaderHandle r) (g_VertHandle r) (g_FragHandle r)
    (g_AttribLocationTex r) (g_AttribLocationProjMtx r) (g_AttribLocationVtxPos r)
    (g_AttribLocationVtxUV r) (g_AttribLocationVtxColor r) (g_VboHandle r)
    (g_ElementsHandle r) (lastWidth r) (lastHeight r) (displayScale r) (g_Time r).
Definition set_g_FontTexture (v : Z) (r : Backend) : Backend :=
  mkBackend (g_EglDisplay r) (g_EglSurface r) (g_EglContext r) (g_Window r)
    (g_Initialized r) v (g_ShaderHandle r) (g_VertHandle r) (g_FragHandle r)
    (g_AttribLocationTex r) (g_AttribLocationProjMtx r) (g_AttribLocationVtxPos r)
    (g_AttribLocationVtxUV r) (g_AttribLocationVtxColor r) (g_VboHandle r)
    (g_ElementsHandle r) (lastWidth r) (lastHeight r) (displayScale r) (g_Time r).
Definition set_g_ShaderHandle (v : Z) (r : Backend) : Backend :=
  mkBackend (g_EglDisplay r) (g_EglSurface r) (g_EglContext r) (g_Window r)
    (g_Initialized r) (g_FontTexture r) v (g_VertHandle r) (g_FragHandle r)
    (g_AttribLocationTex r) (g_AttribLocationProjMtx r) (g_AttribLocationVtxPos r)
    (g_AttribLocationVtxUV r) (g_AttribLocationVtxColor r) (g_VboHandle r)
    (g_ElementsHandle r) (lastWidth r) (lastHeight r) (displayScale r) (g_Time r).
Definition set_g_VertHandle (v : Z) (r : Backend) : Backend :=
  mkBackend (g_EglDisplay r) (g_EglSurface r) (g_EglContext r) (g_Window r)
    (g_Initialized r) (g_FontTexture r) (g_ShaderHandle r) v (g_FragHandle r)
    (g_AttribLocationTex r) (g_AttribLocationProjMtx r) (g_AttribLocationVtxPos r)
    (g_AttribLocationVtxUV r) (g_AttribLocationVtxColor r) (g_VboHandle r)
    (g_ElementsHandle r) (lastWidth r) (lastHeight r) (displayScale r) (g_Time r).
Definition set_g_FragHandle (v : Z) (r : Backend) : Backend :=
  mkBackend (g_EglDisplay r) (g_EglSurface r) (g_EglContext r) (g_Window r)
    (g_Initialized r) (g_FontTexture r) (g_ShaderHandle r) (g_VertHandle r) v
    (g_AttribLocationTex r) (g_AttribLocationProjMtx r) (g_AttribLocationVtxPos r)
    (g_AttribLocationVtxUV r) (g_AttribLocationVtxColor r) (g_VboHandle r)
    (g_ElementsHandle r) (lastWidth r) (lastHeight r) (displayScale r) (g_Time r).
Definition set_g_AttribLocationTex (v : Z) (r : Backend) : Backend :=
  mkBackend (g_EglDisplay r) (g_EglSurface r) (g_EglContext r) (g_Window r)
    (g_Initialized r) (g_FontTexture r) (g_ShaderHandle r) (g_VertHandle r)
    (g_FragHandle r) v (g_AttribLocationProjMtx r) (g_AttribLocationVtxPos r)
    (g_AttribLocationVtxUV r) (g_AttribLocationVtxColor r) (g_VboHandle r)
    (g_ElementsHandle r) (lastWidth r) (lastHeight r) (displayScale r) (g_Time r).
Definition set_g_AttribLocationProjMtx (v : Z) (r : Backend) : Backend :=
  mkBackend (g_EglDisplay r) (g_EglSurface r) (g_EglContext r) (g_Window r)
    (g_Initialized r) (g_FontTexture r) (g_ShaderHandle r) (g_VertHandle r)
    (g_FragHandle r) (g_AttribLocationTex r) v (g_AttribLocationVtxPos r)
    (g_AttribLocationVtxUV r) (g_AttribLocationVtxColor r) (g_VboHandle r)
    (g_ElementsHandle r) (lastWidth r) (lastHeight r) (displayScale r) (g_Time r).
Definition set_g_AttribLocationVtxPos (v : Z) (r : Backend) : Backend :=
  mkBackend (g_EglDisplay r) (g_EglSurface r) (g_EglContext r) (g_Window r)
    (g_Initialized r) (g_FontTexture r) (g_ShaderHandle r) (g_VertHandle r)
    (g_FragHandle r) (g_AttribLocationTex r) (g_AttribLocationProjMtx r) v
    (g_AttribLocationVtxUV r) (g_AttribLocationVtxColor r) (g_VboHandle r)
    (g_ElementsHandle r) (lastWidth r) (lastHeight r) (displayScale r) (g_Time r).
Definition set_g_AttribLocationVtxUV (v : Z) (r : Backend) : Backend :=
  mkBackend (g_EglDisplay r) (g_EglSurface r) (g_EglContext r) (g_Window r)
    (g_Initialized r) (g_FontTexture r) (g_ShaderHandle r) (g_VertHandle r)
    (g_FragHandle r) (g_AttribLocationTex r) (g_AttribLocationProjMtx r)
    (g_AttribLocationVtxPos r) v (g_AttribLocationVtxColor r) (g_VboHandle r)
    (g_ElementsHandle r) (lastWidth r) (lastHeight r) (displayScale r) (g_Time r).
Definition set_g_AttribLocationVtxColor (v : Z) (r : Backend) : Backend :=
  mkBackend (g_EglDisplay r) (g_EglSurface r) (g_EglContext r) (g_Window r)
    (g_Initialized r) (g_FontTexture r) (g_ShaderHandle r) (g_VertHandle r)
    (g_FragHandle r) (g_AttribLocationTex r) (g_AttribLocationProjMtx r)
    (g_AttribLocationVtxPos r) (g_AttribLocationVtxUV r) v (g_VboHandle r)
    (g_ElementsHandle r) (lastWidth r) (lastHeight r) (displayScale r) (g_Time r).
Definition set_g_VboHandle (v : Z) (r : Backend) : Backend :=
  mkBackend (g_EglDisplay r) (g_EglSurface r) (g_EglContext r) (g_Window r)
    (g_Initialized r) (g_FontTexture r) (g_ShaderHandle r) (g_VertHandle r)
    (g_FragHandle r) (g_AttribLocationTex r) (g_AttribLocationProjMtx r)
    (g_AttribLocationVtxPos r) (g_AttribLocationVtxUV r) (g_AttribLocationVtxColor r) v
    (g_ElementsHandle r) (lastWidth r) (lastHeight r) (displayScale r) (g_Time r).
Definition set_g_ElementsHandle (v : Z) (r : Backend) : Backend :=
  mkBackend (g_EglDisplay r) (g_EglSurface r) (g_EglContext r) (g_Window r)
    (g_Initialized r) (g_FontTexture r) (g_ShaderHandle r) (g_VertHandle r)
    (g_FragHandle r) (g_AttribLocationTex r) (g_AttribLocationProjMtx r)
    (g_AttribLocationVtxPos r) (g_AttribLocationVtxUV r) (g_AttribLocationVtxColor r)
    (g_VboHandle r) v (lastWidth r) (lastHeight r) (displayScale r) (g_Time r).
Definition set_lastWidth (v : Z) (r : Backend) : Backend :=
  mkBackend (g_EglDisplay r) (g_EglSurface r) (g_EglContext r) (g_Window r)
    (g_Initialized r) (g_FontTexture r) (g_ShaderHandle r) (g_VertHandle r)
    (g_FragHandle r) (g_AttribLocationTex r) (g_AttribLocationProjMtx r)
    (g_AttribLocationVtxPos r) (g_AttribLocationVtxUV r) (g_AttribLocationVtxColor r)
    (g_VboHandle r) (g_ElementsHandle r) v (lastHeight r) (displayScale r) (g_Time r).
Definition set_lastHeight (v : Z) (r : Backend) : Backend :=
  mkBackend (g_EglDisplay r) (g_EglSurface r) (g_EglContext r) (g_Window r)
    (g_Initialized r) (g_FontTexture r) (g_ShaderHandle r) (g_VertHandle r)
    (g_FragHandle r) (g_AttribLocationTex r) (g_AttribLocationProjMtx r)
    (g_AttribLocationVtxPos r) (g_AttribLocationVtxUV r) (g_AttribLocationVtxColor r)
    (g_VboHandle r) (g_ElementsHandle r) (lastWidth r) v (displayScale r) (g_Time r).
Definition set_displayScale (v : float) (r : Backend) : Backend :=
  mkBackend (g_EglDisplay r) (g_EglSurface r) (g_EglContext r) (g_Window r)
    (g_Initialized r) (g_FontTexture r) (g_ShaderHandle r) (g_VertHandle r)
    (g_FragHandle r) (g_AttribLocationTex r) (g_AttribLocationProjMtx r)
    (g_AttribLocationVtxPos r) (g_AttribLocationVtxUV r) (g_AttribLocationVtxColor r)
    (g_VboHandle r) (g_ElementsHandle r) (lastWidth r) (lastHeight r) v (g_Time r).
Definition set_g_Time (v : double) (r : Backend) : Backend :=
  mkBackend (g_EglDisplay r) (g_EglSurface r) (g_EglContext r) (g_Window r)
    (g_Initialized r) (g_FontTexture r) (g_ShaderHandle r) (g_VertHandle r)
    (g_FragHandle r) (g_AttribLocationTex r) (g_AttribLocationProjMtx r)
    (g_AttribLocationVtxPos r) (g_AttribLocationVtxUV r) (g_AttribLocationVtxColor r)
    (g_VboHandle r) (g_ElementsHandle r) (lastWidth r) (lastHeight r) (displayScale r)
    v.
(** The initialisers in the source. *)
Definition initial_backend : Backend :=
  mkBackend EGL_NO_DISPLAY EGL_NO_SURFACE EGL_NO_CONTEXT NULL false
            0 0 0 0 0 0 0 0 0 0 0 0 0 (f_lit 1) (d_lit 0).

Record State : Type := mkState { backend : Backend; io : ImGuiIO; gl : GLState }.

Definition upd_backend (f : Backend -> Backend) (s : State) : State :=
  mkState (f (backend s)) (io s) (gl s).
Definition upd_io (f : ImGuiIO -> ImGuiIO) (s : State) : State :=
  mkState (backend s) (f (io s)) (gl s).
Definition upd_gl (f : GLState -> GLState) (s : State) : State :=
  mkState (backend s) (io s) (f (gl s)).

(** ** Platform calls, as recorded *)

Inductive LogArg : Type :=
  | ArgInt (n : Z) | ArgPtr (p : Z) | ArgStr (s : string) | ArgFloat (f : float).

Inductive Call : Type :=
  | AndroidLog (prio : LogPriority) (fmt : string) (args : list LogArg)
  | ANativeWindowAcquire (window : Z)
  | ANativeWindowRelease (window : Z)
  | EglGetDisplay
  | EglInitialize (dpy : Z)
  | EglChooseConfig (dpy : Z)
  | EglCreateWindowSurface (dpy window : Z)
  | EglCreateContext (dpy : Z)
  | EglMakeCurrent (dpy draw read ctx : Z)
  | EglDestroyContext (dpy ctx : Z)
  | EglDestroySurface (dpy surface : Z)
  | EglTerminate (dpy : Z)
  | EglSwapBuffers (dpy surface : Z)
  | GlCreateShader (kind : GLshader)
  | GlShaderSource (shader : Z)
  | GlCompileShader (shader : Z)
  | GlCreateProgram
  | GlAttachShader (program shader : Z)
  | GlLinkProgram (program : Z)
  | GlGenBuffers
  | GlGenTextures
  | GlDeleteBuffers (buffer : Z)
  | GlDetachShader (program shader : Z)
  | GlDeleteShader (shader : Z)
  | GlDeleteProgram (program : Z)
  | GlDeleteTextures (texture : Z)
  | GlTexParameteri
  | GlTexImage2D (width height : Z)
  | GlActiveTexture (texture : Z)
  | GlEnable (cap : GLcap)
  | GlDisable (cap : GLcap)
  | GlBlendEquation (mode : Z)
  | GlBlendEquationSeparate (rgb alpha : Z)
  | GlBlendFuncSeparate (src_rgb dst_rgb src_alpha dst_alpha : Z)
  | GlViewport (x y w h : Z)
  | GlScissor (x y w h : Z)
  | GlClearColor
  | GlClear
  | GlUseProgram (program : Z)
  | GlUniform1i (location value : Z)
  | GlUniformMatrix4fv (location : Z) (matrix : list float)
  | GlBindBuffer (target : GLbuffer) (buffer : Z)
  | GlBufferData (target : GLbuffer) (size : Z)
  | GlEnableVertexAttribArray (index : Z)
  | GlVertexAttribPointer (index size : Z)
  | GlBindTexture (texture : Z)
  | GlDrawElements (count offset : Z)
  | StyleScaleAllSizes (scale : float)
  | AddFontFromFileTTF (path : string) (size : float)
  | GetTexDataAsRGBA32
  | InvokeUserCallback.

(** ** The monad: state, and the calls issued so far *)

Definition M (A : Type) : Type := State -> A * State * list Call.

Definition ret {A : Type} (a : A) : M A := fun s => (a, s, []).

Definition bind {A B : Type} (m : M A) (k : A -> M B) : M B :=
  fun s =>
    let '(a, s1, t1) := m s in
    let '(b, s2, t2) := k a s1 in
    (b, s2, t1 ++ t2).

Definition gets {A : Type} (f : State -> A) : M A := fun s => (f s, s, []).
Definition modify (f : State -> State) : M unit := fun s => (tt, f s, []).
Definition call (c : Call) : M unit := fun s => (tt, s, [c]).
(* A call whose answer comes from the platform. *)
Definition answer {A : Type} (c : Call) (a : A) : M A := fun s => (a, s, [c]).

Definition result {A : Type} (r : A * State * list Call) : A := fst (fst r).
Definition final {A : Type} (r : A * State * list Call) : State := snd (fst r).
Definition calls {A : Type} (r : A * State * list Call) : list Call := snd r.

Notation "x <- m ;; k" := (bind m (fun x => k))
  (at level 61, m at next level, right associativity).
Notation "m ;; k" := (bind m (fun _ => k))
  (at level 61, right associativity).

Definition when (c : bool) (m : M unit) : M unit := if c then m else ret tt.
Definition nonzero (h : Z) : bool := negb (h =? 0).

(** Reading and assigning a static. *)
Definition static {A : Type} (field : Backend -> A) : M A :=
  gets (fun s => field (backend s)).
Definition assign {A : Type} (set : A -> Backend -> Backend) (v : A) : M unit :=
  modify (upd_backend (set v)).
Definition assign_io {A : Type} (set : A -> ImGuiIO -> ImGuiIO) (v : A) : M unit :=
  modify (upd_io (set v)).

Definition android_log (prio : LogPriority) (fmt : string) (args : list LogArg)
  : M unit := call (AndroidLog prio fmt args).

(** ** EGL and the native window

    The GL state of the model is that of whichever context is current.
    eglMakeCurrent is recorded with its answer; the change of GL state that
    comes with the activation of another context is not modelled, so the
    GL state after a successful init stands for an arbitrary one. *)

Definition ANativeWindow_acquire (window : Z) : M unit :=
  call (ANativeWindowAcquire window).
Definition ANativeWindow_release (window : Z) : M unit :=
  call (ANativeWindowRelease window).

Definition eglGetDisplay (P : Platform) : M Z :=
  answer EglGetDisplay (egl_display P).
Definition eglInitialize (P : Platform) (dpy : Z) : M bool :=
  answer (EglInitialize dpy) (egl_initialize P).
Definition eglChooseConfig (P : Platform) (dpy : Z) : M bool :=
  answer (EglChooseConfig dpy) (egl_choose_config P).
Definition eglCreateWindowSurface (P : Platform) (dpy window : Z) : M Z :=
  answer (EglCreateWindowSurface dpy window) (egl_surface P).
Definition eglCreateContext (P : Platform) (dpy : Z) : M Z :=
  answer (EglCreateContext dpy) (egl_context P).
Definition eglMakeCurrent (P : Platform) (dpy draw read ctx : Z) : M bool :=
  answer (EglMakeCurrent dpy draw read ctx) (egl_make_current P).
Definition eglSwapBuffers (dpy surface : Z) : M unit :=
  call (EglSwapBuffers dpy surface).

(** ** GL: queries and state changes

    Each state-changing entry point updates the ambient state the way the
    GL does and is recorded.  Deleting an object is recorded only. *)

Definition glGetIntegerv (pname : GLpname) : M Z :=
  gets (fun s =>
    let g := gl s in
    match pname with
    | GL_ACTIVE_TEXTURE => gl_active_texture g
    | GL_CURRENT_PROGRAM => gl_current_program g
    | GL_TEXTURE_BINDING_2D => gl_texture_2d g (gl_active_texture g)
    | GL_ARRAY_BUFFER_BINDING => gl_array_buffer g
    | GL_ELEMENT_ARRAY_BUFFER_BINDING => gl_element_array_buffer g
    | GL_VERTEX_ARRAY_BINDING => gl_vertex_array g
    | GL_BLEND_SRC_RGB => gl_blend_src_rgb g
    | GL_BLEND_DST_RGB => gl_blend_dst_rgb g
    | GL_BLEND_SRC_ALPHA => gl_blend_src_alpha g
    | GL_BLEND_DST_ALPHA => gl_blend_dst_alpha g
    | GL_BLEND_EQUATION_RGB => gl_blend_equation_rgb g
    | GL_BLEND_EQUATION_ALPHA => gl_blend_equation_alpha g
    end).

Definition glGetViewport : M Box := gets (fun s => gl_viewport (gl s)).
Definition glGetScissorBox : M Box := gets (fun s => gl_scissor_box (gl s)).

Definition glIsEnabled (cap : GLcap) : M bool :=
  gets (fun s =>
    match cap with
    | GL_BLEND => gl_blend (gl s)
    | GL_CULL_FACE => gl_cull_face (gl s)
    | GL_DEPTH_TEST => gl_depth_test (gl s)
    | GL_SCISSOR_TEST => gl_scissor_test (gl s)
    end).

Definition set_cap (cap : GLcap) (v : bool) : GLState -> GLState :=
  match cap with
  | GL_BLEND => set_gl_blend v
  | GL_CULL_FACE => set_gl_cull_face v
  | GL_DEPTH_TEST => set_gl_depth_test v
  | GL_SCISSOR_TEST => set_gl_scissor_test v
  end.

Definition gl_do (c : Call) (f : GLState -> GLState) : M unit :=
  fun s => (tt, upd_gl f s, [c]).

Definition glEnable (cap : GLcap) : M unit := gl_do (GlEnable cap) (set_cap cap true).
Definition glDisable (cap : GLcap) : M unit := gl_do (GlDisable cap) (set_cap cap false).

Definition glActiveTexture (texture : Z) : M unit :=
  gl_do (GlActiveTexture texture) (set_gl_active_texture texture).

Definition glUseProgram (program : Z) : M unit :=
  gl_do (GlUseProgram program) (set_gl_current_program program).

(* glBindTexture(GL_TEXTURE_2D, texture): binds on the active unit. *)
Definition glBindTexture (texture : Z) : M unit :=
  gl_do (GlBindTexture texture)
    (fun g => set_gl_texture_2d
                (fun u => if u =? gl_active_texture g then texture
                          else gl_texture_2d g u) g).

Definition glBindBuffer (target : GLbuffer) (buffer : Z) : M unit :=
  gl_do (GlBindBuffer target buffer)
    (match target with
     | GL_ARRAY_BUFFER => set_gl_array_buffer buffer
     | GL_ELEMENT_ARRAY_BUFFER => set_gl_element_array_buffer buffer
     end).

Definition glBlendEquation (mode : Z) : M unit :=
  gl_do (GlBlendEquation mode)
    (fun g => set_gl_blend_equation_alpha mode (set_gl_blend_equation_rgb mode g)).

Definition glBlendEquationSeparate (rgb alpha : Z) : M unit :=
  gl_do (GlBlendEquationSeparate rgb alpha)
    (fun g => set_gl_blend_equation_alpha alpha (set_gl_blend_equation_rgb rgb g)).

Definition glBlendFuncSeparate (src_rgb dst_rgb src_alpha dst_alpha : Z) : M unit :=
  gl_do (GlBlendFuncSeparate src_rgb dst_rgb src_alpha dst_alpha)
    (fun g => set_gl_blend_dst_alpha dst_alpha (set_gl_blend_src_alpha src_alpha
              (set_gl_blend_dst_rgb dst_rgb (set_gl_blend_src_rgb src_rgb g)))).

(* glViewport and glScissor store their arguments as given. *)
Definition glViewport (x y w h : Z) : M unit :=
  gl_do (GlViewport x y w h) (set_gl_viewport (mkBox x y w h)).

Definition glScissor (x y w h : Z) : M unit :=
  gl_do (GlScissor x y w h) (set_gl_scissor_box (mkBox x y w h)).

Definition glCreateShader (P : Platform) (kind : GLshader) : M Z :=
  answer (GlCreateShader kind) (gl_create_shader P kind).
Definition glCreateProgram (P : Platform) : M Z :=
  answer GlCreateProgram (gl_create_program P).
Definition glGenBuffers (name : Z) : M Z := answer GlGenBuffers name.
Definition glGenTextures (P : Platform) : M Z :=
  answer GlGenTextures (gl_gen_texture P).

(** ** Pipeline objects *)

Definition CheckShader (P : Platform) (handle : Z) (desc : string) : M bool :=
  let status := gl_compile_status P handle in
  let log_length := info_log_length (gl_shader_info_log P handle) in
  if negb status then
    when (log_length >? 1)
      (android_log ANDROID_LOG_ERROR "ERROR: %s shader failed to compile: %s"
         [ArgStr desc; ArgStr (gl_shader_info_log P handle)]) ;;
    ret false
  else ret true.

Definition CheckProgram (P : Platform) (handle : Z) (desc : string) : M bool :=
  let status := gl_link_status P handle in
  let log_length := info_log_length (gl_program_info_log P handle) in
  if negb status then
    when (log_length >? 1)
      (android_log ANDROID_LOG_ERROR "ERROR: %s program failed to link: %s"
         [ArgStr desc; ArgStr (gl_program_info_log P handle)]) ;;
    ret false
  else ret true.

(* The results of the three checks are discarded, as in the source. *)
Definition CreateDeviceObjects (P : Platform) : M bool :=
  v <- glCreateShader P GL_VERTEX_SHADER ;;
  assign set_g_VertHandle v ;;
  vert <- static g_VertHandle ;;
  call (GlShaderSource vert) ;;
  call (GlCompileShader vert) ;;
  CheckShader P vert "vertex shader" ;;

  f <- glCreateShader P GL_FRAGMENT_SHADER ;;
  assign set_g_FragHandle f ;;
  frag <- static g_FragHandle ;;
  call (GlShaderSource frag) ;;
  call (GlCompileShader frag) ;;
  CheckShader P frag "fragment shader" ;;

  p <- glCreateProgram P ;;
  assign set_g_ShaderHandle p ;;
  prog <- static g_ShaderHandle ;;
  call (GlAttachShader prog vert) ;;
  call (GlAttachShader prog frag) ;;
  call (GlLinkProgram prog) ;;
  CheckProgram P prog "shader program" ;;

  assign set_g_AttribLocationTex (gl_uniform_location P prog "Texture") ;;
  assign set_g_AttribLocationProjMtx (gl_uniform_location P prog "ProjMtx") ;;
  assign set_g_AttribLocationVtxPos (gl_attrib_location P prog "Position") ;;
  assign set_g_AttribLocationVtxUV (gl_attrib_location P prog "UV") ;;
  assign set_g_AttribLocationVtxColor (gl_attrib_location P prog "Color") ;;

  vbo <- glGenBuffers (gl_gen_buffer_1 P) ;;
  assign set_g_VboHandle vbo ;;
  elements <- glGenBuffers (gl_gen_buffer_2 P) ;;
  assign set_g_ElementsHandle elements ;;

  ret true.

(* GetTexDataAsRGBA32 builds the atlas when it is not built yet. *)
Definition CreateFontsTexture (P : Platform) : M bool :=
  call GetTexDataAsRGBA32 ;;
  assign_io set_FontsIsBuilt true ;;
  let width := fst (atlas_size P) in
  let height := snd (atlas_size P) in

  last_texture <- glGetIntegerv GL_TEXTURE_BINDING_2D ;;
  t <- glGenTextures P ;;
  assign set_g_FontTexture t ;;
  font <- static g_FontTexture ;;
  glBindTexture font ;;
  call GlTexParameteri ;;
  call GlTexParameteri ;;
  call (GlTexImage2D width height) ;;

  assign_io set_FontsTexID font ;;

  glBindTexture last_texture ;;
  ret true.

(** ** Surface and context *)

Definition ImGui_ImplAndroid_Init (P : Platform) (window : Z) : M bool :=
  assign set_g_Window window ;;
  if window =? NULL then
    android_log ANDROID_LOG_ERROR "Null window passed to ImGui_ImplAndroid_Init" [] ;;
    ret false
  else
  ANativeWindow_acquire window ;;
  let windowWidth := window_width P in
  let windowHeight := window_height P in
  ANativeWindow_release window ;;
  android_log ANDROID_LOG_INFO
    "ImGui_ImplAndroid_Init with window: %p, dimensions: %dx%d"
    [ArgPtr window; ArgInt windowWidth; ArgInt windowHeight] ;;
  if (windowWidth <=? 0) || (windowHeight <=? 0) then
    android_log ANDROID_LOG_ERROR "Invalid window dimensions" [] ;;
    ret false
  else
  d <- eglGetDisplay P ;;
  assign set_g_EglDisplay d ;;
  dpy <- static g_EglDisplay ;;
  if dpy =? EGL_NO_DISPLAY then
    android_log ANDROID_LOG_ERROR "Failed to get EGL display" [] ;;
    ret false
  else
  initialized <- eglInitialize P dpy ;;
  if negb initialized then
    android_log ANDROID_LOG_ERROR "Failed to initialize EGL" [] ;;
    ret false
  else
  android_log ANDROID_LOG_INFO "EGL initialized: version %d.%d"
    [ArgInt (fst (egl_version P)); ArgInt (snd (egl_version P))] ;;
  chosen <- eglChooseConfig P dpy ;;
  if negb chosen then
    android_log ANDROID_LOG_ERROR "Failed to choose EGL config" [] ;;
    ret false
  else
  win <- static g_Window ;;
  s <- eglCreateWindowSurface P dpy win ;;
  assign set_g_EglSurface s ;;
  surface <- static g_EglSurface ;;
  if surface =? EGL_NO_SURFACE then
    android_log ANDROID_LOG_ERROR "Failed to create EGL surface" [] ;;
    ret false
  else
  c <- eglCreateContext P dpy ;;
  assign set_g_EglContext c ;;
  ctx <- static g_EglContext ;;
  if ctx =? EGL_NO_CONTEXT then
    android_log ANDROID_LOG_ERROR "Failed to create EGL context" [] ;;
    ret false
  else
  current <- eglMakeCurrent P dpy surface surface ctx ;;
  if negb current then
    android_log ANDROID_LOG_ERROR "Failed to make EGL context current" [] ;;
    ret false
  else
  assign_io set_DisplaySize (mkVec2 (f_of_int windowWidth) (f_of_int windowHeight)) ;;
  flags <- gets (fun st => ConfigFlags (io st)) ;;
  assign_io set_ConfigFlags
    (Z.lor (Z.lor flags ImGuiConfigFlags_IsTouchScreen)
           ImGuiConfigFlags_NavEnableKeyboard) ;;
  call (StyleScaleAllSizes (f_lit 2)) ;;
  call (AddFontFromFileTTF "/system/fonts/DroidSans.ttf" (f_lit 24)) ;;
  CreateDeviceObjects P ;;
  CreateFontsTexture P ;;
  assign set_g_Initialized true ;;
  ret true.

Definition ImGui_ImplAndroid_Shutdown : M unit :=
  android_log ANDROID_LOG_INFO "ImGui_ImplAndroid_Shutdown called" [] ;;

  vbo <- static g_VboHandle ;;
  when (nonzero vbo) (call (GlDeleteBuffers vbo)) ;;
  elements <- static g_ElementsHandle ;;
  when (nonzero elements) (call (GlDeleteBuffers elements)) ;;
  assign set_g_ElementsHandle 0 ;;
  assign set_g_VboHandle 0 ;;

  prog <- static g_ShaderHandle ;;
  vert <- static g_VertHandle ;;
  when (nonzero prog && nonzero vert) (call (GlDetachShader prog vert)) ;;
  when (nonzero vert) (call (GlDeleteShader vert)) ;;
  assign set_g_VertHandle 0 ;;

  frag <- static g_FragHandle ;;
  when (nonzero prog && nonzero frag) (call (GlDetachShader prog frag)) ;;
  when (nonzero frag) (call (GlDeleteShader frag)) ;;
  assign set_g_FragHandle 0 ;;

  when (nonzero prog) (call (GlDeleteProgram prog)) ;;
  assign set_g_ShaderHandle 0 ;;

  font <- static g_FontTexture ;;
  when (nonzero font)
    (call (GlDeleteTextures font) ;;
     assign_io set_FontsTexID 0 ;;
     assign set_g_FontTexture 0) ;;

  dpy <- static g_EglDisplay ;;
  ctx <- static g_EglContext ;;
  surface <- static g_EglSurface ;;
  when (negb (dpy =? EGL_NO_DISPLAY))
    (android_log ANDROID_LOG_INFO "Destroying EGL resources" [] ;;
     call (EglMakeCurrent dpy EGL_NO_SURFACE EGL_NO_SURFACE EGL_NO_CONTEXT) ;;
     when (negb (ctx =? EGL_NO_CONTEXT)) (call (EglDestroyContext dpy ctx)) ;;
     when (negb (surface =? EGL_NO_SURFACE)) (call (EglDestroySurface dpy surface)) ;;
     call (EglTerminate dpy)) ;;

  assign set_g_EglDisplay EGL_NO_DISPLAY ;;
  assign set_g_EglContext EGL_NO_CONTEXT ;;
  assign set_g_EglSurface EGL_NO_SURFACE ;;
  assign set_g_Window NULL ;;
  assign set_g_Initialized false ;;

  android_log ANDROID_LOG_INFO "ImGui_ImplAndroid_Shutdown completed" [].

(** ** Frame and display adaptor *)

(* The scale chosen in NewFrame when the window size changed. *)
Definition select_displayScale (windowWidth windowHeight : Z) : float :=
  if (windowWidth >? 1080) || (windowHeight >? 1080) then f_lit 2
  else if (windowWidth >? 720) || (windowHeight >? 720) then f_lit (3 # 2)
  else f_lit 1.

(* [(float)(1.0f / 60.0f)] *)
Definition fallback_DeltaTime : float := f_div (f_lit 1) (f_lit 60).

Definition ImGui_ImplAndroid_NewFrame (P : Platform) : M unit :=
  initialized <- static g_Initialized ;;
  if negb initialized then
    android_log ANDROID_LOG_WARN
      "ImGui_ImplAndroid_NewFrame called but not initialized" []
  else
  dpy <- static g_EglDisplay ;;
  surface <- static g_EglSurface ;;
  ctx <- static g_EglContext ;;
  current <- eglMakeCurrent P dpy surface surface ctx ;;
  if negb current then
    android_log ANDROID_LOG_ERROR
      "Failed to make EGL context current in NewFrame" []
  else
  let windowWidth := window_width P in
  let windowHeight := window_height P in

  last_w <- static lastWidth ;;
  last_h <- static lastHeight ;;
  let orientationChanged :=
    negb (last_w =? windowWidth) || negb (last_h =? windowHeight) in
  when orientationChanged
    (android_log ANDROID_LOG_INFO "Orientation/size changed: %dx%d -> %dx%d"
       [ArgInt last_w; ArgInt last_h; ArgInt windowWidth; ArgInt windowHeight]) ;;
  assign set_lastWidth windowWidth ;;
  assign set_lastHeight windowHeight ;;

  assign_io set_DisplaySize (mkVec2 (f_of_int windowWidth) (f_of_int windowHeight)) ;;

  when orientationChanged
    (win <- static g_Window ;;
     ANativeWindow_acquire win ;;
     (* computed and never used *)
     let density := f_div (f_of_int (window_width P)) (f_of_int (window_height P)) in
     ANativeWindow_release win ;;
     assign set_displayScale (select_displayScale windowWidth windowHeight) ;;
     scale <- static displayScale ;;
     call (StyleScaleAllSizes scale) ;;
     assign_io set_FontGlobalScale scale) ;;

  time <- static g_Time ;;
  let current_time := imgui_time P in
  assign_io set_DeltaTime
    (if d_gt time (d_lit 0) then f_of_double (d_sub current_time time)
     else fallback_DeltaTime) ;;
  assign set_g_Time current_time ;;

  built <- gets (fun st => FontsIsBuilt (io st)) ;;
  when (negb built) (CreateFontsTexture P ;; ret tt).

(** ** Frame renderer *)

Definition ortho_projection (L R T B : float) : list float :=
  [ f_div (f_lit 2) (f_sub R L); f_lit 0; f_lit 0; f_lit 0;
    f_lit 0; f_div (f_lit 2) (f_sub T B); f_lit 0; f_lit 0;
    f_lit 0; f_lit 0; f_lit (-1); f_lit 0;
    f_div (f_add R L) (f_sub L R); f_div (f_add T B) (f_sub B T); f_lit 0; f_lit 1 ].

(* The scissor rectangle of a draw command, before clamping. *)
Definition scissor_of_clip (fb_height : Z) (clip : ImVec4) : Box :=
  mkBox (f_to_int (ImVec4_x clip))
        (f_to_int (f_sub (f_of_int fb_height) (ImVec4_w clip)))
        (f_to_int (f_sub (ImVec4_z clip) (ImVec4_x clip)))
        (f_to_int (f_sub (ImVec4_w clip) (ImVec4_y clip))).

(* One iteration of the inner loop, without the advance of idx_offset.
   Element counts and offsets are integers: they are the values the code
   passes as long as they stay in the range of an int. *)
Definition render_command (fb_height idx_offset : Z) (pcmd : ImDrawCmd) : M unit :=
  match UserCallback pcmd with
  | Some callback =>
      call InvokeUserCallback ;;
      modify (upd_gl callback)
  | None =>
      let raw := scissor_of_clip fb_height (ClipRect pcmd) in
      let scissor_x := box_x raw in
      let scissor_y := box_y raw in
      let scissor_w := box_w raw in
      let scissor_h := box_h raw in
      let scissor_x := if scissor_x <? 0 then 0 else scissor_x in
      let scissor_y := if scissor_y <? 0 then 0 else scissor_y in
      let scissor_w := if scissor_w <? 0 then 0 else scissor_w in
      let scissor_h := if scissor_h <? 0 then 0 else scissor_h in
      glScissor scissor_x scissor_y scissor_w scissor_h ;;
      glBindTexture (TextureId pcmd) ;;
      call (GlDrawElements (ElemCount pcmd) (idx_offset * sizeof_ImDrawIdx))
  end.

Fixpoint render_commands (fb_height idx_offset : Z) (cmds : list ImDrawCmd)
  : M unit :=
  match cmds with
  | [] => ret tt
  | pcmd :: rest =>
      render_command fb_height idx_offset pcmd ;;
      render_commands fb_height (idx_offset + ElemCount pcmd) rest
  end.

(* One iteration of the outer loop. *)
Definition render_command_list (fb_height : Z) (cmd_list : ImDrawList) : M unit :=
  vbo <- static g_VboHandle ;;
  glBindBuffer GL_ARRAY_BUFFER vbo ;;
  call (GlBufferData GL_ARRAY_BUFFER (VtxBuffer_Size cmd_list * sizeof_ImDrawVert)) ;;
  elements <- static g_ElementsHandle ;;
  glBindBuffer GL_ELEMENT_ARRAY_BUFFER elements ;;
  call (GlBufferData GL_ELEMENT_ARRAY_BUFFER
          (IdxBuffer_Size cmd_list * sizeof_ImDrawIdx)) ;;

  pos <- static g_AttribLocationVtxPos ;;
  uv <- static g_AttribLocationVtxUV ;;
  color <- static g_AttribLocationVtxColor ;;
  call (GlEnableVertexAttribArray pos) ;;
  call (GlEnableVertexAttribArray uv) ;;
  call (GlEnableVertexAttribArray color) ;;
  call (GlVertexAttribPointer pos 2) ;;
  call (GlVertexAttribPointer uv 2) ;;
  call (GlVertexAttribPointer color 4) ;;

  render_commands fb_height 0 (CmdBuffer cmd_list).

Fixpoint render_command_lists (fb_height : Z) (lists : list ImDrawList) : M unit :=
  match lists with
  | [] => ret tt
  | cmd_list :: rest =>
      render_command_list fb_height cmd_list ;;
      render_command_lists fb_height rest
  end.

Definition ImGui_ImplAndroid_RenderDrawData (P : Platform)
  (draw_data : option ImDrawData) : M unit :=
  initialized <- static g_Initialized ;;
  match draw_data with
  | None => ret tt
  | Some draw_data =>
  if negb initialized then ret tt else
  dpy <- static g_EglDisplay ;;
  surface <- static g_EglSurface ;;
  ctx <- static g_EglContext ;;
  current <- eglMakeCurrent P dpy surface surface ctx ;;
  if negb current then ret tt else

  let fb_width := f_to_int (ImVec2_x (draw_DisplaySize draw_data)) in
  let fb_height := f_to_int (ImVec2_y (draw_DisplaySize draw_data)) in
  if (fb_width <=? 0) || (fb_height <=? 0) then ret tt else

  (* Backup GL state *)
  last_active_texture <- glGetIntegerv GL_ACTIVE_TEXTURE ;;
  glActiveTexture GL_TEXTURE0 ;;
  last_program <- glGetIntegerv GL_CURRENT_PROGRAM ;;
  last_texture <- glGetIntegerv GL_TEXTURE_BINDING_2D ;;
  last_array_buffer <- glGetIntegerv GL_ARRAY_BUFFER_BINDING ;;
  last_element_array_buffer <- glGetIntegerv GL_ELEMENT_ARRAY_BUFFER_BINDING ;;
  last_vertex_array <- glGetIntegerv GL_VERTEX_ARRAY_BINDING ;;
  last_blend_src_rgb <- glGetIntegerv GL_BLEND_SRC_RGB ;;
  last_blend_dst_rgb <- glGetIntegerv GL_BLEND_DST_RGB ;;
  last_blend_src_alpha <- glGetIntegerv GL_BLEND_SRC_ALPHA ;;
  last_blend_dst_alpha <- glGetIntegerv GL_BLEND_DST_ALPHA ;;
  last_blend_equation_rgb <- glGetIntegerv GL_BLEND_EQUATION_RGB ;;
  last_blend_equation_alpha <- glGetIntegerv GL_BLEND_EQUATION_ALPHA ;;
  last_viewport <- glGetViewport ;;
  last_scissor_box <- glGetScissorBox ;;
  last_enable_blend <- glIsEnabled GL_BLEND ;;
  last_enable_cull_face <- glIsEnabled GL_CULL_FACE ;;
  last_enable_depth_test <- glIsEnabled GL_DEPTH_TEST ;;
  last_enable_scissor_test <- glIsEnabled GL_SCISSOR_TEST ;;

  (* Setup render state *)
  glEnable GL_BLEND ;;
  glBlendEquation GL_FUNC_ADD ;;
  glBlendFuncSeparate GL_SRC_ALPHA GL_ONE_MINUS_SRC_ALPHA GL_ONE GL_ONE_MINUS_SRC_ALPHA ;;
  glDisable GL_CULL_FACE ;;
  glDisable GL_DEPTH_TEST ;;
  glEnable GL_SCISSOR_TEST ;;

  glViewport 0 0 fb_width fb_height ;;
  call GlClearColor ;;
  call GlClear ;;

  let L := f_lit 0 in
  let R := ImVec2_x (draw_DisplaySize draw_data) in
  let T := f_lit 0 in
  let B := ImVec2_y (draw_DisplaySize draw_data) in
  let isPortrait := fb_height >? fb_width in

  prog <- static g_ShaderHandle ;;
  glUseProgram prog ;;
  tex <- static g_AttribLocationTex ;;
  call (GlUniform1i tex 0) ;;
  proj <- static g_AttribLocationProjMtx ;;
  call (GlUniformMatrix4fv proj (ortho_projection L R T B)) ;;

  (* Render command lists *)
  render_command_lists fb_height (CmdLists draw_data) ;;

  (* Restore modified GL state *)
  glUseProgram last_program ;;
  glBindTexture last_texture ;;
  glBindBuffer GL_ARRAY_BUFFER last_array_buffer ;;
  glBindBuffer GL_ELEMENT_ARRAY_BUFFER last_element_array_buffer ;;
  glBlendEquationSeparate last_blend_equation_rgb last_blend_equation_alpha ;;
  glBlendFuncSeparate last_blend_src_rgb last_blend_dst_rgb
                      last_blend_src_alpha last_blend_dst_alpha ;;
  (if last_enable_blend then glEnable GL_BLEND else glDisable GL_BLEND) ;;
  (if last_enable_cull_face then glEnable GL_CULL_FACE else glDisable GL_CULL_FACE) ;;
  (if last_enable_depth_test then glEnable GL_DEPTH_TEST else glDisable GL_DEPTH_TEST) ;;
  (if last_enable_scissor_test then glEnable GL_SCISSOR_TEST
   else glDisable GL_SCISSOR_TEST) ;;
  glViewport (box_x last_viewport) (box_y last_viewport)
             (box_w last_viewport) (box_h last_viewport) ;;
  glScissor (box_x last_scissor_box) (box_y last_scissor_box)
            (box_w last_scissor_box) (box_h last_scissor_box) ;;

  (* Swap buffers *)
  eglSwapBuffers dpy surface
  end.

(** ** Input translator *)

Definition ImGui_ImplAndroid_HandleInputEvent (event : AInputEvent) : M bool :=
  initialized <- static g_Initialized ;;
  if negb initialized then ret false else
  if AInputEvent_getType event =? AINPUT_EVENT_TYPE_MOTION then
    let action := AMotionEvent_getAction event in
    let actionMasked := Z.land action AMOTION_EVENT_ACTION_MASK in
    let pointerIndex :=
      Z.shiftr (Z.land action AMOTION_EVENT_ACTION_POINTER_INDEX_MASK)
               AMOTION_EVENT_ACTION_POINTER_INDEX_SHIFT in
    let pointerId := AMotionEvent_getPointerId event pointerIndex in
    let x := AMotionEvent_getX event pointerIndex in
    let y := AMotionEvent_getY event pointerIndex in
    android_log ANDROID_LOG_INFO "Touch event: action=%d, x=%f, y=%f"
      [ArgInt actionMasked; ArgFloat x; ArgFloat y] ;;
    (if (actionMasked =? AMOTION_EVENT_ACTION_DOWN)
        || (actionMasked =? AMOTION_EVENT_ACTION_POINTER_DOWN) then
       assign_io set_MouseDown0 true ;;
       assign_io set_MousePos (mkVec2 x y)
     else if actionMasked =? AMOTION_EVENT_ACTION_MOVE then
       assign_io set_MousePos (mkVec2 x y)
     else if (actionMasked =? AMOTION_EVENT_ACTION_UP)
             || (actionMasked =? AMOTION_EVENT_ACTION_POINTER_UP)
             || (actionMasked =? AMOTION_EVENT_ACTION_CANCEL) then
       assign_io set_MouseDown0 false
     else ret tt) ;;
    ret true
  else ret false.

End Backend.

(** * Observations

    What the properties below are stated with. *)

Section Observations.

Context {FM : FloatModel}.

(** A computation that only issues calls. *)
Definition silent (m : M unit) : Prop := forall s, final (m s) = s.

(** Every handle the backend owns is null. *)
Definition unbound (b : Backend) : Prop :=
  g_EglDisplay b = EGL_NO_DISPLAY /\ g_EglContext b = EGL_NO_CONTEXT /\
  g_EglSurface b = EGL_NO_SURFACE /\ g_Window b = NULL /\
  g_FontTexture b = 0 /\ g_VertHandle b = 0 /\ g_FragHandle b = 0 /\
  g_ShaderHandle b = 0 /\ g_VboHandle b = 0 /\ g_ElementsHandle b = 0.

(** Calls that release a GL or EGL object, or touch the context. *)
Definition is_release (c : Call) : bool :=
  match c with
  | GlDeleteBuffers _ | GlDetachShader _ _ | GlDeleteShader _
  | GlDeleteProgram _ | GlDeleteTextures _
  | EglMakeCurrent _ _ _ _ | EglDestroyContext _ _ | EglDestroySurface _ _
  | EglTerminate _ => true
  | _ => false
  end.

Definition is_log (c : Call) : bool :=
  match c with AndroidLog _ _ _ => true | _ => false end.

(** The line a failed check writes: none when the check passed or the
    driver has no diagnostic log. *)
Definition failure_log (ok : bool) (fmt desc log : string) : list Call :=
  if negb ok && (info_log_length log >? 1)
  then [AndroidLog ANDROID_LOG_ERROR fmt [ArgStr desc; ArgStr log]]
  else [].

Definition is_draw (c : Call) : bool :=
  match c with GlDrawElements _ _ => true | _ => false end.

Definition is_present (c : Call) : bool :=
  match c with EglSwapBuffers _ _ => true | _ => false end.

Definition is_scissor (c : Call) : bool :=
  match c with GlScissor _ _ _ _ => true | _ => false end.

(** No component of a scissor call is negative. *)
Definition scissor_nonneg (c : Call) : Prop :=
  match c with
  | GlScissor x y w h => 0 <= x /\ 0 <= y /\ 0 <= w /\ 0 <= h
  | _ => True
  end.

(** The scissor call of one draw command: none for a user callback, else
    the computed rectangle with every component clamped at zero. *)
Definition clamped_scissor (fb_height : Z) (pcmd : ImDrawCmd) : list Call :=
  match UserCallback pcmd with
  | Some _ => []
  | None =>
      let raw := scissor_of_clip fb_height (ClipRect pcmd) in
      [GlScissor (Z.max 0 (box_x raw)) (Z.max 0 (box_y raw))
                 (Z.max 0 (box_w raw)) (Z.max 0 (box_h raw))]
  end.

(** The scissor calls of all the commands of a frame, in order. *)
Definition clamped_scissors (fb_height : Z) (lists : list ImDrawList)
  : list Call :=
  flat_map (fun cmd_list => flat_map (clamped_scissor fb_height) (CmdBuffer cmd_list))
           lists.

(** The early-return tests of ImGui_ImplAndroid_RenderDrawData all pass. *)
Definition render_proceeds (P : Platform) (draw_data : ImDrawData) (s : State)
  : Prop :=
  g_Initialized (backend s) = true /\
  egl_make_current P = true /\
  0 < f_to_int (ImVec2_x (draw_DisplaySize draw_data)) /\
  0 < f_to_int (ImVec2_y (draw_DisplaySize draw_data)).

Definition restore_cap (cap : GLcap) (enabled : bool) : M unit :=
  if enabled then glEnable cap else glDisable cap.

(** The ambient fields the renderer queries before drawing, as the queries
    return them. *)
Record Snapshot : Type := mkSnapshot {
  last_active_texture : Z;
  last_program : Z;
  last_texture : Z;
  last_array_buffer : Z;
  last_element_array_buffer : Z;
  last_vertex_array : Z;
  last_blend_func : Z * Z * Z * Z;
  last_blend_equation : Z * Z;
  last_viewport : Box;
  last_scissor_box : Box;
  last_enable : bool * bool * bool * bool
}.

Definition capture (g : GLState) : Snapshot :=
  mkSnapshot (gl_active_texture g) (gl_current_program g)
    (gl_texture_2d g (gl_active_texture g))
    (gl_array_buffer g) (gl_element_array_buffer g) (gl_vertex_array g)
    (gl_blend_src_rgb g, gl_blend_dst_rgb g, gl_blend_src_alpha g,
     gl_blend_dst_alpha g)
    (gl_blend_equation_rgb g, gl_blend_equation_alpha g)
    (gl_viewport g) (gl_scissor_box g)
    (gl_blend g, gl_cull_face g, gl_depth_test g, gl_scissor_test g).

(** The fields no draw command writes. *)
Definition drawing_frame (g : GLState) :=
  (gl_active_texture g, gl_current_program g, gl_vertex_array g,
   (gl_blend_src_rgb g, gl_blend_dst_rgb g, gl_blend_src_alpha g,
    gl_blend_dst_alpha g),
   (gl_blend_equation_rgb g, gl_blend_equation_alpha g),
   gl_viewport g,
   (gl_blend g, gl_cull_face g, gl_depth_test g, gl_scissor_test g)).

(** What drawing leaves alone: the statics, the fields above, and the
    texture bound on every unit but the active one. *)
Definition kept (s s' : State) : Prop :=
  backend s' = backend s /\
  drawing_frame (gl s') = drawing_frame (gl s) /\
  forall u, u <> gl_active_texture (gl s) ->
            gl_texture_2d (gl s') u = gl_texture_2d (gl s) u.

Definition no_callback (lists : list ImDrawList) : Prop :=
  Forall (fun cmd_list =>
            Forall (fun pcmd => UserCallback pcmd = None) (CmdBuffer cmd_list))
         lists.

Definition action_masked (event : AInputEvent) : Z :=
  Z.land (AMotionEvent_getAction event) AMOTION_EVENT_ACTION_MASK.

Definition action_pointer_index (event : AInputEvent) : Z :=
  Z.shiftr (Z.land (AMotionEvent_getAction event)
                   AMOTION_EVENT_ACTION_POINTER_INDEX_MASK)
           AMOTION_EVENT_ACTION_POINTER_INDEX_SHIFT.

(** Where the pointer named by the action word is. *)
Definition event_position (event : AInputEvent) : ImVec2 :=
  mkVec2 (AMotionEvent_getX event (action_pointer_index event))
         (AMotionEvent_getY event (action_pointer_index event)).

Definition is_motion (event : AInputEvent) : bool :=
  AInputEvent_getType event =? AINPUT_EVENT_TYPE_MOTION.

Definition is_pointer_down (event : AInputEvent) : bool :=
  is_motion event
  && ((action_masked event =? AMOTION_EVENT_ACTION_DOWN)
      || (action_masked event =? AMOTION_EVENT_ACTION_POINTER_DOWN)).

Definition is_pointer_release (event : AInputEvent) : bool :=
  is_motion event
  && ((action_masked event =? AMOTION_EVENT_ACTION_UP)
      || (action_masked event =? AMOTION_EVENT_ACTION_POINTER_UP)
      || (action_masked event =? AMOTION_EVENT_ACTION_CANCEL)).

(** The action kinds the switch has a case for. *)
Definition is_processed_action (action : Z) : bool :=
  (action =? AMOTION_EVENT_ACTION_DOWN)
  || (action =? AMOTION_EVENT_ACTION_POINTER_DOWN)
  || (action =? AMOTION_EVENT_ACTION_MOVE)
  || (action =? AMOTION_EVENT_ACTION_UP)
  || (action =? AMOTION_EVENT_ACTION_POINTER_UP)
  || (action =? AMOTION_EVENT_ACTION_CANCEL).

End Observations.

(** * Further observations *)

Section MoreObservations.

Context {FM : FloatModel}.

(** The nine tests ImGui_ImplAndroid_Init makes before it sets anything up:
    the window is not null, its width and its height are positive, a display
    is obtained, eglInitialize and eglChooseConfig return EGL_TRUE, a surface
    and a context are created, eglMakeCurrent returns EGL_TRUE. *)
Definition init_conditions (P : Platform) (window : Z) : bool :=
  negb (window =? NULL)
  && (0 <? window_width P) && (0 <? window_height P)
  && negb (egl_display P =? EGL_NO_DISPLAY)
  && egl_initialize P
  && egl_choose_config P
  && negb (egl_surface P =? EGL_NO_SURFACE)
  && negb (egl_context P =? EGL_NO_CONTEXT)
  && egl_make_current P.

(** The error line Init writes: that of the first of its tests that fails,
    none when they all pass. *)
Definition init_error (P : Platform) (window : Z) : option string :=
  if window =? NULL then
    Some "Null window passed to ImGui_ImplAndroid_Init"%string
  else if (window_width P <=? 0) || (window_height P <=? 0) then
    Some "Invalid window dimensions"%string
  else if egl_display P =? EGL_NO_DISPLAY then
    Some "Failed to get EGL display"%string
  else if negb (egl_initialize P) then Some "Failed to initialize EGL"%string
  else if negb (egl_choose_config P) then
    Some "Failed to choose EGL config"%string
  else if egl_surface P =? EGL_NO_SURFACE then
    Some "Failed to create EGL surface"%string
  else if egl_context P =? EGL_NO_CONTEXT then
    Some "Failed to create EGL context"%string
  else if negb (egl_make_current P) then
    Some "Failed to make EGL context current"%string
  else None.

Definition is_error_log (c : Call) : bool :=
  match c with AndroidLog ANDROID_LOG_ERROR _ _ => true | _ => false end.

(** Calls into the GL. *)
Definition is_gl (c : Call) : bool :=
  match c with
  | AndroidLog _ _ _ | ANativeWindowAcquire _ | ANativeWindowRelease _
  | EglGetDisplay | EglInitialize _ | EglChooseConfig _
  | EglCreateWindowSurface _ _ | EglCreateContext _ | EglMakeCurrent _ _ _ _
  | EglDestroyContext _ _ | EglDestroySurface _ _ | EglTerminate _
  | EglSwapBuffers _ _
  | StyleScaleAllSizes _ | AddFontFromFileTTF _ _ | GetTexDataAsRGBA32
  | InvokeUserCallback => false
  | _ => true
  end.

(** Calls that change the GUI library's style or fonts. *)
Definition is_gui_setup (c : Call) : bool :=
  match c with
  | StyleScaleAllSizes _ | AddFontFromFileTTF _ _ | GetTexDataAsRGBA32 => true
  | _ => false
  end.

End MoreObservations.

Section AmbientObservations.

Context {FM : FloatModel}.

(** Every ambient field but the texture bindings. *)
Definition ambient_fields (g : GLState) :=
  (drawing_frame g, gl_array_buffer g, gl_element_array_buffer g,
   gl_scissor_box g).

(** Two GL states that no query can tell apart. *)
Definition same_ambient (g g' : GLState) : Prop :=
  ambient_fields g' = ambient_fields g /\
  forall u, gl_texture_2d g' u = gl_texture_2d g u.

(** The statics but the font texture. *)
Definition statics_but_font (b : Backend) :=
  (g_EglDisplay b, g_EglSurface b, g_EglContext b, g_Window b, g_Initialized b,
   (g_ShaderHandle b, g_VertHandle b, g_FragHandle b, g_VboHandle b,
    g_ElementsHandle b),
   (g_AttribLocationTex b, g_AttribLocationProjMtx b, g_AttribLocationVtxPos b,
    g_AttribLocationVtxUV b, g_AttribLocationVtxColor b),
   (lastWidth b, lastHeight b, displayScale b, g_Time b)).

Definition is_tex_image (c : Call) : bool :=
  match c with GlTexImage2D _ _ => true | _ => false end.

End AmbientObservations.

Section ShutdownObservations.

Context {FM : FloatModel}.

(** A release call names no null handle. *)
Definition releases_nonnull (c : Call) : Prop :=
  match c with
  | GlDeleteBuffers h | GlDeleteShader h | GlDeleteProgram h
  | GlDeleteTextures h | EglTerminate h | EglMakeCurrent h _ _ _ => h <> 0
  | GlDetachShader h1 h2 | EglDestroyContext h1 h2 | EglDestroySurface h1 h2 =>
      h1 <> 0 /\ h2 <> 0
  | _ => True
  end.

End ShutdownObservations.

Section NewFrameObservations.

Context {FM : FloatModel}.

Definition is_style_scale (c : Call) : bool :=
  match c with StyleScaleAllSizes _ => true | _ => false end.

(** The window size differs from the one NewFrame saw last. *)
Definition size_changed (P : Platform) (s : State) : bool :=
  negb (lastWidth (backend s) =? window_width P)
  || negb (lastHeight (backend s) =? window_height P).

(** The handles of the backend and its initialised flag. *)
Definition handles (b : Backend) :=
  (g_EglDisplay b, g_EglSurface b, g_EglContext b, g_Window b, g_Initialized b,
   (g_ShaderHandle b, g_VertHandle b, g_FragHandle b, g_VboHandle b,
    g_ElementsHandle b),
   (g_AttribLocationTex b, g_AttribLocationProjMtx b, g_AttribLocationVtxPos b,
    g_AttribLocationVtxUV b, g_AttribLocationVtxColor b)).

End NewFrameObservations.

Section RenderObservations.

Context {FM : FloatModel}.








End RenderObservations.

Section InvariantObservations.

Context {FM : FloatModel}.

(** The action word of a motion event: the index of the pointer it names,
    above the kind of action. *)
Definition action_word (pointerIndex kind : Z) : Z :=
  Z.lor (Z.shiftl pointerIndex AMOTION_EVENT_ACTION_POINTER_INDEX_SHIFT) kind.

(** The library's font identifier is the backend's font texture. *)
Definition font_id_consistent (s : State) : Prop :=
  FontsTexID (io s) = g_FontTexture (backend s).

(** An initialised backend has its window and its three EGL handles. *)
Definition initialized_is_bound (s : State) : Prop :=
  g_Initialized (backend s) = true ->
  g_Window (backend s) <> NULL /\
  g_EglDisplay (backend s) <> EGL_NO_DISPLAY /\
  g_EglSurface (backend s) <> EGL_NO_SURFACE /\
  g_EglContext (backend s) <> EGL_NO_CONTEXT.

End InvariantObservations.

(** * JNI entry points

    [src/platform/android/jni_bridge.cpp]: what Java calls to deliver key
    events and to ask for the OpenSSL version.  The entry points are
    functions from their arguments, and from what the Java side answers, to
    the calls they make on the GUI library's IO block and on the JNI
    environment. *)

Inductive ImGuiKey : Type :=
  | ImGuiKey_None
  | ImGuiKey_UpArrow | ImGuiKey_DownArrow | ImGuiKey_LeftArrow
  | ImGuiKey_RightArrow | ImGuiKey_Enter | ImGuiKey_Backspace
  | ImGuiKey_Tab | ImGuiKey_Space.

Definition ImGuiKey_eqb (a b : ImGuiKey) : bool :=
  match a, b with
  | ImGuiKey_None, ImGuiKey_None
  | ImGuiKey_UpArrow, ImGuiKey_UpArrow
  | ImGuiKey_DownArrow, ImGuiKey_DownArrow
  | ImGuiKey_LeftArrow, ImGuiKey_LeftArrow
  | ImGuiKey_RightArrow, ImGuiKey_RightArrow
  | ImGuiKey_Enter, ImGuiKey_Enter
  | ImGuiKey_Backspace, ImGuiKey_Backspace
  | ImGuiKey_Tab, ImGuiKey_Tab
  | ImGuiKey_Space, ImGuiKey_Space => true
  | _, _ => false
  end.

Inductive JniCall : Type :=
  | AddKeyEvent (key : ImGuiKey) (down : bool)
  | FindClass (name : string)
  | GetStaticMethodID (class : Z) (name signature : string)
  | CallStaticObjectMethod (class method : Z)
  | NewStringUTF (utf8 : string).

(* The switch on keyCode. *)
Definition imguiKey_of_keyCode (keyCode : Z) : ImGuiKey :=
  match keyCode with
  | 19 => ImGuiKey_UpArrow
  | 20 => ImGuiKey_DownArrow
  | 21 => ImGuiKey_LeftArrow
  | 22 => ImGuiKey_RightArrow
  | 66 => ImGuiKey_Enter
  | 67 => ImGuiKey_Backspace
  | 61 => ImGuiKey_Tab
  | 62 => ImGuiKey_Space
  | _ => ImGuiKey_None
  end.

Definition Java_com_example_imguihelloworld_ImGuiJNI_onKeyEvent
  (keyCode action metaState : Z) : list JniCall :=
  let imguiKey := imguiKey_of_keyCode keyCode in
  if negb (ImGuiKey_eqb imguiKey ImGuiKey_None) then
    if action =? 0 then [AddKeyEvent imguiKey false]
    else if action =? 1 then [AddKeyEvent imguiKey true]
    else []
  else [].

(** What the Java side answers to the three JNI calls of
    getOpenSSLVersionFromNative; a null class, method or object is 0 or
    [None]. *)
Record JavaSide : Type := mkJavaSide {
  java_find_class : string -> Z;
  java_get_static_method_id : Z -> string -> string -> Z;
  java_call_static_object_method : Z -> Z -> option string
}.

(* The result is the text of the jstring returned. *)
Definition Java_com_example_imguihelloworld_ImGuiJNI_getOpenSSLVersionFromNative
  (env : JavaSide) : string * list JniCall :=
  let openSSLLoaderClass :=
    java_find_class env "com/example/imguihelloworld/OpenSSLLoader" in
  let t1 := [FindClass "com/example/imguihelloworld/OpenSSLLoader"] in
  if openSSLLoaderClass =? 0 then
    ("Error: OpenSSLLoader class not found"%string,
     t1 ++ [NewStringUTF "Error: OpenSSLLoader class not found"])
  else
  let getVersionMethod :=
    java_get_static_method_id env openSSLLoaderClass "getOpenSSLVersion"
      "()Ljava/lang/String;" in
  let t2 := t1 ++ [GetStaticMethodID openSSLLoaderClass "getOpenSSLVersion"
                     "()Ljava/lang/String;"] in
  if getVersionMethod =? 0 then
    ("Error: getOpenSSLVersion method not found"%string,
     t2 ++ [NewStringUTF "Error: getOpenSSLVersion method not found"])
  else
  let versionObj :=
    java_call_static_object_method env openSSLLoaderClass getVersionMethod in
  let t3 := t2 ++ [CallStaticObjectMethod openSSLLoaderClass getVersionMethod] in
  match versionObj with
  | None =>
      ("Error: Failed to get OpenSSL version"%string,
       t3 ++ [NewStringUTF "Error: Failed to get OpenSSL version"])
  | Some version => (version, t3)
  end.

(** The Android key code the switch has for a key (KEYCODE_DPAD_UP is 19,
    and so on); 0 for [ImGuiKey_None], which has none. *)
Definition keyCode_of_imguiKey (key : ImGuiKey) : Z :=
  match key with
  | ImGuiKey_None => 0
  | ImGuiKey_UpArrow => 19
  | ImGuiKey_DownArrow => 20
  | ImGuiKey_LeftArrow => 21
  | ImGuiKey_RightArrow => 22
  | ImGuiKey_Enter => 66
  | ImGuiKey_Backspace => 67
  | ImGuiKey_Tab => 61
  | ImGuiKey_Space => 62
  end.

Definition is_jni_lookup (c : JniCall) : bool :=
  match c with
  | FindClass _ | GetStaticMethodID _ _ _ | CallStaticObjectMethod _ _ => true
  | _ => false
  end.

(** * The application

    [src/application.cpp].  [android] says whether the build defines
    [__ANDROID__], [with_python] whether it defines both [__ANDROID__] and
    [WITH_PYTHON].  The platform methods are pure virtual and the three
    [pythonBridge...] functions are declared elsewhere: a call to one of
    them is recorded, and what it returns is given with the input.  So is
    what the GUI library does to the widgets of a frame.  The members the
    methods act on are private, and the platform methods are taken not to
    call the public ticker methods. *)

Section Application.

Context {FM : FloatModel}.

Inductive GuiArg : Type := GuiStr (s : string) | GuiInt (n : Z).

Inductive AppCall : Type :=
  | ImGuiCreateContext
  | ImGuiStyleColorsDark
  | Cerr (text : string)
  | PlatformInit
  | PlatformHandleEvents
  | PlatformNewFrame
  | PlatformRender
  | PlatformShutdown
  | ImGuiBegin (name : string)
  | ImGuiText (fmt : string) (args : list GuiArg)
  | ImGuiTextColored (text : string)
  | ImGuiInputText (label : string)
  | ImGuiInputFloat (label : string)
  | ImGuiSameLine
  | ImGuiButton (label : string)
  | ImGuiSeparator
  | ImGuiBeginChild (name : string)
  | ImGuiTextWrapped (fmt : string) (args : list GuiArg)
  | ImGuiEndChild
  | ImGuiEnd
  | Cout (text : string)
  | CoutStarted (id : Z)       (* "Started ticker monitor with ID: " << id *)
  | PythonBridgeCreateTickerMonitor
      (ticker : string) (entryPrice : float) (scope : string)
      (leverage stopLoss : float) (returned : Z)
  | PythonBridgeStopTickerMonitor (monitorId : Z)   (* its result is discarded *)
  | PythonBridgeGetNextMessage.

(** The methods act on [m_tickerMonitorId], which the constructor sets
    to -1, and return its new value with the calls made. *)
Definition initial_tickerMonitorId : Z := -1.

Definition stopTickerMonitor (with_python : bool) (m_tickerMonitorId : Z)
  : Z * list AppCall :=
  if with_python then
    if m_tickerMonitorId >=? 0 then
      (-1, [PythonBridgeStopTickerMonitor m_tickerMonitorId;
            Cout "Stopped ticker monitor"])
    else (m_tickerMonitorId, [])
  else (m_tickerMonitorId, []).

Definition startTickerMonitor (with_python : bool) (returned : Z)
  (ticker : string) (entryPrice : float) (m_tickerMonitorId : Z)
  : Z * list AppCall :=
  if with_python then
    let stopped :=
      if m_tickerMonitorId >=? 0
      then stopTickerMonitor with_python m_tickerMonitorId
      else (m_tickerMonitorId, []) in
    (returned,
     snd stopped
     ++ [PythonBridgeCreateTickerMonitor ticker entryPrice "intraday"
           (f_lit 1) (f_lit (5 # 100)) returned;
         CoutStarted returned])
  else
    (m_tickerMonitorId,
     [Cout "Ticker monitoring is only supported on Android with Python enabled"]).

(* The message is a C string, [None] when the pointer is null. *)
Definition getNextTickerMessage (with_python : bool)
  (bridge_message : option string) : option string * list AppCall :=
  if with_python then (bridge_message, [PythonBridgeGetNextMessage])
  else (Some "Python support not enabled"%string, []).

(** A press of "Start Monitoring" or of "Stop Monitoring". *)
Inductive TickerRequest : Type :=
  | RequestStart (ticker : string) (entryPrice : float) (returned : Z)
  | RequestStop.

Definition serve (with_python : bool) (request : TickerRequest)
  (m_tickerMonitorId : Z) : Z * list AppCall :=
  match request with
  | RequestStart ticker entryPrice returned =>
      startTickerMonitor with_python returned ticker entryPrice m_tickerMonitorId
  | RequestStop => stopTickerMonitor with_python m_tickerMonitorId
  end.

Fixpoint serve_all (with_python : bool) (requests : list TickerRequest)
  (m_tickerMonitorId : Z) : Z * list AppCall :=
  match requests with
  | [] => (m_tickerMonitorId, [])
  | request :: rest =>
      let r1 := serve with_python request m_tickerMonitorId in
      let r2 := serve_all with_python rest (fst r1) in
      (fst r2, snd r1 ++ snd r2)
  end.

(** ** The requests made to the bridge

    What follows reads a trace as the application's side of the exchange.
    An identifier is outstanding when a create request returned it, it is
    not negative, and no stop request has named it since.  Whether the
    bridge stopped anything is not part of it: stopTickerMonitor discards
    what pythonBridgeStopTickerMonitor returns. *)
Fixpoint remove_first (id : Z) (ids : list Z) : list Z :=
  match ids with
  | [] => []
  | x :: rest => if x =? id then rest else x :: remove_first id rest
  end.

(** The outstanding identifiers after one more call. *)
Definition outstanding_step (ids : list Z) (c : AppCall) : list Z :=
  match c with
  | PythonBridgeCreateTickerMonitor _ _ _ _ _ returned =>
      if returned >=? 0 then returned :: ids else ids
  | PythonBridgeStopTickerMonitor monitorId => remove_first monitorId ids
  | _ => ids
  end.

Definition outstanding_after (ids : list Z) (trace : list AppCall) : list Z :=
  fold_left outstanding_step trace ids.

Definition is_bridge_call (c : AppCall) : bool :=
  match c with
  | PythonBridgeCreateTickerMonitor _ _ _ _ _ _
  | PythonBridgeStopTickerMonitor _ | PythonBridgeGetNextMessage => true
  | _ => false
  end.

(** Every stop request in a trace names an identifier outstanding then: none
    that was never handed out, and none twice. *)
Fixpoint stops_outstanding (ids : list Z) (trace : list AppCall) : Prop :=
  match trace with
  | [] => True
  | c :: rest =>
      match c with
      | PythonBridgeStopTickerMonitor monitorId => In monitorId ids
      | _ => True
      end /\ stops_outstanding (outstanding_step ids c) rest
  end.

(** A trace takes the outstanding identifiers from [ids] to [ids'] and
    its stop requests name outstanding ones only. *)
Definition requests_step (ids : list Z) (trace : list AppCall) (ids' : list Z)
  : Prop :=
  outstanding_after ids trace = ids' /\ stops_outstanding ids trace.

Definition is_monitor_call (c : AppCall) : bool :=
  match c with
  | PythonBridgeCreateTickerMonitor _ _ _ _ _ _
  | PythonBridgeStopTickerMonitor _ => true
  | _ => false
  end.

(** The identifier the application holds, when it is not negative. *)
Definition tracked (m_tickerMonitorId : Z) : list Z :=
  if m_tickerMonitorId >=? 0 then [m_tickerMonitorId] else [].

(** ** The frame and the main loop *)

(** The members and the function-local statics of renderImGui. *)
Record AppState : Type := mkAppState {
  m_imguiContext : Z;
  m_running : bool;
  m_tickerMonitorId : Z;
  inputBuffer : string;
  clickCount : Z;
  tickerBuffer : string;
  entryPrice : float
}.

(** The state a constructed application starts from. *)
Definition initial_AppState : AppState :=
  mkAppState 0 false initial_tickerMonitorId EmptyString 0 "AAPL" (f_lit 100).

(** What the user and the GUI library do in one frame: how the two text
    fields and the price field are edited, which buttons report a press,
    and what the bridge returns if it is asked. *)
Record GuiAnswers : Type := mkGuiAnswers {
  gui_input : string -> string;
  gui_clear : bool;
  gui_click : bool;
  gui_ticker : string -> string;
  gui_price : float -> float;
  gui_start : bool;
  gui_stop : bool;
  bridge_returned : Z;
  bridge_message : option string
}.

Definition initImGui (created : Z) (st : AppState) : bool * AppState * list AppCall :=
  let st1 := mkAppState created (m_running st) (m_tickerMonitorId st)
               (inputBuffer st) (clickCount st) (tickerBuffer st) (entryPrice st) in
  if created =? 0 then
    (false, st1, [ImGuiCreateContext; Cerr "Failed to create ImGui context"])
  else (true, st1, [ImGuiCreateContext; ImGuiStyleColorsDark]).

(** [clickCount++] on an int.  Past 2^31 - 1 the C++ behaviour is undefined;
    the two's complement wrap-around is what is taken here. *)
Definition int_increment (n : Z) : Z :=
  if n =? 2147483647 then -2147483648 else n + 1.

Definition renderImGui (with_python : bool) (g : GuiAnswers) (st : AppState)
  : AppState * list AppCall :=
  let t1 :=
    [ImGuiBegin "Hello, ImGui!";
     ImGuiText "Welcome to Dear ImGui!" [];
     ImGuiTextColored "This is a cross-platform application.";
     ImGuiText "Enter some text (tap to show keyboard):" [];
     ImGuiInputText "##input"] in
  let input1 := gui_input g (inputBuffer st) in
  let t2 := [ImGuiSameLine; ImGuiButton "Clear"] in
  let input2 := if gui_clear g then EmptyString else input1 in
  let t3 := [ImGuiText "You entered: %s" [GuiStr input2]; ImGuiButton "Click me!"] in
  let count := if gui_click g then int_increment (clickCount st) else clickCount st in
  let t4 :=
    [ImGuiText "Button clicked %d times" [GuiInt count];
     ImGuiSeparator;
     ImGuiText "Stock Monitoring" [];
     ImGuiInputText "Ticker"] in
  let ticker := gui_ticker g (tickerBuffer st) in
  let t5 := [ImGuiInputFloat "Entry Price"] in
  let price := gui_price g (entryPrice st) in
  let t6 := [ImGuiButton "Start Monitoring"] in
  let started :=
    if gui_start g
    then startTickerMonitor with_python (bridge_returned g) ticker price
           (m_tickerMonitorId st)
    else (m_tickerMonitorId st, []) in
  let t7 := [ImGuiSameLine; ImGuiButton "Stop Monitoring"] in
  let stopped :=
    if gui_stop g then stopTickerMonitor with_python (fst started)
    else (fst started, []) in
  let t8 :=
    [ImGuiSeparator; ImGuiText "Monitor Messages:" []; ImGuiBeginChild "Messages"] in
  let message := getNextTickerMessage with_python (bridge_message g) in
  let t9 :=
    match fst message with
    | Some (String c rest) => [ImGuiTextWrapped "%s" [GuiStr (String c rest)]]
    | _ => []
    end in
  (mkAppState (m_imguiContext st) (m_running st) (fst stopped) input2 count
     ticker price,
   t1 ++ t2 ++ t3 ++ t4 ++ t5 ++ t6 ++ snd started ++ t7 ++ snd stopped ++ t8
   ++ snd message ++ t9 ++ [ImGuiEndChild; ImGuiEnd]).

Definition renderFrame (with_python : bool) (g : GuiAnswers) (st : AppState)
  : AppState * list AppCall :=
  let r := renderImGui with_python g st in
  (fst r, [PlatformNewFrame] ++ snd r ++ [PlatformRender]).

Definition set_m_running (v : bool) (st : AppState) : AppState :=
  mkAppState (m_imguiContext st) v (m_tickerMonitorId st) (inputBuffer st)
    (clickCount st) (tickerBuffer st) (entryPrice st).

(** The loop of [run].  Each turn takes what platformHandleEvents answers:
    [None] when it returns false, else the frame that is then rendered.
    The result is [None] when the answers run out with the loop still
    going.  The loop is compiled only without [__ANDROID__], hence without
    Python. *)
Fixpoint main_loop (turns : list (option GuiAnswers)) (st : AppState)
  : option (AppState * list AppCall) :=
  match turns with
  | [] => None
  | None :: _ => Some (set_m_running false st, [PlatformHandleEvents])
  | Some g :: rest =>
      let r := renderFrame false g st in
      match main_loop rest (fst r) with
      | Some (st', t) => Some (st', [PlatformHandleEvents] ++ snd r ++ t)
      | None => None
      end
  end.

Definition run (android : bool) (init_ok : bool)
  (turns : list (option GuiAnswers)) (st : AppState)
  : option (AppState * list AppCall) :=
  if android then Some (st, [])
  else if negb init_ok then
    Some (st, [PlatformInit; Cerr "Failed to initialize platform"])
  else
    match main_loop turns (set_m_running true st) with
    | Some (st', t) => Some (st', [PlatformInit] ++ t ++ [PlatformShutdown])
    | None => None
    end.



(** The number of frames in which "Click me!" reports a press. *)
Definition clicks (frames : list GuiAnswers) : Z :=
  Z.of_nat (List.length (filter gui_click frames)).


(** The frames rendered one after the other. *)
Fixpoint render_frames (with_python : bool) (frames : list GuiAnswers)
  (st : AppState) : AppState * list AppCall :=
  match frames with
  | [] => (st, [])
  | g :: rest =>
      let r1 := renderImGui with_python g st in
      let r2 := render_frames with_python rest (fst r1) in
      (fst r2, snd r1 ++ snd r2)
  end.

End Application.

(** * Concrete inputs

    A process that starts with nothing bound, on a 1080 x 1920 window, with
    another renderer having left texture unit 1 active.  Floats are exact
    rationals here. *)

Definition ex_gl : GLState :=
  mkGL (GL_TEXTURE0 + 1) 3 (fun u => if u =? GL_TEXTURE0 then 11 else 12) 4 5 6
       GL_ONE 0 GL_ONE 0 GL_FUNC_ADD GL_FUNC_ADD
       (mkBox 0 0 640 480) (mkBox 0 0 640 480) false true true false.

Definition ex_io : ImGuiIO :=
  mkIO (mkVec2 0%Q 0%Q) 0 1%Q 0%Q (mkVec2 0%Q 0%Q) false 0 false.

Definition ex_start : State := mkState initial_backend ex_io ex_gl.

(** The platform: whether eglInitialize and eglMakeCurrent succeed, whether
    the vertex shader compiles, and the clock. *)
Definition ex_platform (initialize_ok current_ok vertex_ok : bool) (time : Q)
  : Platform :=
  mkPlatform 1080 1920 7 initialize_ok (1, 4) true 8 9 current_ok
    (fun kind => match kind with
                 | GL_VERTEX_SHADER => 21
                 | GL_FRAGMENT_SHADER => 22
                 end)
    (fun shader => if shader =? 21 then vertex_ok else true)
    (fun shader => if shader =? 21 then "0:1: syntax error"%string
                   else EmptyString)
    23 (fun _ => true) (fun _ => EmptyString)
    (fun _ _ => 0) (fun _ _ => 1) 31 32 41 (512, 64) time.

Definition ex_window : Z := 100.

(** After a successful init. *)
Definition ex_running : State :=
  final (ImGui_ImplAndroid_Init (ex_platform true true true 0%Q) ex_window ex_start).

(** A 100 x 100 frame with no command list. *)
Definition ex_empty_frame : ImDrawData := mkDrawData (mkVec2 100%Q 100%Q) [].

(** A command whose clip rectangle ends left of where it starts and reaches
    below the framebuffer. *)
Definition ex_command : ImDrawCmd :=
  mkDrawCmd 6 (mkVec4 10%Q 20%Q 5%Q 250%Q) 41 None.

Definition ex_frame : ImDrawData :=
  mkDrawData (mkVec2 100%Q 100%Q) [mkDrawList [ex_command] 4 6].

Definition ex_down : AInputEvent :=
  mkEvent AINPUT_EVENT_TYPE_MOTION AMOTION_EVENT_ACTION_DOWN [mkPointer 0 50%Q 60%Q].

Definition ex_up : AInputEvent :=
  mkEvent AINPUT_EVENT_TYPE_MOTION AMOTION_EVENT_ACTION_UP [mkPointer 0 70%Q 80%Q].

(* action 7 is AMOTION_EVENT_ACTION_HOVER_MOVE *)
Definition ex_hover : AInputEvent :=
  mkEvent AINPUT_EVENT_TYPE_MOTION 7 [mkPointer 0 1%Q 2%Q].

Definition ex_key : AInputEvent := mkEvent AINPUT_EVENT_TYPE_KEY 0 [].

(** The scale tiers with each threshold taken as the inclusive lower bound
    of the tier above it, which is how the specification words them. *)
Definition inclusive_displayScale {FM : FloatModel} (windowWidth windowHeight : Z)
  : float :=
  if (windowWidth >=? 1080) || (windowHeight >=? 1080) then f_lit 2
  else if (windowWidth >=? 720) || (windowHeight >=? 720) then f_lit (3 # 2)
  else f_lit 1.


(** A frame of no area. *)
Definition ex_flat_frame : ImDrawData := mkDrawData (mkVec2 100%Q 0%Q) [].

(** A second finger goes down at (30, 40) while the first rests at (10, 20). *)
Definition ex_second_down : AInputEvent :=
  mkEvent AINPUT_EVENT_TYPE_MOTION 261
          [mkPointer 0 10%Q 20%Q; mkPointer 1 30%Q 40%Q].

(** A Java side on which the class is found and the method is not. *)
Definition ex_java_without_method : JavaSide :=
  mkJavaSide (fun _ => 5) (fun _ _ _ => 0) (fun _ _ => Some "OpenSSL 3.0"%string).

(** A frame in which "Click me!" is pressed and nothing is edited, and a
    frame in which nothing happens. *)
Definition ex_click : GuiAnswers :=
  mkGuiAnswers (fun s => s) false true (fun s => s) (fun p => p) false false 0 None.

Definition ex_idle : GuiAnswers :=
  mkGuiAnswers (fun s => s) false false (fun s => s) (fun p => p) false false 0 None.

(** A frame in which "Start Monitoring" is pressed and the bridge would
    hand out the identifier 7. *)
Definition ex_press_start : GuiAnswers :=
  mkGuiAnswers (fun s => s) false false (fun s => s) (fun p => p) true false 7 None.

(** A frame in which both "Start Monitoring" and "Stop Monitoring" are
    pressed. *)
Definition ex_press_both : GuiAnswers :=
  mkGuiAnswers (fun s => s) false false (fun s => s) (fun p => p) true true 9 None.

(** * Properties *)

Section Properties.

Context {FM : FloatModel}.

(** ** The monad *)

Lemma result_bind {A B : Type} (m : M A) (k : A -> M B) (s : State) :
  result (bind m k s) = result (k (result (m s)) (final (m s))).
Proof.
  unfold bind, result, final.
  destruct (m s) as [[a s1] t1]; cbn.
  destruct (k a s1) as [[b s2] t2]; reflexivity.
Qed.

Lemma final_bind {A B : Type} (m : M A) (k : A -> M B) (s : State) :
  final (bind m k s) = final (k (result (m s)) (final (m s))).
Proof.
  unfold bind, result, final.
  destruct (m s) as [[a s1] t1]; cbn.
  destruct (k a s1) as [[b s2] t2]; reflexivity.
Qed.

Lemma calls_bind {A B : Type} (m : M A) (k : A -> M B) (s : State) :
  calls (bind m k s) = calls (m s) ++ calls (k (result (m s)) (final (m s))).
Proof.
  unfold bind, result, final, calls.
  destruct (m s) as [[a s1] t1]; cbn.
  destruct (k a s1) as [[b s2] t2]; reflexivity.
Qed.

Lemma silent_ret : silent (ret tt).
Proof. intro s; reflexivity. Qed.

Lemma silent_call (c : Call) : silent (call c).
Proof. intro s; reflexivity. Qed.

Lemma silent_log prio fmt args : silent (android_log prio fmt args).
Proof. intro s; reflexivity. Qed.

Lemma silent_when (c : bool) (m : M unit) : silent m -> silent (when c m).
Proof. intros H s; destruct c; [apply H | reflexivity]. Qed.

Lemma silent_bind (m : M unit) (k : unit -> M unit) :
  silent m -> silent (k tt) -> silent (bind m k).
Proof.
  intros Hm Hk s. rewrite final_bind, Hm.
  destruct (result (m s)). apply Hk.
Qed.

Create HintDb silent.
#[local] Hint Resolve silent_ret silent_call silent_log silent_when silent_bind
  : silent.

Lemma final_bind_silent {B : Type} (m : M unit) (k : unit -> M B) (s : State) :
  silent m -> final (bind m k s) = final (k tt s).
Proof.
  intro H. rewrite final_bind, H. destruct (result (m s)). reflexivity.
Qed.

Lemma result_bind_silent {B : Type} (m : M unit) (k : unit -> M B) (s : State) :
  silent m -> result (bind m k s) = result (k tt s).
Proof.
  intro H. rewrite result_bind, H. destruct (result (m s)). reflexivity.
Qed.

Lemma final_when (c : bool) (m : M unit) (s : State) :
  final (when c m s) = if c then final (m s) else s.
Proof. destruct c; reflexivity. Qed.

#[local] Arguments bind : simpl never.

(** One step through a sequence, for the final state or the result. *)
Ltac mstep :=
  first
    [ rewrite final_bind_silent by auto 8 with silent
    | rewrite result_bind_silent by auto 8 with silent
    | rewrite final_bind; cbn
    | rewrite result_bind; cbn
    | rewrite calls_bind; cbn ].

(** Stepping to the end, splitting on every test met on the way. *)
Ltac mrun :=
  repeat first
    [ mstep
    | match goal with
      | |- context [if ?c then _ else _] => destruct c eqn:?
      end ].

(** Running an entry point: unfold the monad and the record updates, and
    leave integer arithmetic and the float operations alone. *)
Ltac run :=
  cbv beta iota zeta delta
    -[Z.eqb Z.leb Z.ltb Z.gtb Z.geb Z.lor Z.land Z.shiftr Z.shiftl Z.mul Z.add
      Z.of_nat Z.to_nat Z.le Z.lt negb andb orb nth List.length String.length
      info_log_length
      float double f_lit f_of_int f_to_int f_add f_sub f_div d_lit d_sub d_gt
      f_of_double].

(** Case analysis on every conditional left in the goal. *)
Ltac split_ifs :=
  repeat match goal with
         | |- context [if ?c then _ else _] => destruct c eqn:?; run
         end.

(** ** Shutdown *)

Lemma Shutdown_final (s : State) :
  final (ImGui_ImplAndroid_Shutdown s) =
  mkState
    (mkBackend EGL_NO_DISPLAY EGL_NO_SURFACE EGL_NO_CONTEXT NULL false 0 0 0 0
       (g_AttribLocationTex (backend s)) (g_AttribLocationProjMtx (backend s))
       (g_AttribLocationVtxPos (backend s)) (g_AttribLocationVtxUV (backend s))
       (g_AttribLocationVtxColor (backend s)) 0 0
       (lastWidth (backend s)) (lastHeight (backend s))
       (displayScale (backend s)) (g_Time (backend s)))
    (if nonzero (g_FontTexture (backend s)) then set_FontsTexID 0 (io s) else io s)
    (gl s).
Proof.
  unfold ImGui_ImplAndroid_Shutdown.
  repeat mstep.
  destruct s as [b i g]; destruct b; cbn.
  unfold nonzero.
  destruct (Z.eqb_spec g_FontTexture0 0) as [->|_]; repeat mstep; reflexivity.
Qed.

(** On a state that is already unbound and not initialised, shutdown
    changes nothing and only writes its two log lines. *)
Lemma Shutdown_unbound_noop (s : State) :
  unbound (backend s) ->
  g_Initialized (backend s) = false ->
  final (ImGui_ImplAndroid_Shutdown s) = s /\
  filter is_release (calls (ImGui_ImplAndroid_Shutdown s)) = [].
Proof.
  intros (Hd & Hc & Hs & Hw & Hfont & Hv & Hf & Hp & Hvbo & Hel) Hinit.
  rewrite Shutdown_final.
  destruct s as [b i g]; destruct b; cbn in *.
  unfold EGL_NO_DISPLAY, EGL_NO_CONTEXT, EGL_NO_SURFACE, NULL in *.
  subst. split; reflexivity.
Qed.

(** C4. After shutdown every owned handle is null and the backend is not
    initialised; a second shutdown on that state changes nothing (statics,
    IO block and GL state are what the first call left) and issues no GL or
    EGL call at all: it only writes its two log lines. *)
Theorem shutdown_idempotent (s : State) :
  let r1 := ImGui_ImplAndroid_Shutdown s in
  let r2 := ImGui_ImplAndroid_Shutdown (final r1) in
  unbound (backend (final r1)) /\
  g_Initialized (backend (final r1)) = false /\
  final r2 = final r1 /\
  calls r2 =
    [AndroidLog ANDROID_LOG_INFO "ImGui_ImplAndroid_Shutdown called" [];
     AndroidLog ANDROID_LOG_INFO "ImGui_ImplAndroid_Shutdown completed" []] /\
  filter is_release (calls r2) = [].
Proof.
  cbv zeta.
  rewrite (Shutdown_final s).
  split; [repeat split |].
  split; [reflexivity |].
  split; [| split; reflexivity].
  rewrite Shutdown_final; cbn.
  destruct (nonzero (g_FontTexture (backend s))); reflexivity.
Qed.

(** ** Init *)

(** Boolean tests in the hypotheses, as propositions. *)
Ltac reflect_tests :=
  unfold NULL, EGL_NO_DISPLAY, EGL_NO_SURFACE, EGL_NO_CONTEXT in *;
  repeat match goal with
         | H : negb _ = true |- _ => apply negb_true_iff in H
         | H : negb _ = false |- _ => apply negb_false_iff in H
         | H : (_ || _) = true |- _ => apply orb_true_iff in H
         | H : (_ || _) = false |- _ => apply orb_false_iff in H; destruct H
         | H : (_ =? _) = true |- _ => apply Z.eqb_eq in H
         | H : (_ =? _) = false |- _ => apply Z.eqb_neq in H
         | H : (_ <=? _) = true |- _ => apply Z.leb_le in H
         | H : (_ <=? _) = false |- _ => apply Z.leb_gt in H
         end.

(** C2, as the code has it.  A failed init leaves the initialised flag as
    it was: a backend that was not initialised stays so, and a backend that
    was initialised stays marked initialised.  The window passed is stored
    whatever happens, a null one included.  When init fails on a null window
    or on non-positive window dimensions the display, surface and context
    handles are the ones from before the call.  When it fails later there is
    no roll-back: the handle returned by eglGetDisplay stays stored, and so
    do the surface and the context once their creation was reached; only
    shutdown nulls them. *)
Theorem init_failure_keeps_acquired_handles
  (P : Platform) (window : Z) (s : State) :
  result (ImGui_ImplAndroid_Init P window s) = false ->
  let b := backend s in
  let b' := backend (final (ImGui_ImplAndroid_Init P window s)) in
  g_Initialized b' = g_Initialized b /\
  g_Window b' = window /\
  (window = NULL \/ window_width P <= 0 \/ window_height P <= 0 ->
   g_EglDisplay b' = g_EglDisplay b /\
   g_EglSurface b' = g_EglSurface b /\
   g_EglContext b' = g_EglContext b) /\
  (window <> NULL -> 0 < window_width P -> 0 < window_height P ->
   g_EglDisplay b' = egl_display P /\
   (egl_display P <> EGL_NO_DISPLAY -> egl_initialize P = true ->
    egl_choose_config P = true ->
    g_EglSurface b' = egl_surface P /\
    (egl_surface P <> EGL_NO_SURFACE -> g_EglContext b' = egl_context P))) /\
  unbound (backend (final (ImGui_ImplAndroid_Shutdown
                             (final (ImGui_ImplAndroid_Init P window s))))).
Proof.
  intros Hfail b b'. subst b b'.
  rewrite Shutdown_final.
  cut (g_Initialized (backend (final (ImGui_ImplAndroid_Init P window s))) =
         g_Initialized (backend s) /\
       g_Window (backend (final (ImGui_ImplAndroid_Init P window s))) = window /\
       (window = NULL \/ window_width P <= 0 \/ window_height P <= 0 ->
        g_EglDisplay (backend (final (ImGui_ImplAndroid_Init P window s))) =
          g_EglDisplay (backend s) /\
        g_EglSurface (backend (final (ImGui_ImplAndroid_Init P window s))) =
          g_EglSurface (backend s) /\
        g_EglContext (backend (final (ImGui_ImplAndroid_Init P window s))) =
          g_EglContext (backend s)) /\
       (window <> NULL -> 0 < window_width P -> 0 < window_height P ->
        g_EglDisplay (backend (final (ImGui_ImplAndroid_Init P window s))) =
          egl_display P /\
        (egl_display P <> EGL_NO_DISPLAY -> egl_initialize P = true ->
         egl_choose_config P = true ->
         g_EglSurface (backend (final (ImGui_ImplAndroid_Init P window s))) =
           egl_surface P /\
         (egl_surface P <> EGL_NO_SURFACE ->
          g_EglContext (backend (final (ImGui_ImplAndroid_Init P window s))) =
            egl_context P)))).
  { intros (H1 & Hw & H2 & H3).
    split; [exact H1 |]. split; [exact Hw |].
    split; [exact H2 | split; [exact H3 | repeat split]]. }
  revert Hfail; unfold ImGui_ImplAndroid_Init; mrun; intro Hfail;
    try discriminate Hfail; cbn; reflect_tests.
  all: repeat split; intros; try reflexivity; try congruence;
    exfalso; intuition (lia || congruence).
Qed.

(** ** Pipeline objects *)

(** C3, as the code has it.  CreateDeviceObjects returns success whatever the
    compile and link status: the outcome of the three checks is discarded.
    A failed stage or link writes one error line carrying the driver's
    diagnostic log when that log is not empty, nothing otherwise.  The call
    runs to its end and stores every object it created. *)
Theorem CreateDeviceObjects_always_succeeds (P : Platform) (s : State) :
  let r := CreateDeviceObjects P s in
  let vert := gl_create_shader P GL_VERTEX_SHADER in
  let frag := gl_create_shader P GL_FRAGMENT_SHADER in
  let prog := gl_create_program P in
  result r = true /\
  filter is_log (calls r) =
    failure_log (gl_compile_status P vert)
      "ERROR: %s shader failed to compile: %s" "vertex shader"
      (gl_shader_info_log P vert) ++
    failure_log (gl_compile_status P frag)
      "ERROR: %s shader failed to compile: %s" "fragment shader"
      (gl_shader_info_log P frag) ++
    failure_log (gl_link_status P prog)
      "ERROR: %s program failed to link: %s" "shader program"
      (gl_program_info_log P prog) /\
  g_VertHandle (backend (final r)) = vert /\
  g_FragHandle (backend (final r)) = frag /\
  g_ShaderHandle (backend (final r)) = prog /\
  g_VboHandle (backend (final r)) = gl_gen_buffer_1 P /\
  g_ElementsHandle (backend (final r)) = gl_gen_buffer_2 P.
Proof.
  destruct s as [b i g]; destruct b; destruct P; run.
  split_ifs; repeat split; try reflexivity; cbn in *; discriminate.
Qed.

(** ** Render *)

Lemma restore_cap_if (cap : GLcap) (enabled : bool) :
  (if enabled then glEnable cap else glDisable cap) = restore_cap cap enabled.
Proof. reflexivity. Qed.

Lemma calls_restore_cap cap enabled s :
  calls (restore_cap cap enabled s) =
  [if enabled then GlEnable cap else GlDisable cap].
Proof. destruct enabled; reflexivity. Qed.

Lemma final_restore_cap cap enabled s :
  final (restore_cap cap enabled s) = upd_gl (set_cap cap enabled) s.
Proof. destruct enabled; reflexivity. Qed.

(** The calls of a render that proceeds, seen through a filter: what the two
    loops issue, started with the statics as they are, then what the restore
    and the swap add. *)
Lemma render_calls (P : Platform) (draw_data : ImDrawData) (s : State) :
  render_proceeds P draw_data s ->
  exists s1 : State,
    let r := ImGui_ImplAndroid_RenderDrawData P (Some draw_data) s in
    let loops :=
      calls (render_command_lists
               (f_to_int (ImVec2_y (draw_DisplaySize draw_data)))
               (CmdLists draw_data) s1) in
    filter is_draw (calls r) = filter is_draw loops /\
    filter is_present (calls r) =
      filter is_present loops
      ++ [EglSwapBuffers (g_EglDisplay (backend s)) (g_EglSurface (backend s))] /\
    filter is_scissor (calls r) =
      filter is_scissor loops
      ++ [GlScissor (box_x (gl_scissor_box (gl s))) (box_y (gl_scissor_box (gl s)))
                    (box_w (gl_scissor_box (gl s))) (box_h (gl_scissor_box (gl s)))] /\
    backend s1 = backend s.
Proof.
  intros (Hinit & Hcur & Hw & Hh).
  apply Z.leb_gt in Hw, Hh.
  eexists. cbv zeta.
  unfold ImGui_ImplAndroid_RenderDrawData.
  rewrite calls_bind; cbn. rewrite Hinit; cbn.
  repeat (rewrite calls_bind; cbn).
  rewrite Hcur, Hw, Hh; cbn.
  repeat (rewrite calls_bind; cbn).
  rewrite !restore_cap_if, !calls_restore_cap.
  destruct (gl_blend (gl s)), (gl_cull_face (gl s)), (gl_depth_test (gl s)),
    (gl_scissor_test (gl s));
    rewrite !filter_app; cbn; rewrite ?app_nil_r; repeat split; reflexivity.
Qed.

(** C5, as the code has it.  When the backend is initialised, the context
    can be made current, the framebuffer size is positive in both dimensions
    and the draw data holds no command list, render issues no draw call and
    presents the surface once. *)
Theorem render_empty_presents
  (P : Platform) (draw_data : ImDrawData) (s : State) :
  g_Initialized (backend s) = true ->
  egl_make_current P = true ->
  0 < f_to_int (ImVec2_x (draw_DisplaySize draw_data)) ->
  0 < f_to_int (ImVec2_y (draw_DisplaySize draw_data)) ->
  CmdListsCount draw_data = 0 ->
  let r := ImGui_ImplAndroid_RenderDrawData P (Some draw_data) s in
  filter is_draw (calls r) = [] /\
  filter is_present (calls r) =
    [EglSwapBuffers (g_EglDisplay (backend s)) (g_EglSurface (backend s))].
Proof.
  intros Hinit Hcur Hw Hh Hcount r.
  destruct (render_calls P draw_data s) as (s1 & Hdraw & Hpresent & _ & _).
  { repeat split; assumption. }
  unfold CmdListsCount in Hcount.
  destruct (CmdLists draw_data) as [|cmd_list rest]; [| discriminate Hcount].
  split; [exact Hdraw | exact Hpresent].
Qed.

(** *** Scissor rectangles *)

Lemma render_command_scissor fb_height idx_offset pcmd s :
  Forall scissor_nonneg (calls (render_command fb_height idx_offset pcmd s)).
Proof.
  unfold render_command.
  destruct (UserCallback pcmd) as [callback|].
  - repeat constructor.
  - repeat (rewrite calls_bind; cbn).
    repeat constructor;
      match goal with
      | |- 0 <= (if ?z <? 0 then 0 else ?z) => destruct (Z.ltb_spec z 0); lia
      end.
Qed.

Lemma render_commands_scissor fb_height cmds :
  forall idx_offset s,
    Forall scissor_nonneg (calls (render_commands fb_height idx_offset cmds s)).
Proof.
  induction cmds as [|pcmd rest IH]; intros idx_offset s; cbn [render_commands].
  - constructor.
  - rewrite calls_bind. apply Forall_app. split.
    + apply render_command_scissor.
    + apply IH.
Qed.

Lemma render_command_list_scissor fb_height cmd_list s :
  Forall scissor_nonneg (calls (render_command_list fb_height cmd_list s)).
Proof.
  unfold render_command_list.
  repeat (rewrite calls_bind; cbn).
  repeat (constructor; [exact I |]).
  apply render_commands_scissor.
Qed.

Lemma render_command_lists_scissor fb_height lists :
  forall s,
    Forall scissor_nonneg (calls (render_command_lists fb_height lists s)).
Proof.
  induction lists as [|cmd_list rest IH]; intro s; cbn [render_command_lists].
  - constructor.
  - rewrite calls_bind. apply Forall_app. split.
    + apply render_command_list_scissor.
    + apply IH.
Qed.

Lemma clamp_max (z : Z) : (if z <? 0 then 0 else z) = Z.max 0 z.
Proof. destruct (Z.ltb_spec z 0); lia. Qed.

Lemma render_command_calls fb_height idx_offset pcmd s :
  UserCallback pcmd = None ->
  let raw := scissor_of_clip fb_height (ClipRect pcmd) in
  calls (render_command fb_height idx_offset pcmd s) =
    [GlScissor (Z.max 0 (box_x raw)) (Z.max 0 (box_y raw))
               (Z.max 0 (box_w raw)) (Z.max 0 (box_h raw));
     GlBindTexture (TextureId pcmd);
     GlDrawElements (ElemCount pcmd) (idx_offset * sizeof_ImDrawIdx)].
Proof.
  intros Hcb raw. unfold render_command. rewrite Hcb.
  repeat (rewrite calls_bind; cbn).
  fold raw. rewrite !clamp_max. reflexivity.
Qed.

Lemma render_command_scissors fb_height idx_offset pcmd s :
  filter is_scissor (calls (render_command fb_height idx_offset pcmd s)) =
  clamped_scissor fb_height pcmd.
Proof.
  unfold clamped_scissor.
  destruct (UserCallback pcmd) as [callback|] eqn:Hcb.
  - unfold render_command. rewrite Hcb. reflexivity.
  - rewrite render_command_calls by exact Hcb. reflexivity.
Qed.

Lemma render_commands_scissors fb_height cmds :
  forall idx_offset s,
    filter is_scissor (calls (render_commands fb_height idx_offset cmds s)) =
    flat_map (clamped_scissor fb_height) cmds.
Proof.
  induction cmds as [|pcmd rest IH]; intros idx_offset s; cbn [render_commands].
  - reflexivity.
  - rewrite calls_bind, filter_app, render_command_scissors, IH. reflexivity.
Qed.

Lemma render_command_lists_scissors fb_height lists :
  forall s,
    filter is_scissor (calls (render_command_lists fb_height lists s)) =
    clamped_scissors fb_height lists.
Proof.
  induction lists as [|cmd_list rest IH]; intro s; cbn [render_command_lists].
  - reflexivity.
  - rewrite calls_bind, filter_app, IH.
    unfold clamped_scissors; cbn [flat_map]. f_equal.
    unfold render_command_list.
    repeat (rewrite calls_bind; cbn).
    apply render_commands_scissors.
Qed.

(** C6.  A draw command without a user callback issues exactly one scissor
    call, and each of its four components is the computed value clamped at
    zero from below; a computed width or height that is negative or zero
    therefore gives a rectangle of zero area.  The scissor calls of a whole
    render are these, one per such command and in order, followed by the
    one that puts back the saved scissor box; none of the former has a
    negative component. *)
Theorem scissor_rectangles_clamped :
  (forall (fb_height idx_offset : Z) (pcmd : ImDrawCmd) (s : State),
      UserCallback pcmd = None ->
      let raw := scissor_of_clip fb_height (ClipRect pcmd) in
      let w := Z.max 0 (box_w raw) in
      let h := Z.max 0 (box_h raw) in
      calls (render_command fb_height idx_offset pcmd s) =
        [GlScissor (Z.max 0 (box_x raw)) (Z.max 0 (box_y raw)) w h;
         GlBindTexture (TextureId pcmd);
         GlDrawElements (ElemCount pcmd) (idx_offset * sizeof_ImDrawIdx)] /\
      (box_w raw <= 0 \/ box_h raw <= 0 -> w * h = 0)) /\
  (forall (P : Platform) (draw_data : ImDrawData) (s : State),
      render_proceeds P draw_data s ->
      let fb_height := f_to_int (ImVec2_y (draw_DisplaySize draw_data)) in
      filter is_scissor
        (calls (ImGui_ImplAndroid_RenderDrawData P (Some draw_data) s)) =
        clamped_scissors fb_height (CmdLists draw_data)
        ++ [GlScissor (box_x (gl_scissor_box (gl s)))
                      (box_y (gl_scissor_box (gl s)))
                      (box_w (gl_scissor_box (gl s)))
                      (box_h (gl_scissor_box (gl s)))] /\
      Forall scissor_nonneg (clamped_scissors fb_height (CmdLists draw_data))).
Proof.
  split.
  - intros fb_height idx_offset pcmd s Hcb raw w h. subst w h. split.
    + apply render_command_calls, Hcb.
    + intros [Hw | Hh]; lia.
  - intros P draw_data s Hp fb_height.
    destruct (render_calls P draw_data s Hp) as (s1 & _ & _ & Hsc & _).
    cbv zeta in Hsc. rewrite render_command_lists_scissors in Hsc.
    split; [exact Hsc |].
    rewrite <- (render_command_lists_scissors fb_height (CmdLists draw_data) s).
    eapply incl_Forall; [apply incl_filter |].
    apply render_command_lists_scissor.
Qed.

(** *** Ambient state across a render *)

Lemma kept_refl s : kept s s.
Proof. repeat split. Qed.

Lemma kept_trans s1 s2 s3 : kept s1 s2 -> kept s2 s3 -> kept s1 s3.
Proof.
  intros (Hb1 & Hf1 & Ht1) (Hb2 & Hf2 & Ht2).
  assert (Ha : gl_active_texture (gl s2) = gl_active_texture (gl s1))
    by (unfold drawing_frame in Hf1; congruence).
  repeat split; try congruence.
  intros u Hu. rewrite Ht2 by congruence. apply Ht1, Hu.
Qed.

Lemma render_command_kept fb_height idx_offset pcmd s :
  UserCallback pcmd = None ->
  kept s (final (render_command fb_height idx_offset pcmd s)).
Proof.
  intro Hcb. unfold render_command. rewrite Hcb.
  repeat mstep.
  repeat split.
  intros u Hu; cbn. destruct (Z.eqb_spec u (gl_active_texture (gl s))); congruence.
Qed.

Lemma render_commands_kept fb_height cmds :
  Forall (fun pcmd => UserCallback pcmd = None) cmds ->
  forall idx_offset s,
    kept s (final (render_commands fb_height idx_offset cmds s)).
Proof.
  induction 1 as [|pcmd rest Hcb _ IH]; intros idx_offset s; cbn [render_commands].
  - apply kept_refl.
  - rewrite final_bind.
    eapply kept_trans; [apply render_command_kept, Hcb | apply IH].
Qed.

Lemma render_command_list_kept fb_height cmd_list s :
  Forall (fun pcmd => UserCallback pcmd = None) (CmdBuffer cmd_list) ->
  kept s (final (render_command_list fb_height cmd_list s)).
Proof.
  intro Hcb. unfold render_command_list.
  repeat mstep.
  eapply kept_trans; [| apply render_commands_kept, Hcb].
  repeat split.
Qed.

Lemma render_command_lists_kept fb_height lists :
  no_callback lists ->
  forall s, kept s (final (render_command_lists fb_height lists s)).
Proof.
  induction 1 as [|cmd_list rest Hcb _ IH]; intro s; cbn [render_command_lists].
  - apply kept_refl.
  - rewrite final_bind.
    eapply kept_trans; [apply render_command_list_kept, Hcb | apply IH].
Qed.

(** What a render that proceeds does to the ambient state when no command
    carries a user callback: every field of the snapshot is put back except
    the active texture unit, which stays GL_TEXTURE0.  The texture bound on
    each unit is the one from before the call. *)
Lemma render_restores_all_but_active_texture
  (P : Platform) (draw_data : ImDrawData) (s : State) :
  render_proceeds P draw_data s ->
  no_callback (CmdLists draw_data) ->
  let g := gl s in
  let g' := gl (final (ImGui_ImplAndroid_RenderDrawData P (Some draw_data) s)) in
  gl_active_texture g' = GL_TEXTURE0 /\
  (forall u, gl_texture_2d g' u = gl_texture_2d g u) /\
  capture g' =
    mkSnapshot GL_TEXTURE0 (last_program (capture g)) (gl_texture_2d g GL_TEXTURE0)
      (last_array_buffer (capture g)) (last_element_array_buffer (capture g))
      (last_vertex_array (capture g)) (last_blend_func (capture g))
      (last_blend_equation (capture g)) (last_viewport (capture g))
      (last_scissor_box (capture g)) (last_enable (capture g)).
Proof.
  intros (Hinit & Hcur & Hw & Hh) Hcb g g'. subst g g'.
  apply Z.leb_gt in Hw, Hh.
  unfold ImGui_ImplAndroid_RenderDrawData.
  rewrite final_bind; cbn. rewrite Hinit; cbn.
  repeat mstep.
  rewrite Hcur, Hw, Hh; cbn.
  repeat mstep.
  rewrite !restore_cap_if, !final_restore_cap.
  match goal with
  | |- context [final (render_command_lists ?h ?l ?s1)] =>
      destruct (render_command_lists_kept h l Hcb s1) as (_ & Hf & Ht);
      set (s2 := final (render_command_lists h l s1)) in *
  end.
  destruct s as [b i g]; destruct g; cbn in *.
  unfold drawing_frame in Hf; cbn in Hf.
  injection Hf as Hactive _ Hvao _ _ _ _ _ _ _ _ _ _ _.
  clearbody s2. destruct gl_viewport0, gl_scissor_box0.
  split; [exact Hactive |]. split.
  - intro u. rewrite Hactive.
    destruct (Z.eqb_spec u GL_TEXTURE0) as [-> | Hu]; [reflexivity | apply Ht, Hu].
  - unfold capture; cbn. rewrite Hactive, Hvao, Z.eqb_refl. reflexivity.
Qed.

(** ** NewFrame *)

(** What NewFrame leaves in the state when it passes its two guards. *)
Lemma NewFrame_final (P : Platform) (s : State) :
  g_Initialized (backend s) = true ->
  egl_make_current P = true ->
  let changed :=
    negb (lastWidth (backend s) =? window_width P)
    || negb (lastHeight (backend s) =? window_height P) in
  let s' := final (ImGui_ImplAndroid_NewFrame P s) in
  lastWidth (backend s') = window_width P /\
  lastHeight (backend s') = window_height P /\
  displayScale (backend s') =
    (if changed then select_displayScale (window_width P) (window_height P)
     else displayScale (backend s)) /\
  FontGlobalScale (io s') =
    (if changed then select_displayScale (window_width P) (window_height P)
     else FontGlobalScale (io s)) /\
  DeltaTime (io s') =
    (if d_gt (g_Time (backend s)) (d_lit 0)
     then f_of_double (d_sub (imgui_time P) (g_Time (backend s)))
     else fallback_DeltaTime) /\
  g_Time (backend s') = imgui_time P.
Proof.
  intros Hinit Hcur changed s'. subst changed s'.
  unfold ImGui_ImplAndroid_NewFrame.
  rewrite final_bind; cbn. rewrite Hinit; cbn.
  rewrite final_bind; cbn. rewrite final_bind; cbn. rewrite final_bind; cbn.
  rewrite final_bind; cbn. rewrite Hcur; cbn.
  repeat mstep.
  rewrite !final_when.
  destruct (negb (lastWidth (backend s) =? window_width P)
            || negb (lastHeight (backend s) =? window_height P));
    repeat mstep; cbn;
    destruct (FontsIsBuilt (io s)); cbn;
    unfold CreateFontsTexture; repeat mstep;
    repeat split; reflexivity.
Qed.

(** C7, as the code has it.  On a change of the window size NewFrame stores
    a scale that depends on the new width and height only.  A dimension
    counts for the higher tier only when it is strictly greater than the
    threshold: scale 2.0 when either dimension exceeds 1080, else 1.5 when
    either exceeds 720, else 1.0.  So width 1200 gives 2.0 at any height,
    width 800 gives 1.5 at heights up to 1080, width 400 gives 1.0 at
    heights up to 720, and the boundary values 1080 and 720 themselves fall
    in the lower tier. *)
Theorem scale_selected_by_strict_thresholds (P : Platform) (s : State) :
  g_Initialized (backend s) = true ->
  egl_make_current P = true ->
  lastWidth (backend s) <> window_width P
  \/ lastHeight (backend s) <> window_height P ->
  let s' := final (ImGui_ImplAndroid_NewFrame P s) in
  displayScale (backend s') =
    select_displayScale (window_width P) (window_height P) /\
  FontGlobalScale (io s') =
    select_displayScale (window_width P) (window_height P) /\
  (forall w h, 1080 < w \/ 1080 < h -> select_displayScale w h = f_lit 2) /\
  (forall w h, w <= 1080 -> h <= 1080 -> 720 < w \/ 720 < h ->
               select_displayScale w h = f_lit (3 # 2)) /\
  (forall w h, w <= 720 -> h <= 720 -> select_displayScale w h = f_lit 1) /\
  (forall h, select_displayScale 1200 h = f_lit 2) /\
  (forall h, h <= 1080 -> select_displayScale 800 h = f_lit (3 # 2)) /\
  (forall h, h <= 720 -> select_displayScale 400 h = f_lit 1) /\
  select_displayScale 1080 1080 = f_lit (3 # 2) /\
  select_displayScale 720 720 = f_lit 1.
Proof.
  intros Hinit Hcur Hchanged s'.
  assert (Hlarge : forall w h, 1080 < w \/ 1080 < h ->
                               select_displayScale w h = f_lit 2).
  { intros w h H. unfold select_displayScale.
    destruct (Z.gtb_spec w 1080), (Z.gtb_spec h 1080); cbn; try reflexivity; lia. }
  assert (Hmedium : forall w h, w <= 1080 -> h <= 1080 -> 720 < w \/ 720 < h ->
                                select_displayScale w h = f_lit (3 # 2)).
  { intros w h Hw Hh H. unfold select_displayScale.
    destruct (Z.gtb_spec w 1080), (Z.gtb_spec h 1080); try lia; cbn.
    destruct (Z.gtb_spec w 720), (Z.gtb_spec h 720); cbn; try reflexivity; lia. }
  assert (Hsmall : forall w h, w <= 720 -> h <= 720 ->
                               select_displayScale w h = f_lit 1).
  { intros w h Hw Hh. unfold select_displayScale.
    destruct (Z.gtb_spec w 1080), (Z.gtb_spec h 1080); try lia; cbn.
    destruct (Z.gtb_spec w 720), (Z.gtb_spec h 720); try lia; reflexivity. }
  destruct (NewFrame_final P s Hinit Hcur) as (_ & _ & Hscale & Hfont & _).
  assert (Hc : negb (lastWidth (backend s) =? window_width P)
               || negb (lastHeight (backend s) =? window_height P) = true).
  { apply orb_true_iff. rewrite !negb_true_iff, !Z.eqb_neq. exact Hchanged. }
  rewrite Hc in Hscale, Hfont.
  split; [exact Hscale |]. split; [exact Hfont |].
  split; [exact Hlarge |]. split; [exact Hmedium |]. split; [exact Hsmall |].
  split; [intro h; apply Hlarge; lia |].
  split; [intros h Hh; apply Hmedium; lia |].
  split; [intros h Hh; apply Hsmall; lia |].
  split; [apply Hmedium; lia | apply Hsmall; lia].
Qed.

Lemma CreateDeviceObjects_g_Time (P : Platform) (s : State) :
  g_Time (backend (final (CreateDeviceObjects P s))) = g_Time (backend s).
Proof.
  unfold CreateDeviceObjects, CheckShader, CheckProgram.
  mrun; reflexivity.
Qed.

Lemma CreateFontsTexture_g_Time (P : Platform) (s : State) :
  g_Time (backend (final (CreateFontsTexture P s))) = g_Time (backend s).
Proof.
  unfold CreateFontsTexture.
  repeat mstep; reflexivity.
Qed.

Lemma Init_g_Time (P : Platform) (window : Z) (s : State) :
  g_Time (backend (final (ImGui_ImplAndroid_Init P window s))) =
  g_Time (backend s).
Proof.
  unfold ImGui_ImplAndroid_Init.
  mrun; try reflexivity.
  rewrite CreateFontsTexture_g_Time, CreateDeviceObjects_g_Time.
  reflexivity.
Qed.

(** C8, as the code has it.  A NewFrame that passes its guards reports the
    fixed fallback when the stored timestamp is not greater than zero, as it
    is until a first frame has run, and the difference between the current
    time and the stored timestamp otherwise; it then stores the current
    time.  Init and shutdown leave the stored timestamp alone, so that the
    first frame after a later init measures from the last frame before it. *)
Theorem frame_delta_from_stored_time (P : Platform) (s : State) :
  g_Initialized (backend s) = true ->
  egl_make_current P = true ->
  let s' := final (ImGui_ImplAndroid_NewFrame P s) in
  DeltaTime (io s') =
    (if d_gt (g_Time (backend s)) (d_lit 0)
     then f_of_double (d_sub (imgui_time P) (g_Time (backend s)))
     else fallback_DeltaTime) /\
  g_Time (backend s') = imgui_time P /\
  (g_Time (backend s) = g_Time initial_backend ->
   d_gt (d_lit 0) (d_lit 0) = false ->
   DeltaTime (io s') = fallback_DeltaTime) /\
  (forall P0 window s0,
      g_Time (backend (final (ImGui_ImplAndroid_Init P0 window s0))) =
      g_Time (backend s0)) /\
  (forall s0,
      g_Time (backend (final (ImGui_ImplAndroid_Shutdown s0))) =
      g_Time (backend s0)).
Proof.
  intros Hinit Hcur s'.
  destruct (NewFrame_final P s Hinit Hcur) as (_ & _ & _ & _ & Hdelta & Htime).
  split; [exact Hdelta |]. split; [exact Htime |]. split; [| split].
  - intros H0 Hirrefl. subst s'. rewrite Hdelta, H0. cbn. rewrite Hirrefl.
    reflexivity.
  - intros P0 window s0. apply Init_g_Time.
  - intro s0. rewrite Shutdown_final. reflexivity.
Qed.

(** ** Input *)

Lemma HandleInputEvent_backend (event : AInputEvent) (s : State) :
  backend (final (ImGui_ImplAndroid_HandleInputEvent event s)) = backend s.
Proof.
  unfold ImGui_ImplAndroid_HandleInputEvent.
  mrun; reflexivity.
Qed.

(** C9, as the code has it.  Once the backend is initialised, a pointer-down
    event sets the tracked position to the position of the pointer it names
    and the primary button to true; a pointer-up or pointer-cancel event
    that follows sets the primary button to false and leaves the position
    where it was. *)
Theorem pointer_down_then_release (down release : AInputEvent) (s : State) :
  g_Initialized (backend s) = true ->
  is_pointer_down down = true ->
  is_pointer_release release = true ->
  let s1 := final (ImGui_ImplAndroid_HandleInputEvent down s) in
  let s2 := final (ImGui_ImplAndroid_HandleInputEvent release s1) in
  MousePos (io s1) = event_position down /\
  MouseDown0 (io s1) = true /\
  MouseDown0 (io s2) = false /\
  MousePos (io s2) = MousePos (io s1).
Proof.
  intros Hinit Hdown Hrelease s1 s2.
  assert (Hinit1 : g_Initialized (backend s1) = true).
  { subst s1. rewrite HandleInputEvent_backend. exact Hinit. }
  unfold is_pointer_down, is_motion, action_masked in Hdown.
  unfold is_pointer_release, is_motion, action_masked in Hrelease.
  apply andb_true_iff in Hdown as [Hd1 Hd2].
  apply andb_true_iff in Hrelease as [Hr1 Hr2].
  assert (Hnot_down :
            (Z.land (AMotionEvent_getAction release) AMOTION_EVENT_ACTION_MASK
               =? AMOTION_EVENT_ACTION_DOWN)
            || (Z.land (AMotionEvent_getAction release) AMOTION_EVENT_ACTION_MASK
                  =? AMOTION_EVENT_ACTION_POINTER_DOWN) = false).
  { revert Hr2.
    unfold AMOTION_EVENT_ACTION_DOWN, AMOTION_EVENT_ACTION_POINTER_DOWN,
      AMOTION_EVENT_ACTION_UP, AMOTION_EVENT_ACTION_POINTER_UP,
      AMOTION_EVENT_ACTION_CANCEL.
    generalize (Z.land (AMotionEvent_getAction release) AMOTION_EVENT_ACTION_MASK).
    intros a Ha.
    apply orb_false_iff; split; apply Z.eqb_neq; intros ->;
      discriminate Ha. }
  assert (Hnot_move :
            (Z.land (AMotionEvent_getAction release) AMOTION_EVENT_ACTION_MASK
               =? AMOTION_EVENT_ACTION_MOVE) = false).
  { revert Hr2.
    unfold AMOTION_EVENT_ACTION_MOVE,
      AMOTION_EVENT_ACTION_UP, AMOTION_EVENT_ACTION_POINTER_UP,
      AMOTION_EVENT_ACTION_CANCEL.
    generalize (Z.land (AMotionEvent_getAction release) AMOTION_EVENT_ACTION_MASK).
    intros a Ha. apply Z.eqb_neq; intros ->; discriminate Ha. }
  assert (H1 : io s1 = set_MousePos (event_position down)
                         (set_MouseDown0 true (io s))).
  { subst s1. unfold ImGui_ImplAndroid_HandleInputEvent.
    rewrite final_bind; cbn. rewrite Hinit, Hd1; cbn.
    repeat mstep. rewrite Hd2. repeat mstep. reflexivity. }
  assert (H2 : io s2 = set_MouseDown0 false (io s1)).
  { subst s2. unfold ImGui_ImplAndroid_HandleInputEvent.
    rewrite final_bind; cbn. rewrite Hinit1, Hr1; cbn.
    repeat mstep. rewrite Hnot_down, Hnot_move, Hr2. repeat mstep. reflexivity. }
  rewrite H2, H1. repeat split.
Qed.

(** C10.  HandleInputEvent returns true exactly when the backend is
    initialised and the event is a motion event; in particular it returns
    false for a key event and for any event while not initialised.  It
    never touches the statics, and it leaves the whole state as it was when
    it returns false or when the action kind has no case in the switch. *)
Theorem HandleInputEvent_consumed (event : AInputEvent) (s : State) :
  let r := ImGui_ImplAndroid_HandleInputEvent event s in
  result r = g_Initialized (backend s) && is_motion event /\
  (AInputEvent_getType event = AINPUT_EVENT_TYPE_KEY -> result r = false) /\
  backend (final r) = backend s /\
  (result r = false \/ is_processed_action (action_masked event) = false ->
   final r = s).
Proof.
  intro r. subst r.
  assert (Hres : result (ImGui_ImplAndroid_HandleInputEvent event s) =
                 g_Initialized (backend s) && is_motion event).
  { unfold ImGui_ImplAndroid_HandleInputEvent, is_motion.
    rewrite result_bind; cbn.
    destruct (g_Initialized (backend s)); cbn; [| reflexivity].
    destruct (AInputEvent_getType event =? AINPUT_EVENT_TYPE_MOTION);
      [| reflexivity].
    repeat mstep. reflexivity. }
  split; [exact Hres |]. split; [| split].
  - intro Hkey. rewrite Hres. unfold is_motion. rewrite Hkey.
    apply andb_false_r.
  - apply HandleInputEvent_backend.
  - intros H. rewrite Hres in H. revert H.
    unfold ImGui_ImplAndroid_HandleInputEvent, is_motion, is_processed_action,
      action_masked.
    rewrite final_bind; cbn.
    destruct (g_Initialized (backend s)); cbn; [| reflexivity].
    destruct (AInputEvent_getType event =? AINPUT_EVENT_TYPE_MOTION); cbn;
      [| reflexivity].
    intros [H | H]; [discriminate H |].
    repeat apply orb_false_iff in H as [H ?].
    repeat mstep.
    repeat match goal with Hx : (_ =? _) = false |- _ => rewrite Hx; clear Hx end.
    cbn. reflexivity.
Qed.

(** ** Init, beyond its failures *)

Lemma CreateDeviceObjects_result (P : Platform) (s : State) :
  result (CreateDeviceObjects P s) = true.
Proof.
  unfold CreateDeviceObjects, CheckShader, CheckProgram.
  mrun; reflexivity.
Qed.

Lemma Init_result (P : Platform) (window : Z) (s : State) :
  result (ImGui_ImplAndroid_Init P window s) = init_conditions P window.
Proof.
  unfold ImGui_ImplAndroid_Init, init_conditions.
  mrun; reflect_tests;
    repeat match goal with
           | |- context [0 <? ?x] => destruct (Z.ltb_spec 0 x)
           end;
    repeat match goal with
           | H : _ = true |- _ => rewrite H; clear H
           | H : _ = false |- _ => rewrite H; clear H
           end;
    cbn; rewrite ?andb_false_r; try reflexivity; exfalso; intuition lia.
Qed.

(** Init returns true exactly when its nine tests pass.  When it returns
    false it has written one error line, the one of the first test that
    failed, tests being made in the order: window, dimensions, display,
    eglInitialize, eglChooseConfig, surface, context, eglMakeCurrent. *)
Theorem Init_result_and_error_line (P : Platform) (window : Z) (s : State) :
  let r := ImGui_ImplAndroid_Init P window s in
  result r = init_conditions P window /\
  match init_error P window with
  | None => result r = true
  | Some message =>
      result r = false /\
      filter is_error_log (calls r) = [AndroidLog ANDROID_LOG_ERROR message []]
  end.
Proof.
  cbv zeta. split; [apply Init_result |].
  unfold init_error, ImGui_ImplAndroid_Init.
  mrun; first [split; reflexivity | reflexivity].
Qed.

Lemma same_ambient_refl g : same_ambient g g.
Proof. split; reflexivity. Qed.

Lemma same_ambient_trans g1 g2 g3 :
  same_ambient g1 g2 -> same_ambient g2 g3 -> same_ambient g1 g3.
Proof.
  intros (Hf1 & Ht1) (Hf2 & Ht2). split; [congruence |].
  intro u. rewrite Ht2. apply Ht1.
Qed.

(** ** The font atlas texture *)

Lemma CreateFontsTexture_state (P : Platform) (s : State) :
  let s' := final (CreateFontsTexture P s) in
  same_ambient (gl s) (gl s') /\
  backend s' = set_g_FontTexture (gl_gen_texture P) (backend s) /\
  io s' = set_FontsTexID (gl_gen_texture P) (set_FontsIsBuilt true (io s)).
Proof.
  cbv zeta. unfold CreateFontsTexture.
  repeat mstep.
  repeat split.
  intro u; cbn.
  destruct (Z.eqb_spec u (gl_active_texture (gl s))) as [-> | Hu]; reflexivity.
Qed.

(** CreateFontsTexture uploads the atlas once, at the size the GUI library
    reports, stores the new texture both in its static and as the library's
    font identifier, marks the atlas built, and hands the GL back exactly as
    it found it: the texture it bound is replaced by the one that was bound
    before, on the active unit, and no other field is written. *)
Theorem CreateFontsTexture_restores_binding (P : Platform) (s : State) :
  let r := CreateFontsTexture P s in
  result r = true /\
  same_ambient (gl s) (gl (final r)) /\
  g_FontTexture (backend (final r)) = gl_gen_texture P /\
  FontsTexID (io (final r)) = gl_gen_texture P /\
  FontsIsBuilt (io (final r)) = true /\
  statics_but_font (backend (final r)) = statics_but_font (backend s) /\
  filter is_tex_image (calls r) =
    [GlTexImage2D (fst (atlas_size P)) (snd (atlas_size P))].
Proof.
  cbv zeta.
  destruct (CreateFontsTexture_state P s) as (Hgl & Hb & Hio).
  split; [unfold CreateFontsTexture; repeat mstep; reflexivity |].
  split; [exact Hgl |].
  rewrite Hb, Hio.
  do 4 (split; [reflexivity |]).
  unfold CreateFontsTexture. repeat mstep. reflexivity.
Qed.

Lemma CreateDeviceObjects_state (P : Platform) (s : State) :
  let s' := final (CreateDeviceObjects P s) in
  let prog := gl_create_program P in
  io s' = io s /\ gl s' = gl s /\
  backend s' =
    set_g_ElementsHandle (gl_gen_buffer_2 P)
      (set_g_VboHandle (gl_gen_buffer_1 P)
         (set_g_AttribLocationVtxColor (gl_attrib_location P prog "Color")
            (set_g_AttribLocationVtxUV (gl_attrib_location P prog "UV")
               (set_g_AttribLocationVtxPos (gl_attrib_location P prog "Position")
                  (set_g_AttribLocationProjMtx (gl_uniform_location P prog "ProjMtx")
                     (set_g_AttribLocationTex (gl_uniform_location P prog "Texture")
                        (set_g_ShaderHandle prog
                           (set_g_FragHandle (gl_create_shader P GL_FRAGMENT_SHADER)
                              (set_g_VertHandle (gl_create_shader P GL_VERTEX_SHADER)
                                 (backend s)))))))))).
Proof.
  cbv zeta. unfold CreateDeviceObjects, CheckShader, CheckProgram.
  mrun; repeat split.
Qed.

Lemma testbit_flag (k n : Z) :
  0 <= k -> Z.testbit (Z.shiftl 1 k) n = (n =? k).
Proof.
  intro Hk. rewrite Z.shiftl_1_l, Z.eqb_sym. apply Z.pow2_bits_eqb, Hk.
Qed.

Lemma Init_final_success (P : Platform) (window : Z) (s : State) :
  init_conditions P window = true ->
  final (ImGui_ImplAndroid_Init P window s) =
  upd_backend (set_g_Initialized true)
    (final (CreateFontsTexture P
       (final (CreateDeviceObjects P
          (upd_io
             (set_ConfigFlags
                (Z.lor (Z.lor (ConfigFlags (io s)) ImGuiConfigFlags_IsTouchScreen)
                       ImGuiConfigFlags_NavEnableKeyboard))
             (upd_io
                (set_DisplaySize
                   (mkVec2 (f_of_int (window_width P))
                           (f_of_int (window_height P))))
                (upd_backend (set_g_EglContext (egl_context P))
                   (upd_backend (set_g_EglSurface (egl_surface P))
                      (upd_backend (set_g_EglDisplay (egl_display P))
                         (upd_backend (set_g_Window window) s)))))))))).
Proof.
  intro Hok. unfold init_conditions in Hok.
  repeat (apply andb_true_iff in Hok as [Hok ?]).
  unfold ImGui_ImplAndroid_Init.
  mrun; try reflexivity; exfalso; reflect_tests;
    repeat match goal with
           | H : (0 <? _) = true |- _ => apply Z.ltb_lt in H
           end;
    intuition (lia || congruence).
Qed.

(** A successful init leaves the backend initialised on the window it was
    given, with the three EGL handles the platform returned, all non-null;
    it holds the shader, program and buffer names the GL returned, reports
    the window size as the display size, sets the touch-screen and
    keyboard-navigation flags and no other flag, and has a font texture
    whose name is also the library's font identifier. *)
Theorem Init_success_state (P : Platform) (window : Z) (s : State) :
  result (ImGui_ImplAndroid_Init P window s) = true ->
  let s' := final (ImGui_ImplAndroid_Init P window s) in
  g_Initialized (backend s') = true /\
  g_Window (backend s') = window /\
  (g_EglDisplay (backend s'), g_EglSurface (backend s'), g_EglContext (backend s')) =
    (egl_display P, egl_surface P, egl_context P) /\
  (egl_display P <> EGL_NO_DISPLAY /\ egl_surface P <> EGL_NO_SURFACE /\
   egl_context P <> EGL_NO_CONTEXT) /\
  DisplaySize (io s') =
    mkVec2 (f_of_int (window_width P)) (f_of_int (window_height P)) /\
  (forall n, Z.testbit (ConfigFlags (io s')) n =
             Z.testbit (ConfigFlags (io s)) n || (n =? 21) || (n =? 0)) /\
  FontsTexID (io s') = g_FontTexture (backend s') /\
  g_FontTexture (backend s') = gl_gen_texture P /\
  FontsIsBuilt (io s') = true /\
  (g_VertHandle (backend s'), g_FragHandle (backend s'),
   g_ShaderHandle (backend s'), g_VboHandle (backend s'),
   g_ElementsHandle (backend s')) =
    (gl_create_shader P GL_VERTEX_SHADER, gl_create_shader P GL_FRAGMENT_SHADER,
     gl_create_program P, gl_gen_buffer_1 P, gl_gen_buffer_2 P).
Proof.
  intros Hok s'. subst s'.
  rewrite Init_result in Hok.
  rewrite (Init_final_success P window s Hok).
  unfold init_conditions in Hok.
  repeat (apply andb_true_iff in Hok as [Hok ?]).
  reflect_tests.
  match goal with
  | |- context [CreateDeviceObjects P ?s1] =>
      destruct (CreateDeviceObjects_state P s1) as (Hio1 & Hgl1 & Hb1);
      destruct (CreateFontsTexture_state P (final (CreateDeviceObjects P s1)))
        as (Hamb & Hb2 & Hio2);
      rewrite Hgl1 in Hamb;
      set (s2 := final (CreateDeviceObjects P s1)) in *;
      set (s3 := final (CreateFontsTexture P s2)) in *
  end.
  clearbody s3. clearbody s2.
  cbn in *. rewrite Hb2, Hio2, Hb1, Hio1. cbn.
  repeat split; try assumption.
  intro n. rewrite !Z.lor_spec.
  rewrite (testbit_flag 21 n ltac:(lia) : Z.testbit 2097152 n = _).
  rewrite (testbit_flag 0 n ltac:(lia) : Z.testbit 1 n = _).
  reflexivity.
Qed.

(** A failed init has made no GL call and no change to the GUI library:
    style, fonts and IO block are untouched, and so is the ambient GL
    state.  GL objects are created only once the context is current. *)
Theorem Init_failure_makes_no_gl_call (P : Platform) (window : Z) (s : State) :
  result (ImGui_ImplAndroid_Init P window s) = false ->
  let r := ImGui_ImplAndroid_Init P window s in
  filter is_gl (calls r) = [] /\
  filter is_gui_setup (calls r) = [] /\
  io (final r) = io s /\
  gl (final r) = gl s.
Proof.
  intros Hfail r. subst r. revert Hfail.
  unfold ImGui_ImplAndroid_Init.
  mrun; intro Hfail; try discriminate Hfail; repeat split.
Qed.

(** ** Shutdown, call by call *)

Lemma calls_when (c : bool) (m : M unit) (s : State) :
  calls (when c m s) = if c then calls (m s) else [].
Proof. destruct c; reflexivity. Qed.

Lemma final_silent (m : M unit) (s : State) : silent m -> final (m s) = s.
Proof. intro H. apply H. Qed.

Lemma Shutdown_calls (s : State) :
  let b := backend s in
  let released (c : bool) (call : Call) := if c then [call] else [] in
  calls (ImGui_ImplAndroid_Shutdown s) =
    AndroidLog ANDROID_LOG_INFO "ImGui_ImplAndroid_Shutdown called" []
    :: released (nonzero (g_VboHandle b)) (GlDeleteBuffers (g_VboHandle b))
    ++ released (nonzero (g_ElementsHandle b)) (GlDeleteBuffers (g_ElementsHandle b))
    ++ released (nonzero (g_ShaderHandle b) && nonzero (g_VertHandle b))
         (GlDetachShader (g_ShaderHandle b) (g_VertHandle b))
    ++ released (nonzero (g_VertHandle b)) (GlDeleteShader (g_VertHandle b))
    ++ released (nonzero (g_ShaderHandle b) && nonzero (g_FragHandle b))
         (GlDetachShader (g_ShaderHandle b) (g_FragHandle b))
    ++ released (nonzero (g_FragHandle b)) (GlDeleteShader (g_FragHandle b))
    ++ released (nonzero (g_ShaderHandle b)) (GlDeleteProgram (g_ShaderHandle b))
    ++ released (nonzero (g_FontTexture b)) (GlDeleteTextures (g_FontTexture b))
    ++ (if negb (g_EglDisplay b =? EGL_NO_DISPLAY)
        then AndroidLog ANDROID_LOG_INFO "Destroying EGL resources" []
             :: EglMakeCurrent (g_EglDisplay b) EGL_NO_SURFACE EGL_NO_SURFACE
                  EGL_NO_CONTEXT
             :: released (negb (g_EglContext b =? EGL_NO_CONTEXT))
                  (EglDestroyContext (g_EglDisplay b) (g_EglContext b))
             ++ released (negb (g_EglSurface b =? EGL_NO_SURFACE))
                  (EglDestroySurface (g_EglDisplay b) (g_EglSurface b))
             ++ [EglTerminate (g_EglDisplay b)]
        else [])
    ++ [AndroidLog ANDROID_LOG_INFO "ImGui_ImplAndroid_Shutdown completed" []].
Proof.
  cbv zeta. unfold ImGui_ImplAndroid_Shutdown.
  repeat (first [ rewrite calls_bind
                | rewrite final_silent by auto 8 with silent
                | rewrite final_bind_silent by auto 8 with silent
                | rewrite final_bind
                | rewrite calls_when ]; cbn).
  rewrite !final_when.
  destruct (nonzero (g_FontTexture (backend s))); repeat mstep; reflexivity.
Qed.

(** For a backend whose nine handles are all set, shutdown releases in this
    order: the two buffers, the vertex stage (detached, then deleted), the
    fragment stage likewise, the program, the font texture; then it unbinds
    the context, destroys the context, destroys the surface and terminates
    the display. *)
Theorem Shutdown_release_order (s : State) :
  let b := backend s in
  g_VboHandle b <> 0 -> g_ElementsHandle b <> 0 ->
  g_VertHandle b <> 0 -> g_FragHandle b <> 0 -> g_ShaderHandle b <> 0 ->
  g_FontTexture b <> 0 ->
  g_EglDisplay b <> EGL_NO_DISPLAY -> g_EglContext b <> EGL_NO_CONTEXT ->
  g_EglSurface b <> EGL_NO_SURFACE ->
  filter is_release (calls (ImGui_ImplAndroid_Shutdown s)) =
    [GlDeleteBuffers (g_VboHandle b); GlDeleteBuffers (g_ElementsHandle b);
     GlDetachShader (g_ShaderHandle b) (g_VertHandle b);
     GlDeleteShader (g_VertHandle b);
     GlDetachShader (g_ShaderHandle b) (g_FragHandle b);
     GlDeleteShader (g_FragHandle b);
     GlDeleteProgram (g_ShaderHandle b);
     GlDeleteTextures (g_FontTexture b);
     EglMakeCurrent (g_EglDisplay b) EGL_NO_SURFACE EGL_NO_SURFACE EGL_NO_CONTEXT;
     EglDestroyContext (g_EglDisplay b) (g_EglContext b);
     EglDestroySurface (g_EglDisplay b) (g_EglSurface b);
     EglTerminate (g_EglDisplay b)].
Proof.
  intros b Hvbo Hel Hvert Hfrag Hprog Hfont Hdpy Hctx Hsurf. subst b.
  rewrite Shutdown_calls. unfold nonzero.
  apply Z.eqb_neq in Hvbo, Hel, Hvert, Hfrag, Hprog, Hfont, Hdpy, Hctx, Hsurf.
  rewrite Hvbo, Hel, Hvert, Hfrag, Hprog, Hfont, Hdpy, Hctx, Hsurf.
  reflexivity.
Qed.

Lemma Forall_if_singleton {A : Type} (P : A -> Prop) (c : bool) (x : A) :
  (c = true -> P x) -> Forall P (if c then [x] else []).
Proof. intro H. destruct c; constructor; auto. Qed.

(** Whatever the state, shutdown never hands a null handle to a release
    call: every delete, detach, destroy, unbind and terminate it issues
    names handles that are set. *)
Theorem Shutdown_releases_only_bound_handles (s : State) :
  Forall releases_nonnull (calls (ImGui_ImplAndroid_Shutdown s)).
Proof.
  rewrite Shutdown_calls. unfold nonzero, EGL_NO_DISPLAY, EGL_NO_CONTEXT,
    EGL_NO_SURFACE.
  constructor; [exact I |].
  repeat (apply Forall_app; split);
    try (apply Forall_if_singleton; intro H;
         repeat (apply andb_true_iff in H as [H ?]);
         reflect_tests; cbn; auto);
    try (repeat constructor).
  destruct (Z.eqb_spec (g_EglDisplay (backend s)) 0) as [Heq | Hne]; cbn [negb];
    [constructor |].
  constructor; [exact I |]. constructor; [exact Hne |].
  repeat (apply Forall_app; split);
    try (apply Forall_if_singleton; intro H; reflect_tests; cbn; auto);
    repeat constructor; exact Hne.
Qed.

(** ** NewFrame, beyond scale and time *)

Lemma NewFrame_final_state (P : Platform) (s : State) :
  g_Initialized (backend s) = true ->
  egl_make_current P = true ->
  final (ImGui_ImplAndroid_NewFrame P s) =
  let sel := select_displayScale (window_width P) (window_height P) in
  let s0 :=
    upd_io (set_DisplaySize (mkVec2 (f_of_int (window_width P))
                                    (f_of_int (window_height P))))
      (upd_backend (set_lastHeight (window_height P))
         (upd_backend (set_lastWidth (window_width P)) s)) in
  let s1 :=
    if size_changed P s
    then upd_io (set_FontGlobalScale sel) (upd_backend (set_displayScale sel) s0)
    else s0 in
  let s2 :=
    upd_backend (set_g_Time (imgui_time P))
      (upd_io (set_DeltaTime
                 (if d_gt (g_Time (backend s)) (d_lit 0)
                  then f_of_double (d_sub (imgui_time P) (g_Time (backend s)))
                  else fallback_DeltaTime)) s1) in
  if FontsIsBuilt (io s) then s2 else final (CreateFontsTexture P s2).
Proof.
  intros Hinit Hcur. unfold size_changed.
  unfold ImGui_ImplAndroid_NewFrame.
  rewrite final_bind; cbn. rewrite Hinit; cbn.
  rewrite final_bind; cbn. rewrite final_bind; cbn. rewrite final_bind; cbn.
  rewrite final_bind; cbn. rewrite Hcur; cbn.
  repeat mstep.
  rewrite !final_when.
  destruct (negb (lastWidth (backend s) =? window_width P)
            || negb (lastHeight (backend s) =? window_height P));
    repeat mstep; cbn;
    destruct (FontsIsBuilt (io s)); cbn; repeat mstep; reflexivity.
Qed.

Lemma CreateFontsTexture_calls (P : Platform) (s : State) :
  calls (CreateFontsTexture P s) =
    [GetTexDataAsRGBA32; GlGenTextures; GlBindTexture (gl_gen_texture P);
     GlTexParameteri; GlTexParameteri;
     GlTexImage2D (fst (atlas_size P)) (snd (atlas_size P));
     GlBindTexture (gl_texture_2d (gl s) (gl_active_texture (gl s)))].
Proof.
  unfold CreateFontsTexture. repeat mstep. reflexivity.
Qed.

Lemma NewFrame_calls (P : Platform) (s : State) :
  g_Initialized (backend s) = true ->
  egl_make_current P = true ->
  calls (ImGui_ImplAndroid_NewFrame P s) =
    EglMakeCurrent (g_EglDisplay (backend s)) (g_EglSurface (backend s))
      (g_EglSurface (backend s)) (g_EglContext (backend s))
    :: (if size_changed P s
        then [AndroidLog ANDROID_LOG_INFO "Orientation/size changed: %dx%d -> %dx%d"
                [ArgInt (lastWidth (backend s)); ArgInt (lastHeight (backend s));
                 ArgInt (window_width P); ArgInt (window_height P)];
              ANativeWindowAcquire (g_Window (backend s));
              ANativeWindowRelease (g_Window (backend s));
              StyleScaleAllSizes
                (select_displayScale (window_width P) (window_height P))]
        else [])
    ++ (if FontsIsBuilt (io s) then []
        else [GetTexDataAsRGBA32; GlGenTextures; GlBindTexture (gl_gen_texture P);
              GlTexParameteri; GlTexParameteri;
              GlTexImage2D (fst (atlas_size P)) (snd (atlas_size P));
              GlBindTexture (gl_texture_2d (gl s) (gl_active_texture (gl s)))]).
Proof.
  intros Hinit Hcur. unfold size_changed.
  unfold ImGui_ImplAndroid_NewFrame.
  rewrite calls_bind; cbn. rewrite Hinit; cbn.
  do 4 (rewrite calls_bind; cbn). rewrite Hcur; cbn.
  repeat (first [ rewrite calls_bind
                | rewrite final_silent by auto 8 with silent
                | rewrite final_bind_silent by auto 8 with silent
                | rewrite final_bind
                | rewrite calls_when | rewrite final_when ]; cbn).
  destruct (negb (lastWidth (backend s) =? window_width P)
            || negb (lastHeight (backend s) =? window_height P));
    repeat mstep; cbn;
    destruct (FontsIsBuilt (io s)); cbn; repeat mstep;
    rewrite ?CreateFontsTexture_calls; cbn; reflexivity.
Qed.

Lemma NewFrame_skipped (P : Platform) (s : State) :
  let r := ImGui_ImplAndroid_NewFrame P s in
  (g_Initialized (backend s) = false ->
   final r = s /\
   calls r = [AndroidLog ANDROID_LOG_WARN
                "ImGui_ImplAndroid_NewFrame called but not initialized" []]) /\
  (g_Initialized (backend s) = true -> egl_make_current P = false ->
   final r = s /\
   calls r = [EglMakeCurrent (g_EglDisplay (backend s)) (g_EglSurface (backend s))
                (g_EglSurface (backend s)) (g_EglContext (backend s));
              AndroidLog ANDROID_LOG_ERROR
                "Failed to make EGL context current in NewFrame" []]).
Proof.
  cbv zeta. unfold ImGui_ImplAndroid_NewFrame. split.
  - intro Hinit. rewrite final_bind, calls_bind; cbn. rewrite Hinit; cbn.
    split; reflexivity.
  - intros Hinit Hcur. rewrite final_bind, calls_bind; cbn. rewrite Hinit; cbn.
    do 4 (rewrite final_bind, calls_bind; cbn). rewrite Hcur; cbn.
    split; reflexivity.
Qed.

(** When the backend is not initialised NewFrame only logs a warning; when
    the context cannot be made current it only tries and logs an error.
    Either way the state is untouched: no size, scale, time or font work is
    done. *)
Theorem NewFrame_guards (P : Platform) (s : State) :
  let r := ImGui_ImplAndroid_NewFrame P s in
  (g_Initialized (backend s) = false ->
   final r = s /\
   calls r = [AndroidLog ANDROID_LOG_WARN
                "ImGui_ImplAndroid_NewFrame called but not initialized" []]) /\
  (g_Initialized (backend s) = true -> egl_make_current P = false ->
   final r = s /\
   calls r = [EglMakeCurrent (g_EglDisplay (backend s)) (g_EglSurface (backend s))
                (g_EglSurface (backend s)) (g_EglContext (backend s));
              AndroidLog ANDROID_LOG_ERROR
                "Failed to make EGL context current in NewFrame" []]).
Proof. exact (NewFrame_skipped P s). Qed.

(** A NewFrame that passes its guards rescales the style exactly when the
    window size differs from the one seen last, once, by the scale selected
    for the new size; otherwise it leaves the stored scale and the font
    scale alone.  It records the size, so a frame that follows on a window
    of the same size does not rescale. *)
Theorem NewFrame_rescales_only_on_change (P : Platform) (s : State) :
  g_Initialized (backend s) = true ->
  egl_make_current P = true ->
  let r := ImGui_ImplAndroid_NewFrame P s in
  filter is_style_scale (calls r) =
    (if size_changed P s
     then [StyleScaleAllSizes
             (select_displayScale (window_width P) (window_height P))]
     else []) /\
  (size_changed P s = false ->
   displayScale (backend (final r)) = displayScale (backend s) /\
   FontGlobalScale (io (final r)) = FontGlobalScale (io s)) /\
  (forall P', window_width P' = window_width P ->
              window_height P' = window_height P ->
              egl_make_current P' = true ->
              filter is_style_scale
                (calls (ImGui_ImplAndroid_NewFrame P' (final r))) = []).
Proof.
  intros Hinit Hcur r. subst r.
  pose proof (NewFrame_final_state P s Hinit Hcur) as Hfinal.
  cbv zeta in Hfinal.
  assert (Hkeep :
            g_Initialized (backend (final (ImGui_ImplAndroid_NewFrame P s))) = true /\
            lastWidth (backend (final (ImGui_ImplAndroid_NewFrame P s))) =
              window_width P /\
            lastHeight (backend (final (ImGui_ImplAndroid_NewFrame P s))) =
              window_height P /\
            (size_changed P s = false ->
             displayScale (backend (final (ImGui_ImplAndroid_NewFrame P s))) =
               displayScale (backend s) /\
             FontGlobalScale (io (final (ImGui_ImplAndroid_NewFrame P s))) =
               FontGlobalScale (io s))).
  { rewrite Hfinal.
    destruct (size_changed P s), (FontsIsBuilt (io s));
      rewrite ?(proj1 (proj2 (CreateFontsTexture_state P _))),
              ?(proj2 (proj2 (CreateFontsTexture_state P _)));
      cbn;
      (split; [assumption |]; split; [reflexivity |]; split; [reflexivity |];
       intro H; try discriminate H; split; reflexivity). }
  destruct Hkeep as (Hinit' & Hw & Hh & Hsame).
  split; [| split; [exact Hsame |]].
  - rewrite (NewFrame_calls P s Hinit Hcur).
    destruct (size_changed P s), (FontsIsBuilt (io s)); reflexivity.
  - intros P' HwP HhP Hcur'.
    rewrite (NewFrame_calls P' _ Hinit' Hcur').
    unfold size_changed at 1. rewrite Hw, Hh, HwP, HhP, !Z.eqb_refl. cbn.
    destruct (FontsIsBuilt (io (final (ImGui_ImplAndroid_NewFrame P s))));
      reflexivity.
Qed.

(** A NewFrame that passes its guards reports the window size as the display
    size and leaves the font atlas built.  It keeps every handle, the
    pointer state and the configuration flags, and the ambient GL state is
    as before the call; the font texture is replaced, together with the
    library's font identifier, only when the atlas was not built. *)
Theorem NewFrame_display_and_atlas (P : Platform) (s : State) :
  g_Initialized (backend s) = true ->
  egl_make_current P = true ->
  let s' := final (ImGui_ImplAndroid_NewFrame P s) in
  DisplaySize (io s') =
    mkVec2 (f_of_int (window_width P)) (f_of_int (window_height P)) /\
  FontsIsBuilt (io s') = true /\
  handles (backend s') = handles (backend s) /\
  (MousePos (io s'), MouseDown0 (io s'), ConfigFlags (io s')) =
    (MousePos (io s), MouseDown0 (io s), ConfigFlags (io s)) /\
  same_ambient (gl s) (gl s') /\
  (g_FontTexture (backend s'), FontsTexID (io s')) =
    (if FontsIsBuilt (io s) then (g_FontTexture (backend s), FontsTexID (io s))
     else (gl_gen_texture P, gl_gen_texture P)).
Proof.
  intros Hinit Hcur s'. subst s'.
  rewrite (NewFrame_final_state P s Hinit Hcur). cbv zeta.
  destruct (FontsIsBuilt (io s)) eqn:Hbuilt.
  - destruct (size_changed P s); cbn; rewrite Hbuilt;
      repeat split; reflexivity.
  - match goal with
    | |- context [CreateFontsTexture P ?s2] =>
        destruct (CreateFontsTexture_state P s2) as (Hamb & Hb & Hio);
        set (s3 := final (CreateFontsTexture P s2)) in *
    end.
    clearbody s3. rewrite Hb, Hio.
    destruct (size_changed P s); cbn in *; repeat split; apply Hamb.
Qed.

(** ** Render, beyond scissor and restore *)

(** A render that does not pass its early tests does nothing: the state is
    as before, no GL call is made and nothing is presented.  The only call
    it can have made is the attempt to make the context current. *)
Theorem Render_skipped_is_noop
  (P : Platform) (draw_data : option ImDrawData) (s : State) :
  (forall dd, draw_data = Some dd -> ~ render_proceeds P dd s) ->
  let r := ImGui_ImplAndroid_RenderDrawData P draw_data s in
  final r = s /\
  filter is_gl (calls r) = [] /\
  filter is_present (calls r) = [] /\
  (calls r = [] \/
   calls r = [EglMakeCurrent (g_EglDisplay (backend s)) (g_EglSurface (backend s))
                (g_EglSurface (backend s)) (g_EglContext (backend s))]).
Proof.
  intros Hskip r. subst r.
  unfold ImGui_ImplAndroid_RenderDrawData.
  rewrite final_bind, calls_bind; cbn.
  destruct draw_data as [dd |]; [| repeat split; left; reflexivity].
  destruct (g_Initialized (backend s)) eqn:Hinit; cbn;
    [| repeat split; left; reflexivity].
  do 4 (rewrite final_bind, calls_bind; cbn).
  destruct (egl_make_current P) eqn:Hcur; cbn;
    [| repeat split; right; reflexivity].
  destruct ((f_to_int (ImVec2_x (draw_DisplaySize dd)) <=? 0)
            || (f_to_int (ImVec2_y (draw_DisplaySize dd)) <=? 0)) eqn:Hsize;
    [repeat split; right; reflexivity |].
  exfalso. apply (Hskip dd eq_refl).
  apply orb_false_iff in Hsize as [Hw Hh]. apply Z.leb_gt in Hw, Hh.
  repeat split; assumption.
Qed.








Lemma render_command_lists_statics fb_height lists :
  forall s,
    backend (final (render_command_lists fb_height lists s)) = backend s /\
    io (final (render_command_lists fb_height lists s)) = io s.
Proof.
  assert (Hcmds : forall cmds off s,
             backend (final (render_commands fb_height off cmds s)) = backend s /\
             io (final (render_commands fb_height off cmds s)) = io s).
  { induction cmds as [| pcmd rest IH]; intros off s; cbn [render_commands].
    - split; reflexivity.
    - rewrite final_bind.
      destruct (IH (off + ElemCount pcmd)
                  (final (render_command fb_height off pcmd s))) as (Hb & Hi).
      rewrite Hb, Hi. unfold render_command.
      destruct (UserCallback pcmd); repeat mstep; split; reflexivity. }
  induction lists as [| cmd_list rest IH]; intro s; cbn [render_command_lists].
  - split; reflexivity.
  - rewrite final_bind.
    destruct (IH (final (render_command_list fb_height cmd_list s))) as (Hb & Hi).
    rewrite Hb, Hi. unfold render_command_list. repeat mstep.
    match goal with
    | |- context [render_commands ?h ?o ?c ?s0] =>
        destruct (Hcmds c o s0) as (Hb' & Hi')
    end.
    rewrite Hb', Hi'. split; reflexivity.
Qed.

Lemma Render_statics
  (P : Platform) (draw_data : option ImDrawData) (s : State) :
  let r := ImGui_ImplAndroid_RenderDrawData P draw_data s in
  backend (final r) = backend s /\ io (final r) = io s.
Proof.
  cbv zeta. unfold ImGui_ImplAndroid_RenderDrawData.
  rewrite final_bind; cbn.
  destruct draw_data as [dd |]; [| split; reflexivity].
  destruct (g_Initialized (backend s)); cbn; [| split; reflexivity].
  do 4 (rewrite final_bind; cbn).
  destruct (egl_make_current P); cbn; [| split; reflexivity].
  destruct ((f_to_int (ImVec2_x (draw_DisplaySize dd)) <=? 0)
            || (f_to_int (ImVec2_y (draw_DisplaySize dd)) <=? 0));
    [split; reflexivity |].
  repeat mstep.
  rewrite !restore_cap_if, !final_restore_cap. cbn.
  match goal with
  | |- context [render_command_lists ?h ?l ?s1] =>
      destruct (render_command_lists_statics h l s1) as (Hb & Hi)
  end.
  rewrite Hb, Hi. split; reflexivity.
Qed.

(** A render of draw data in which no command carries a user callback
    writes neither the statics nor the GUI library's IO block, whether or
    not it proceeds.  A user callback is code of the caller's, which the
    backend runs and does not control. *)
Theorem Render_keeps_statics_and_io
  (P : Platform) (draw_data : option ImDrawData) (s : State) :
  (forall dd, draw_data = Some dd -> no_callback (CmdLists dd)) ->
  let r := ImGui_ImplAndroid_RenderDrawData P draw_data s in
  backend (final r) = backend s /\ io (final r) = io s.
Proof. intros _. exact (Render_statics P draw_data s). Qed.

(** ** Input, beyond press and release *)

Lemma small_high_bits (a n : Z) : 0 <= a < 256 -> 8 <= n -> Z.testbit a n = false.
Proof.
  intros Ha Hn. destruct (Z.eq_dec a 0) as [-> | Hnz]; [apply Z.bits_0 |].
  apply Z.bits_above_log2; [lia |].
  apply Z.lt_le_trans with 8; [| exact Hn].
  apply Z.log2_lt_pow2; lia.
Qed.

Lemma action_word_decode (pointerIndex kind : Z) :
  0 <= pointerIndex < 256 -> 0 <= kind < 256 ->
  Z.land (action_word pointerIndex kind) AMOTION_EVENT_ACTION_MASK = kind /\
  Z.shiftr (Z.land (action_word pointerIndex kind)
                   AMOTION_EVENT_ACTION_POINTER_INDEX_MASK)
           AMOTION_EVENT_ACTION_POINTER_INDEX_SHIFT = pointerIndex.
Proof.
  intros Hi Hk.
  unfold action_word, AMOTION_EVENT_ACTION_MASK,
    AMOTION_EVENT_ACTION_POINTER_INDEX_MASK,
    AMOTION_EVENT_ACTION_POINTER_INDEX_SHIFT.
  split; apply Z.bits_inj'; intros n Hn.
  - rewrite Z.land_spec, Z.lor_spec, Z.shiftl_spec by exact Hn.
    change 255 with (Z.ones 8). rewrite Z.testbit_ones_nonneg by lia.
    destruct (Z.ltb_spec n 8) as [Hlt | Hge].
    + rewrite Z.testbit_neg_r by lia. cbn. apply andb_true_r.
    + rewrite (small_high_bits kind n Hk Hge). apply andb_false_r.
  - rewrite Z.shiftr_spec, Z.land_spec, Z.lor_spec, Z.shiftl_spec by lia.
    replace (n + 8 - 8) with n by lia.
    rewrite (small_high_bits kind (n + 8) Hk) by lia.
    rewrite orb_false_r.
    change 65280 with (Z.shiftl (Z.ones 8) 8).
    rewrite Z.shiftl_spec by lia. replace (n + 8 - 8) with n by lia.
    rewrite Z.testbit_ones_nonneg by lia.
    destruct (Z.ltb_spec n 8) as [Hlt | Hge].
    + apply andb_true_r.
    + rewrite (small_high_bits pointerIndex n Hi Hge). reflexivity.
Qed.

Lemma HandleInputEvent_io (event : AInputEvent) (s : State) :
  g_Initialized (backend s) = true ->
  is_motion event = true ->
  io (final (ImGui_ImplAndroid_HandleInputEvent event s)) =
    if (action_masked event =? AMOTION_EVENT_ACTION_DOWN)
       || (action_masked event =? AMOTION_EVENT_ACTION_POINTER_DOWN)
    then set_MousePos (event_position event) (set_MouseDown0 true (io s))
    else if action_masked event =? AMOTION_EVENT_ACTION_MOVE
    then set_MousePos (event_position event) (io s)
    else if (action_masked event =? AMOTION_EVENT_ACTION_UP)
            || (action_masked event =? AMOTION_EVENT_ACTION_POINTER_UP)
            || (action_masked event =? AMOTION_EVENT_ACTION_CANCEL)
    then set_MouseDown0 false (io s)
    else io s.
Proof.
  intros Hinit Hmotion. unfold is_motion in Hmotion.
  unfold action_masked, event_position, action_pointer_index.
  unfold ImGui_ImplAndroid_HandleInputEvent.
  rewrite final_bind; cbn. rewrite Hinit, Hmotion; cbn.
  repeat mstep.
  repeat match goal with
         | |- context [if ?c then _ else _] => destruct c
         end; repeat mstep; reflexivity.
Qed.

(** The handler reads the position of the pointer that the action word
    names: for a motion event whose action word packs pointer index [i]
    above the kind, a pointer-down of either sort moves the tracked position
    to pointer [i] and presses the button, a move moves the position and
    leaves the button as it is. *)
Theorem HandleInputEvent_follows_named_pointer
  (event : AInputEvent) (pointerIndex kind : Z) (pointer : Pointer) (s : State) :
  g_Initialized (backend s) = true ->
  AInputEvent_getType event = AINPUT_EVENT_TYPE_MOTION ->
  AMotionEvent_getAction event = action_word pointerIndex kind ->
  0 <= pointerIndex < 256 ->
  nth_error (motion_pointers event) (Z.to_nat pointerIndex) = Some pointer ->
  let s' := final (ImGui_ImplAndroid_HandleInputEvent event s) in
  (kind = AMOTION_EVENT_ACTION_DOWN \/ kind = AMOTION_EVENT_ACTION_POINTER_DOWN ->
   MousePos (io s') = mkVec2 (pointer_x pointer) (pointer_y pointer) /\
   MouseDown0 (io s') = true) /\
  (kind = AMOTION_EVENT_ACTION_MOVE ->
   MousePos (io s') = mkVec2 (pointer_x pointer) (pointer_y pointer) /\
   MouseDown0 (io s') = MouseDown0 (io s)).
Proof.
  intros Hinit Htype Haction Hi Hptr s'. subst s'.
  assert (Hdecode : forall k, 0 <= k < 256 -> kind = k ->
            action_masked event = k /\
            event_position event = mkVec2 (pointer_x pointer) (pointer_y pointer)).
  { intros k Hk ->.
    unfold action_masked, event_position, action_pointer_index.
    rewrite Haction.
    destruct (action_word_decode pointerIndex k Hi Hk) as (Hm & Hidx).
    rewrite Hm, Hidx.
    unfold AMotionEvent_getX, AMotionEvent_getY, motion_pointer.
    rewrite (nth_error_nth _ _ _ Hptr). split; reflexivity. }
  assert (Hmotion : is_motion event = true)
    by (unfold is_motion; apply Z.eqb_eq, Htype).
  rewrite (HandleInputEvent_io event s Hinit Hmotion).
  assert (Hrange : (0 <= AMOTION_EVENT_ACTION_DOWN < 256) /\
                   (0 <= AMOTION_EVENT_ACTION_POINTER_DOWN < 256) /\
                   (0 <= AMOTION_EVENT_ACTION_MOVE < 256))
    by (unfold AMOTION_EVENT_ACTION_DOWN, AMOTION_EVENT_ACTION_POINTER_DOWN,
          AMOTION_EVENT_ACTION_MOVE; lia).
  destruct Hrange as (Hr0 & Hr5 & Hr2).
  split.
  - intros [Hk | Hk];
      [destruct (Hdecode _ Hr0 Hk) as (Hm & Hpos)
      | destruct (Hdecode _ Hr5 Hk) as (Hm & Hpos)];
      rewrite Hm, Hpos; split; reflexivity.
  - intro Hk. destruct (Hdecode _ Hr2 Hk) as (Hm & Hpos).
    rewrite Hm, Hpos. split; reflexivity.
Qed.

(** ** Invariants across the entry points *)

Lemma Init_failure_state (P : Platform) (window : Z) (s : State) :
  init_conditions P window = false ->
  g_Initialized (backend (final (ImGui_ImplAndroid_Init P window s))) =
    g_Initialized (backend s) /\
  g_FontTexture (backend (final (ImGui_ImplAndroid_Init P window s))) =
    g_FontTexture (backend s) /\
  io (final (ImGui_ImplAndroid_Init P window s)) = io s.
Proof.
  intro Hfail. rewrite <- (Init_result P window s) in Hfail. revert Hfail.
  unfold ImGui_ImplAndroid_Init.
  mrun; intro Hfail; try discriminate Hfail; repeat split.
Qed.

Lemma Init_success_handles (P : Platform) (window : Z) (s : State) :
  init_conditions P window = true ->
  let s' := final (ImGui_ImplAndroid_Init P window s) in
  g_Window (backend s') = window /\
  g_EglDisplay (backend s') = egl_display P /\
  g_EglSurface (backend s') = egl_surface P /\
  g_EglContext (backend s') = egl_context P /\
  FontsTexID (io s') = g_FontTexture (backend s').
Proof.
  intros Hok s'. subst s'.
  rewrite (Init_final_success P window s Hok).
  match goal with
  | |- context [CreateDeviceObjects P ?s1] =>
      destruct (CreateDeviceObjects_state P s1) as (Hio1 & Hgl1 & Hb1);
      destruct (CreateFontsTexture_state P (final (CreateDeviceObjects P s1)))
        as (Hamb & Hb2 & Hio2);
      set (s2 := final (CreateDeviceObjects P s1)) in *;
      set (s3 := final (CreateFontsTexture P s2)) in *
  end.
  clearbody s3. clearbody s2.
  cbn in *. rewrite Hb2, Hio2, Hb1. cbn. repeat split.
Qed.

Lemma NewFrame_statics (P : Platform) (s : State) :
  let s' := final (ImGui_ImplAndroid_NewFrame P s) in
  handles (backend s') = handles (backend s) /\
  (font_id_consistent s -> font_id_consistent s').
Proof.
  cbv zeta.
  destruct (g_Initialized (backend s)) eqn:Hinit.
  - destruct (egl_make_current P) eqn:Hcur.
    + rewrite (NewFrame_final_state P s Hinit Hcur). cbv zeta.
      unfold font_id_consistent.
      destruct (FontsIsBuilt (io s)).
      * destruct (size_changed P s); cbn; split; auto.
      * match goal with
        | |- context [CreateFontsTexture P ?s2] =>
            destruct (CreateFontsTexture_state P s2) as (_ & Hb & Hio);
            set (s3 := final (CreateFontsTexture P s2)) in *
        end.
        clearbody s3. rewrite Hb, Hio.
        destruct (size_changed P s); cbn; split; auto.
    + rewrite (proj1 (proj2 (NewFrame_skipped P s) Hinit Hcur)). split; auto.
  - rewrite (proj1 (proj1 (NewFrame_skipped P s) Hinit)). split; auto.
Qed.

Lemma HandleInputEvent_font_id (event : AInputEvent) (s : State) :
  FontsTexID (io (final (ImGui_ImplAndroid_HandleInputEvent event s))) =
  FontsTexID (io s).
Proof.
  unfold ImGui_ImplAndroid_HandleInputEvent.
  mrun; reflexivity.
Qed.

(** Every entry point keeps the library's font identifier equal to the
    backend's font texture: init (whether it succeeds or fails), shutdown,
    NewFrame, the input handler, and render when no command of the draw data
    carries a user callback (a callback is code of the caller's, which can
    write anything). *)
Theorem font_id_consistent_kept
  (P : Platform) (window : Z) (draw_data : option ImDrawData)
  (event : AInputEvent) (s : State) :
  font_id_consistent s ->
  font_id_consistent (final (ImGui_ImplAndroid_Init P window s)) /\
  font_id_consistent (final (ImGui_ImplAndroid_Shutdown s)) /\
  font_id_consistent (final (ImGui_ImplAndroid_NewFrame P s)) /\
  ((forall dd, draw_data = Some dd -> no_callback (CmdLists dd)) ->
   font_id_consistent (final (ImGui_ImplAndroid_RenderDrawData P draw_data s))) /\
  font_id_consistent (final (ImGui_ImplAndroid_HandleInputEvent event s)).
Proof.
  unfold font_id_consistent. intro H.
  split; [| split; [| split; [| split]]].
  - destruct (init_conditions P window) eqn:Hc.
    + apply (Init_success_handles P window s Hc).
    + destruct (Init_failure_state P window s Hc) as (_ & Hfont & Hio).
      rewrite Hfont, Hio. exact H.
  - rewrite Shutdown_final. cbn. unfold nonzero.
    destruct (Z.eqb_spec (g_FontTexture (backend s)) 0) as [Heq | Hne]; cbn.
    + rewrite H. exact Heq.
    + reflexivity.
  - apply (NewFrame_statics P s), H.
  - intros _.
    destruct (Render_statics P draw_data s) as (Hb & Hi). rewrite Hb, Hi. exact H.
  - rewrite HandleInputEvent_font_id, HandleInputEvent_backend. exact H.
Qed.

(** An initialised backend has its window and its three EGL handles, and
    stays so: the property is kept by an init that starts from a backend
    that is not initialised, and from any state that has it by shutdown,
    NewFrame, the input handler, and render when no command of the draw data
    carries a user callback (a callback is code of the caller's, which can
    call back into the backend). *)
Theorem initialized_is_bound_kept
  (P : Platform) (window : Z) (draw_data : option ImDrawData)
  (event : AInputEvent) (s : State) :
  initialized_is_bound s ->
  (g_Initialized (backend s) = false ->
   initialized_is_bound (final (ImGui_ImplAndroid_Init P window s))) /\
  initialized_is_bound (final (ImGui_ImplAndroid_Shutdown s)) /\
  initialized_is_bound (final (ImGui_ImplAndroid_NewFrame P s)) /\
  ((forall dd, draw_data = Some dd -> no_callback (CmdLists dd)) ->
   initialized_is_bound
     (final (ImGui_ImplAndroid_RenderDrawData P draw_data s))) /\
  initialized_is_bound (final (ImGui_ImplAndroid_HandleInputEvent event s)).
Proof.
  unfold initialized_is_bound. intro H.
  split; [| split; [| split; [| split]]].
  - intros Hnot Hinit'.
    destruct (init_conditions P window) eqn:Hc.
    + destruct (Init_success_handles P window s Hc) as (Hw & Hd & Hs & Hcx & _).
      rewrite Hw, Hd, Hs, Hcx.
      unfold init_conditions in Hc.
      repeat (apply andb_true_iff in Hc as [Hc ?]).
      reflect_tests. repeat split; assumption.
    + rewrite (proj1 (Init_failure_state P window s Hc)), Hnot in Hinit'.
      discriminate Hinit'.
  - rewrite Shutdown_final. cbn. intro Hf. discriminate Hf.
  - destruct (NewFrame_statics P s) as (Hh & _).
    unfold handles in Hh. injection Hh as Hd Hs Hc Hw Hi _ _ _ _ _ _ _ _ _ _.
    rewrite Hd, Hs, Hc, Hw, Hi. exact H.
  - intros _. rewrite (proj1 (Render_statics P draw_data s)). exact H.
  - rewrite HandleInputEvent_backend. exact H.
Qed.

End Properties.

(** * The properties on the concrete inputs *)

(** C1.  The renderer saves the active texture unit and selects unit 0, and
    never selects the saved unit again: on a state where unit 1 is active, a
    render that passes all its early tests returns with unit 0 active, so
    the snapshot taken after differs from the one taken before. *)
Theorem render_leaves_texture_unit_0_active :
  let P := ex_platform true true true 0%Q in
  let r := ImGui_ImplAndroid_RenderDrawData P (Some ex_empty_frame) ex_running in
  render_proceeds P ex_empty_frame ex_running /\
  last_active_texture (capture (gl ex_running)) = GL_TEXTURE0 + 1 /\
  last_active_texture (capture (gl (final r))) = GL_TEXTURE0 /\
  capture (gl (final r)) <> capture (gl ex_running).
Proof.
  cbv zeta. split; [| split; [| split]].
  - repeat split.
  - reflexivity.
  - reflexivity.
  - intro H. apply (f_equal last_active_texture) in H. discriminate H.
Qed.

(** Init on the 1080 x 1920 window succeeds and reports that size; a render
    of [ex_frame] then makes one clamped scissor call and the restoring
    one. *)
Example init_then_render_ex_frame :
  let P := ex_platform true true true 0%Q in
  result (ImGui_ImplAndroid_Init P ex_window ex_start) = true /\
  DisplaySize (io ex_running) = mkVec2 1080%Q 1920%Q /\
  filter is_scissor
    (calls (ImGui_ImplAndroid_RenderDrawData P (Some ex_frame) ex_running)) =
    [GlScissor 10 0 0 230; GlScissor 0 0 640 480] /\
  filter is_draw
    (calls (ImGui_ImplAndroid_RenderDrawData P (Some ex_frame) ex_running)) =
    [GlDrawElements 6 0].
Proof.
  cbv zeta. repeat split.
Qed.

Lemma init_failure_leaves_display_bound :
  let r := ImGui_ImplAndroid_Init (ex_platform false true true 0%Q) ex_window
             ex_start in
  g_EglDisplay (backend ex_start) = EGL_NO_DISPLAY /\
  g_EglContext (backend ex_start) = EGL_NO_CONTEXT /\
  g_EglSurface (backend ex_start) = EGL_NO_SURFACE /\
  result r = false /\
  g_EglDisplay (backend (final r)) = 7 /\
  g_EglDisplay (backend (final r)) <> EGL_NO_DISPLAY.
Proof.
  cbv zeta. repeat split. intro H. discriminate H.
Qed.

(** A failed init on a backend that is initialised: it stays marked
    initialised, and has lost its window. *)
Example failed_init_on_initialised_backend :
  let r := ImGui_ImplAndroid_Init (ex_platform true true true 0%Q) NULL
             ex_running in
  g_Initialized (backend ex_running) = true /\
  result r = false /\
  g_Initialized (backend (final r)) = true /\
  g_Window (backend (final r)) = NULL.
Proof.
  cbv zeta. repeat split.
Qed.

Lemma init_failure_keeps_acquired_handles_witness :
  let P := ex_platform false true true 0%Q in
  result (ImGui_ImplAndroid_Init P ex_window ex_start) = false /\
  g_EglDisplay (backend (final (ImGui_ImplAndroid_Init P ex_window ex_start))) =
    egl_display P.
Proof.
  cbv zeta. split; [reflexivity |].
  destruct (init_failure_keeps_acquired_handles
              (ex_platform false true true 0%Q) ex_window ex_start eq_refl)
    as (_ & _ & _ & H & _).
  apply H; [discriminate | reflexivity | reflexivity].
Defined.

Lemma CreateDeviceObjects_succeeds_on_compile_failure :
  let P := ex_platform true true false 0%Q in
  gl_compile_status P (gl_create_shader P GL_VERTEX_SHADER) = false /\
  result (CreateDeviceObjects P ex_start) = true.
Proof.
  cbv zeta. split; reflexivity.
Qed.

Lemma render_without_current_context_does_not_present :
  let P := ex_platform true false true 0%Q in
  let r := ImGui_ImplAndroid_RenderDrawData P (Some ex_empty_frame) ex_running in
  g_Initialized (backend ex_running) = true /\
  0 < f_to_int (ImVec2_x (draw_DisplaySize ex_empty_frame)) /\
  0 < f_to_int (ImVec2_y (draw_DisplaySize ex_empty_frame)) /\
  CmdListsCount ex_empty_frame = 0 /\
  filter is_present (calls r) = [].
Proof.
  cbv zeta. repeat split.
Qed.

Lemma render_empty_presents_witness :
  let P := ex_platform true true true 0%Q in
  let r := ImGui_ImplAndroid_RenderDrawData P (Some ex_empty_frame) ex_running in
  g_Initialized (backend ex_running) = true /\
  egl_make_current P = true /\
  0 < f_to_int (ImVec2_x (draw_DisplaySize ex_empty_frame)) /\
  0 < f_to_int (ImVec2_y (draw_DisplaySize ex_empty_frame)) /\
  CmdListsCount ex_empty_frame = 0 /\
  filter is_draw (calls r) = [] /\
  filter is_present (calls r) = [EglSwapBuffers 7 8].
Proof.
  cbv zeta. do 5 (split; [reflexivity |]).
  apply (render_empty_presents (ex_platform true true true 0%Q) ex_empty_frame
           ex_running); reflexivity.
Defined.

Lemma scissor_rectangles_clamped_witness :
  let P := ex_platform true true true 0%Q in
  UserCallback ex_command = None /\
  scissor_of_clip 100 (ClipRect ex_command) = mkBox 10 (-150) (-5) 230 /\
  calls (render_command 100 0 ex_command ex_running) =
    [GlScissor 10 0 0 230; GlBindTexture 41; GlDrawElements 6 0] /\
  render_proceeds P ex_frame ex_running /\
  filter is_scissor
    (calls (ImGui_ImplAndroid_RenderDrawData P (Some ex_frame) ex_running)) =
    [GlScissor 10 0 0 230; GlScissor 0 0 640 480].
Proof.
  cbv zeta. split; [reflexivity |]. split; [reflexivity |]. split.
  - exact (proj1 (proj1 scissor_rectangles_clamped 100 0 ex_command ex_running
                    eq_refl)).
  - split; [repeat split |].
    refine (proj1 (proj2 scissor_rectangles_clamped
                     (ex_platform true true true 0%Q) ex_frame ex_running _)).
    repeat split.
Defined.

Lemma boundary_dimensions_fall_in_the_lower_tier :
  select_displayScale 1080 1080 = (3 # 2)%Q /\
  inclusive_displayScale 1080 1080 = 2%Q /\
  select_displayScale 1080 1080 <> inclusive_displayScale 1080 1080 /\
  select_displayScale 800 1920 = 2%Q /\
  select_displayScale 800 1920 <> (3 # 2)%Q.
Proof.
  repeat split; intro H; discriminate H.
Qed.

Lemma scale_selected_by_strict_thresholds_witness :
  let P := ex_platform true true true 0%Q in
  g_Initialized (backend ex_running) = true /\
  egl_make_current P = true /\
  lastWidth (backend ex_running) <> window_width P /\
  displayScale (backend (final (ImGui_ImplAndroid_NewFrame P ex_running))) =
    select_displayScale 1080 1920.
Proof.
  cbv zeta. split; [reflexivity |]. split; [reflexivity |].
  split; [discriminate |].
  refine (proj1 (scale_selected_by_strict_thresholds
                   (ex_platform true true true 0%Q) ex_running eq_refl eq_refl
                   (or_introl _))).
  discriminate.
Defined.

(** A frame at time 5, a shutdown, a second successful init, a frame at
    time 7. *)
Lemma first_frame_after_second_init_is_not_the_fallback :
  let s1 := final (ImGui_ImplAndroid_NewFrame (ex_platform true true true 5%Q)
                     ex_running) in
  let s2 := final (ImGui_ImplAndroid_Shutdown s1) in
  let r3 := ImGui_ImplAndroid_Init (ex_platform true true true 6%Q) ex_window s2 in
  let s4 := final (ImGui_ImplAndroid_NewFrame (ex_platform true true true 7%Q)
                     (final r3)) in
  result r3 = true /\
  DeltaTime (io s1) = fallback_DeltaTime /\
  DeltaTime (io s4) = 2%Q /\
  DeltaTime (io s4) <> fallback_DeltaTime.
Proof.
  cbv zeta. repeat split. intro H. discriminate H.
Qed.

Lemma frame_delta_from_stored_time_witness :
  let P := ex_platform true true true 5%Q in
  g_Initialized (backend ex_running) = true /\
  egl_make_current P = true /\
  DeltaTime (io (final (ImGui_ImplAndroid_NewFrame P ex_running))) =
    fallback_DeltaTime /\
  g_Time (backend (final (ImGui_ImplAndroid_NewFrame P ex_running))) = 5%Q.
Proof.
  cbv zeta. split; [reflexivity |]. split; [reflexivity |].
  destruct (frame_delta_from_stored_time (ex_platform true true true 5%Q)
              ex_running eq_refl eq_refl) as (_ & Htime & Hfirst & _).
  split; [apply Hfirst; reflexivity | exact Htime].
Defined.

Lemma pointer_down_ignored_before_init :
  let r := ImGui_ImplAndroid_HandleInputEvent ex_down ex_start in
  is_pointer_down ex_down = true /\
  event_position ex_down = mkVec2 50%Q 60%Q /\
  MousePos (io (final r)) = mkVec2 0%Q 0%Q /\
  MousePos (io (final r)) <> event_position ex_down /\
  MouseDown0 (io (final r)) = false.
Proof.
  cbv zeta. repeat split. intro H. discriminate H.
Qed.

Lemma pointer_down_then_release_witness :
  let s1 := final (ImGui_ImplAndroid_HandleInputEvent ex_down ex_running) in
  let s2 := final (ImGui_ImplAndroid_HandleInputEvent ex_up s1) in
  g_Initialized (backend ex_running) = true /\
  is_pointer_down ex_down = true /\
  is_pointer_release ex_up = true /\
  MousePos (io s1) = mkVec2 50%Q 60%Q /\
  MouseDown0 (io s1) = true /\
  MouseDown0 (io s2) = false /\
  MousePos (io s2) = MousePos (io s1).
Proof.
  cbv zeta. do 3 (split; [reflexivity |]).
  apply (pointer_down_then_release ex_down ex_up ex_running); reflexivity.
Defined.

Lemma HandleInputEvent_consumed_witness :
  is_processed_action (action_masked ex_hover) = false /\
  result (ImGui_ImplAndroid_HandleInputEvent ex_hover ex_running) = true /\
  final (ImGui_ImplAndroid_HandleInputEvent ex_hover ex_running) = ex_running /\
  result (ImGui_ImplAndroid_HandleInputEvent ex_key ex_running) = false /\
  result (ImGui_ImplAndroid_HandleInputEvent ex_down ex_start) = false.
Proof.
  split; [reflexivity |].
  destruct (HandleInputEvent_consumed ex_hover ex_running) as (Hres & _ & _ & Hsame).
  split; [exact Hres |]. split; [apply Hsame; right; reflexivity |].
  split.
  - exact (proj1 (proj2 (HandleInputEvent_consumed ex_key ex_running)) eq_refl).
  - exact (proj1 (HandleInputEvent_consumed ex_down ex_start)).
Defined.

(** * Properties of the JNI entry points *)

Lemma imguiKey_of_keyCode_inverse (keyCode : Z) (key : ImGuiKey) :
  key <> ImGuiKey_None ->
  (imguiKey_of_keyCode keyCode = key <-> keyCode = keyCode_of_imguiKey key).
Proof.
  intro Hkey. split.
  - intros <-. revert Hkey.
    destruct keyCode as [| p | p]; cbn; try congruence.
    repeat match goal with
           | |- context [match ?q with _ => _ end] =>
               is_var q; destruct q; cbn; try congruence
           end.
  - intros ->. destruct key; reflexivity.
Qed.

(** A key event from Java reaches the GUI library exactly when its key
    code is one of the eight the table has and its action is 0 or 1: the
    event then carries the key of that code, released for action 0 and
    pressed for action 1.  No other call is made, at most one event is
    added, none for ImGuiKey_None, and two key codes never give the same
    key. *)
Theorem onKeyEvent_forwards_mapped_keys (keyCode action metaState : Z) :
  let added :=
    Java_com_example_imguihelloworld_ImGuiJNI_onKeyEvent keyCode action metaState in
  (forall key down,
      In (AddKeyEvent key down) added <->
      key <> ImGuiKey_None /\ keyCode = keyCode_of_imguiKey key /\
      (action = 0 /\ down = false \/ action = 1 /\ down = true)) /\
  (List.length added <= 1)%nat /\
  (forall c, In c added -> exists key down, c = AddKeyEvent key down) /\
  (forall keyCode', imguiKey_of_keyCode keyCode' = imguiKey_of_keyCode keyCode ->
                    imguiKey_of_keyCode keyCode <> ImGuiKey_None ->
                    keyCode' = keyCode).
Proof.
  cbv zeta. unfold Java_com_example_imguihelloworld_ImGuiJNI_onKeyEvent.
  split; [| split; [| split]].
  - intros key down.
    destruct (ImGuiKey_eqb (imguiKey_of_keyCode keyCode) ImGuiKey_None) eqn:Hnone;
      cbn [negb].
    + assert (Hk : imguiKey_of_keyCode keyCode = ImGuiKey_None)
        by (destruct (imguiKey_of_keyCode keyCode); try discriminate Hnone;
            reflexivity).
      split; [intros [] |].
      intros (Hkey & Hcode & _).
      apply (imguiKey_of_keyCode_inverse keyCode key Hkey) in Hcode. congruence.
    + assert (Hk : imguiKey_of_keyCode keyCode <> ImGuiKey_None)
        by (intro H; rewrite H in Hnone; discriminate Hnone).
      destruct (Z.eqb_spec action 0) as [-> | H0];
        [| destruct (Z.eqb_spec action 1) as [-> | H1]]; cbn [In].
      * split.
        -- intros [Heq | []]. injection Heq as <- <-.
           split; [exact Hk |]. split; [| left; split; reflexivity].
           apply (imguiKey_of_keyCode_inverse keyCode _ Hk). reflexivity.
        -- intros (Hkey & Hcode & [[_ ->] | [Hf _]]); [| discriminate Hf].
           apply (imguiKey_of_keyCode_inverse keyCode key Hkey) in Hcode.
           left. rewrite Hcode. reflexivity.
      * split.
        -- intros [Heq | []]. injection Heq as <- <-.
           split; [exact Hk |]. split; [| right; split; reflexivity].
           apply (imguiKey_of_keyCode_inverse keyCode _ Hk). reflexivity.
        -- intros (Hkey & Hcode & [[Hf _] | [_ ->]]); [discriminate Hf |].
           apply (imguiKey_of_keyCode_inverse keyCode key Hkey) in Hcode.
           left. rewrite Hcode. reflexivity.
      * split; [intros [] |].
        intros (_ & _ & [[Ha _] | [Ha _]]); congruence.
  - destruct (negb _); [| cbn; lia].
    destruct (action =? 0); [cbn; lia |].
    destruct (action =? 1); cbn; lia.
  - intros c.
    destruct (negb _); [| intros []].
    destruct (action =? 0); [intros [<- | []]; eauto |].
    destruct (action =? 1); [intros [<- | []]; eauto | intros []].
  - intros keyCode' Heq Hk.
    apply (imguiKey_of_keyCode_inverse keyCode' _ Hk) in Heq.
    rewrite Heq. symmetry.
    apply (imguiKey_of_keyCode_inverse keyCode _ Hk). reflexivity.
Qed.

(** getOpenSSLVersionFromNative returns the string Java's getOpenSSLVersion
    gave when the class, the method and the call all come back non-null, and
    makes no string of its own then.  When a step fails it returns the error
    message of that step as a new string and goes no further: the method is
    looked up only on a class that was found, and called only when it was
    found too. *)
Theorem getOpenSSLVersionFromNative_reports_failing_step (env : JavaSide) :
  let class := java_find_class env "com/example/imguihelloworld/OpenSSLLoader" in
  let method :=
    java_get_static_method_id env class "getOpenSSLVersion" "()Ljava/lang/String;" in
  let r := Java_com_example_imguihelloworld_ImGuiJNI_getOpenSSLVersionFromNative env in
  (class = 0 ->
   r = ("Error: OpenSSLLoader class not found"%string,
        [FindClass "com/example/imguihelloworld/OpenSSLLoader";
         NewStringUTF "Error: OpenSSLLoader class not found"])) /\
  (class <> 0 -> method = 0 ->
   fst r = "Error: getOpenSSLVersion method not found"%string /\
   filter is_jni_lookup (snd r) =
     [FindClass "com/example/imguihelloworld/OpenSSLLoader";
      GetStaticMethodID class "getOpenSSLVersion" "()Ljava/lang/String;"]) /\
  (class <> 0 -> method <> 0 ->
   filter is_jni_lookup (snd r) =
     [FindClass "com/example/imguihelloworld/OpenSSLLoader";
      GetStaticMethodID class "getOpenSSLVersion" "()Ljava/lang/String;";
      CallStaticObjectMethod class method] /\
   match java_call_static_object_method env class method with
   | Some version => r = (version, filter is_jni_lookup (snd r))
   | None => fst r = "Error: Failed to get OpenSSL version"%string /\
             In (NewStringUTF (fst r)) (snd r)
   end).
Proof.
  cbv zeta.
  unfold Java_com_example_imguihelloworld_ImGuiJNI_getOpenSSLVersionFromNative.
  split; [| split].
  - intros ->. reflexivity.
  - intros Hc Hm. apply Z.eqb_neq in Hc. rewrite Hc, Hm. split; reflexivity.
  - intros Hc Hm. apply Z.eqb_neq in Hc, Hm. rewrite Hc, Hm.
    destruct (java_call_static_object_method env _ _) as [version |]; cbn.
    + split; reflexivity.
    + split; [reflexivity |]. split; [reflexivity |].
      right; right; right; left; reflexivity.
Qed.

(** * Properties of the ticker requests *)

Section TickerProperties.

Context {FM : FloatModel}.

Lemma stops_outstanding_app ids t1 t2 :
  stops_outstanding ids (t1 ++ t2) <->
  stops_outstanding ids t1 /\ stops_outstanding (outstanding_after ids t1) t2.
Proof.
  revert ids. induction t1 as [| c t1 IH]; intro ids; cbn.
  - tauto.
  - rewrite IH. unfold outstanding_after. tauto.
Qed.

Lemma serve_keeps_single (request : TickerRequest) (id : Z) :
  let r := serve true request id in
  outstanding_after (tracked id) (snd r) = tracked (fst r) /\
  stops_outstanding (tracked id) (snd r).
Proof.
  unfold tracked.
  destruct request as [ticker entryPrice returned |]; cbn.
  - destruct (id >=? 0) eqn:Hid; cbn.
    + rewrite Z.eqb_refl. split; [reflexivity | auto].
    + split; [reflexivity | auto].
  - destruct (id >=? 0) eqn:Hid; cbn.
    + rewrite Z.eqb_refl. split; [reflexivity | auto].
    + rewrite Hid. split; [reflexivity | auto].
Qed.



(** Without Python the bridge is never called: no request changes the
    identifier the application holds, and the message shown is the fixed
    "Python support not enabled". *)
Theorem ticker_monitor_disabled
  (requests : list TickerRequest) (id : Z) (bridge_message : option string) :
  fst (serve_all false requests id) = id /\
  filter is_bridge_call (snd (serve_all false requests id)) = [] /\
  getNextTickerMessage false bridge_message =
    (Some "Python support not enabled"%string, []).
Proof.
  split; [| split; [| reflexivity]].
  - revert id. induction requests as [| q rest IH]; intro id; cbn.
    + reflexivity.
    + rewrite IH. destruct q; reflexivity.
  - revert id. induction requests as [| q rest IH]; intro id; cbn.
    + reflexivity.
    + rewrite filter_app, IH, app_nil_r. destruct q; reflexivity.
Qed.

End TickerProperties.

(** * Properties of the frame and of the main loop *)

Section ApplicationProperties.

Context {FM : FloatModel}.








Lemma main_loop_turn g rest st :
  main_loop (Some g :: rest) st =
  match main_loop rest (fst (renderFrame false g st)) with
  | Some (st', t) =>
      Some (st', [PlatformHandleEvents] ++ snd (renderFrame false g st) ++ t)
  | None => None
  end.
Proof. reflexivity. Qed.







Lemma renderImGui_without_python g st :
  filter is_bridge_call (snd (renderImGui false g st)) = [] /\
  m_tickerMonitorId (fst (renderImGui false g st)) = m_tickerMonitorId st.
Proof.
  unfold renderImGui. cbv zeta. cbn [fst snd m_tickerMonitorId].
  destruct (gui_start g), (gui_stop g); cbn; split; reflexivity.
Qed.

Lemma renderFrame_without_python g st :
  filter is_bridge_call (snd (renderFrame false g st)) = [] /\
  m_tickerMonitorId (fst (renderFrame false g st)) = m_tickerMonitorId st.
Proof.
  destruct (renderImGui_without_python g st) as (Hc & Hm).
  split; [| exact Hm].
  unfold renderFrame. cbv zeta. cbn [snd].
  rewrite !filter_app, Hc. reflexivity.
Qed.

Lemma main_loop_without_bridge turns :
  forall st st' t,
    main_loop turns st = Some (st', t) ->
    filter is_bridge_call t = [] /\
    m_tickerMonitorId st' = m_tickerMonitorId st.
Proof.
  induction turns as [| [g |] turns IH]; intros st st' t H.
  - discriminate H.
  - rewrite main_loop_turn in H.
    destruct (renderFrame_without_python g st) as (Hc & Hm).
    remember (renderFrame false g st) as r eqn:Hr. clear Hr.
    destruct (main_loop turns (fst r)) as [[st1 t1] |] eqn:Hrest;
      [| discriminate H].
    injection H as <- <-.
    destruct (IH _ _ _ Hrest) as (Ht & Hid).
    split.
    + change (PlatformHandleEvents :: snd r ++ t1)
        with ([PlatformHandleEvents] ++ snd r ++ t1).
      rewrite !filter_app, Hc, Ht. reflexivity.
    + now rewrite Hid, Hm.
  - injection H as <- <-. split; reflexivity.
Qed.

(** Whatever [run] does before it returns, it never calls the Python
    bridge and leaves the monitor identifier as it found it: the loop is
    compiled only where the ticker methods are disabled, so pressing "Start
    Monitoring" there only prints a message. *)
Theorem run_never_calls_bridge
  (android init_ok : bool) (turns : list (option GuiAnswers))
  (st st' : AppState) (t : list AppCall)
  (Hrun : run android init_ok turns st = Some (st', t)) :
  filter is_bridge_call t = [] /\
  m_tickerMonitorId st' = m_tickerMonitorId st.
Proof.
  unfold run in Hrun.
  destruct android; [injection Hrun as <- <-; split; reflexivity |].
  destruct init_ok; cbn [negb] in Hrun;
    [| injection Hrun as <- <-; split; reflexivity].
  destruct (main_loop turns (set_m_running true st)) as [[st1 t1] |] eqn:Hloop;
    [| discriminate Hrun].
  injection Hrun as <- <-.
  destruct (main_loop_without_bridge _ _ _ _ Hloop) as (Ht & Hid).
  split; [| exact Hid].
  cbn [app filter is_bridge_call]. rewrite filter_app, Ht. reflexivity.
Qed.

Lemma renderImGui_clickCount wp g st :
  clickCount (fst (renderImGui wp g st)) =
  if gui_click g then int_increment (clickCount st) else clickCount st.
Proof. reflexivity. Qed.

Lemma renderImGui_shows_count wp g st :
  In (ImGuiText "Button clicked %d times"
        [GuiInt (clickCount (fst (renderImGui wp g st)))])
     (snd (renderImGui wp g st)).
Proof.
  unfold renderImGui. cbv zeta. cbn [fst snd clickCount].
  do 9 (apply in_cons). left. reflexivity.
Qed.

(** Over any frames, the click counter grows by the number of frames in
    which "Click me!" reports a press, as long as it stays within an int;
    and each frame shows the count with that frame's press already counted. *)
Theorem clickCount_counts_presses
  (with_python : bool) (frames : list GuiAnswers) (st : AppState)
  (Hint : clickCount st + clicks frames <= 2147483647) :
  clickCount (fst (render_frames with_python frames st)) =
    clickCount st + clicks frames /\
  forall g, In (ImGuiText "Button clicked %d times"
                  [GuiInt (clickCount (fst (renderImGui with_python g st)))])
               (snd (renderImGui with_python g st)).
Proof.
  split; [| intro g; apply renderImGui_shows_count].
  revert st Hint. induction frames as [| g rest IH]; intros st Hint.
  - cbn. unfold clicks. cbn. lia.
  - cbn [render_frames]. cbv zeta. cbn [fst].
    assert (Hpos : 0 <= clicks rest) by (unfold clicks; lia).
    assert (Hc : clicks (g :: rest) =
                 (if gui_click g then 1 else 0) + clicks rest).
    { unfold clicks. cbn [filter]. destruct (gui_click g); cbn [List.length]; lia. }
    rewrite Hc in Hint.
    rewrite IH; rewrite renderImGui_clickCount; unfold int_increment;
      destruct (gui_click g);
      try destruct (Z.eqb_spec (clickCount st) 2147483647); lia.
Qed.

Lemma outstanding_after_app ids t1 t2 :
  outstanding_after ids (t1 ++ t2) = outstanding_after (outstanding_after ids t1) t2.
Proof. apply fold_left_app. Qed.

Lemma startTickerMonitor_keeps_single returned ticker price id :
  let r := startTickerMonitor true returned ticker price id in
  outstanding_after (tracked id) (snd r) = tracked (fst r) /\
  stops_outstanding (tracked id) (snd r).
Proof. exact (serve_keeps_single (RequestStart ticker price returned) id). Qed.

Lemma stopTickerMonitor_keeps_single id :
  let r := stopTickerMonitor true id in
  outstanding_after (tracked id) (snd r) = tracked (fst r) /\
  stops_outstanding (tracked id) (snd r).
Proof. exact (serve_keeps_single RequestStop id). Qed.

Lemma stopTickerMonitor_negative id : fst (stopTickerMonitor true id) < 0.
Proof.
  unfold stopTickerMonitor. destruct (Z.geb_spec id 0); cbn [fst]; lia.
Qed.

Lemma requests_step_app ids ids1 ids2 t1 t2 :
  requests_step ids t1 ids1 -> requests_step ids1 t2 ids2 ->
  requests_step ids (t1 ++ t2) ids2.
Proof.
  unfold requests_step. intros (H1 & S1) (H2 & S2).
  rewrite outstanding_after_app, stops_outstanding_app, H1. tauto.
Qed.

Lemma requests_step_quiet ids t :
  forallb (fun c => negb (is_monitor_call c)) t = true ->
  requests_step ids t ids.
Proof.
  unfold requests_step, outstanding_after.
  induction t as [| c t IH]; cbn [forallb]; [split; [reflexivity | exact I] |].
  intro H. apply andb_prop in H as (Hc & Ht). destruct (IH Ht) as (H1 & S1).
  destruct c; try discriminate Hc; cbn; rewrite H1; tauto.
Qed.

Lemma renderImGui_keeps_single g st :
  let r := renderImGui true g st in
  requests_step (tracked (m_tickerMonitorId st)) (snd r)
    (tracked (m_tickerMonitorId (fst r))) /\
  (gui_stop g = true -> m_tickerMonitorId (fst r) < 0).
Proof.
  unfold renderImGui. cbv zeta. cbn [fst snd m_tickerMonitorId].
  set (ids := tracked (m_tickerMonitorId st)).
  set (started := if gui_start g then _ else _).
  set (stopped := if gui_stop g then _ else _).
  assert (Hstart : requests_step ids (snd started) (tracked (fst started))).
  { subst started ids. destruct (gui_start g).
    - apply startTickerMonitor_keeps_single.
    - split; [reflexivity | exact I]. }
  assert (Hstop : requests_step (tracked (fst started)) (snd stopped)
                    (tracked (fst stopped)) /\
                  (gui_stop g = true -> fst stopped < 0)).
  { subst stopped. destruct (gui_stop g).
    - split; [apply stopTickerMonitor_keeps_single |].
      intros _. apply stopTickerMonitor_negative.
    - split; [split; [reflexivity | exact I] | discriminate]. }
  clearbody started stopped ids.
  destruct Hstop as (Hstop & Hneg).
  split; [| exact Hneg].
  do 6 (eapply requests_step_app; [apply requests_step_quiet; reflexivity |]).
  eapply requests_step_app; [exact Hstart |].
  eapply requests_step_app; [apply requests_step_quiet; reflexivity |].
  eapply requests_step_app; [exact Hstop |].
  apply requests_step_quiet.
  destruct (bridge_message g) as [[| c m] |]; reflexivity.
Qed.

(** With Python enabled, over any frames rendered from the constructed
    state, whichever buttons are pressed and whatever identifiers the
    bridge hands out, the application keeps at most one identifier
    outstanding, the one it holds (none when it is negative), and its stop
    requests name an outstanding identifier only.  After a frame in which
    "Stop Monitoring" is pressed no identifier is outstanding, also when
    "Start Monitoring" is pressed in the same frame: the monitor asked for
    is asked to stop at once.  This is about the requests made; the result
    of a stop request is discarded. *)
Theorem frames_keep_one_outstanding
  (frames : list GuiAnswers) (g : GuiAnswers) :
  let r := render_frames true frames initial_AppState in
  outstanding_after [] (snd r) = tracked (m_tickerMonitorId (fst r)) /\
  stops_outstanding [] (snd r) /\
  (gui_stop g = true ->
   outstanding_after [] (snd r ++ snd (renderImGui true g (fst r))) = []).
Proof.
  cbv zeta.
  assert (Hgen : forall fs st,
    requests_step (tracked (m_tickerMonitorId st))
      (snd (render_frames true fs st))
      (tracked (m_tickerMonitorId (fst (render_frames true fs st))))).
  { induction fs as [| f fs IH]; intro st.
    - split; [reflexivity | exact I].
    - cbn [render_frames]. cbv zeta. cbn [fst snd].
      eapply requests_step_app; [apply renderImGui_keeps_single | apply IH]. }
  destruct (Hgen frames initial_AppState) as (H & S).
  change (tracked (m_tickerMonitorId initial_AppState)) with (@nil Z) in *.
  split; [exact H |]. split; [exact S |].
  intro Hstop.
  destruct (renderImGui_keeps_single g
              (fst (render_frames true frames initial_AppState)))
    as ((H1 & _) & Hid).
  specialize (Hid Hstop).
  rewrite outstanding_after_app, H, H1. unfold tracked.
  destruct (Z.geb_spec (m_tickerMonitorId
                          (fst (renderImGui true g
                                  (fst (render_frames true frames
                                          initial_AppState))))) 0);
    [lia | reflexivity].
Qed.

End ApplicationProperties.

(** * The further properties on the concrete inputs *)

Lemma Init_result_and_error_line_witness :
  let P := ex_platform false true true 0%Q in
  init_error P ex_window = Some "Failed to initialize EGL"%string /\
  filter is_error_log (calls (ImGui_ImplAndroid_Init P ex_window ex_start)) =
    [AndroidLog ANDROID_LOG_ERROR "Failed to initialize EGL" []].
Proof.
  cbv zeta. split; [reflexivity |].
  exact (proj2 (proj2 (Init_result_and_error_line
                         (ex_platform false true true 0%Q) ex_window ex_start))).
Defined.

Lemma Init_success_state_witness :
  let P := ex_platform true true true 0%Q in
  result (ImGui_ImplAndroid_Init P ex_window ex_start) = true /\
  g_Initialized (backend ex_running) = true /\
  DisplaySize (io ex_running) = mkVec2 1080%Q 1920%Q /\
  FontsTexID (io ex_running) = g_FontTexture (backend ex_running).
Proof.
  cbv zeta. split; [reflexivity |].
  destruct (Init_success_state (ex_platform true true true 0%Q) ex_window ex_start
              eq_refl) as (Hinit & _ & _ & _ & Hsize & _ & Hfont & _).
  split; [exact Hinit |]. split; [exact Hsize | exact Hfont].
Defined.

Lemma Init_failure_makes_no_gl_call_witness :
  let P := ex_platform false true true 0%Q in
  result (ImGui_ImplAndroid_Init P ex_window ex_start) = false /\
  filter is_gl (calls (ImGui_ImplAndroid_Init P ex_window ex_start)) = [].
Proof.
  cbv zeta. split; [reflexivity |].
  exact (proj1 (Init_failure_makes_no_gl_call (ex_platform false true true 0%Q)
                  ex_window ex_start eq_refl)).
Defined.

Lemma Shutdown_release_order_witness :
  g_VboHandle (backend ex_running) <> 0 /\
  filter is_release (calls (ImGui_ImplAndroid_Shutdown ex_running)) =
    [GlDeleteBuffers 31; GlDeleteBuffers 32; GlDetachShader 23 21;
     GlDeleteShader 21; GlDetachShader 23 22; GlDeleteShader 22;
     GlDeleteProgram 23; GlDeleteTextures 41; EglMakeCurrent 7 0 0 0;
     EglDestroyContext 7 9; EglDestroySurface 7 8; EglTerminate 7].
Proof.
  split; [discriminate |].
  apply (Shutdown_release_order ex_running); discriminate.
Defined.

Lemma NewFrame_guards_witness :
  let P := ex_platform true false true 0%Q in
  g_Initialized (backend ex_start) = false /\
  final (ImGui_ImplAndroid_NewFrame P ex_start) = ex_start /\
  g_Initialized (backend ex_running) = true /\
  egl_make_current P = false /\
  final (ImGui_ImplAndroid_NewFrame P ex_running) = ex_running.
Proof.
  cbv zeta. split; [reflexivity |]. split.
  - exact (proj1 (proj1 (NewFrame_guards (ex_platform true false true 0%Q)
                           ex_start) eq_refl)).
  - split; [reflexivity |]. split; [reflexivity |].
    exact (proj1 (proj2 (NewFrame_guards (ex_platform true false true 0%Q)
                           ex_running) eq_refl eq_refl)).
Defined.

Lemma NewFrame_rescales_only_on_change_witness :
  let P := ex_platform true true true 0%Q in
  let r := ImGui_ImplAndroid_NewFrame P ex_running in
  g_Initialized (backend ex_running) = true /\
  egl_make_current P = true /\
  size_changed P ex_running = true /\
  filter is_style_scale (calls r) = [StyleScaleAllSizes 2%Q] /\
  filter is_style_scale (calls (ImGui_ImplAndroid_NewFrame P (final r))) = [].
Proof.
  cbv zeta. do 3 (split; [reflexivity |]).
  destruct (NewFrame_rescales_only_on_change (ex_platform true true true 0%Q)
              ex_running eq_refl eq_refl) as (Hcalls & _ & Hnext).
  split; [exact Hcalls |].
  apply Hnext; reflexivity.
Defined.

Lemma NewFrame_display_and_atlas_witness :
  let P := ex_platform true true true 0%Q in
  g_Initialized (backend ex_running) = true /\
  egl_make_current P = true /\
  DisplaySize (io (final (ImGui_ImplAndroid_NewFrame P ex_running))) =
    mkVec2 1080%Q 1920%Q /\
  FontsIsBuilt (io (final (ImGui_ImplAndroid_NewFrame P ex_running))) = true.
Proof.
  cbv zeta. do 2 (split; [reflexivity |]).
  destruct (NewFrame_display_and_atlas (ex_platform true true true 0%Q)
              ex_running eq_refl eq_refl) as (Hsize & Hbuilt & _).
  split; [exact Hsize | exact Hbuilt].
Defined.

Lemma Render_skipped_is_noop_witness :
  let P := ex_platform true true true 0%Q in
  ~ render_proceeds P ex_flat_frame ex_running /\
  final (ImGui_ImplAndroid_RenderDrawData P (Some ex_flat_frame) ex_running) =
    ex_running /\
  filter is_gl
    (calls (ImGui_ImplAndroid_RenderDrawData P (Some ex_flat_frame) ex_running)) = [].
Proof.
  cbv zeta.
  assert (Hskip : forall dd, Some ex_flat_frame = Some dd ->
                    ~ render_proceeds (ex_platform true true true 0%Q) dd ex_running).
  { intros dd Heq (_ & _ & _ & Hh). injection Heq as <-. discriminate Hh. }
  split; [exact (Hskip ex_flat_frame eq_refl) |].
  destruct (Render_skipped_is_noop (ex_platform true true true 0%Q)
              (Some ex_flat_frame) ex_running Hskip) as (Hfinal & Hgl & _).
  split; [exact Hfinal | exact Hgl].
Defined.


Lemma Render_keeps_statics_and_io_witness :
  let P := ex_platform true true true 0%Q in
  no_callback (CmdLists ex_frame) /\
  backend (final (ImGui_ImplAndroid_RenderDrawData P (Some ex_frame) ex_running)) =
    backend ex_running.
Proof.
  cbv zeta.
  assert (Hcb : no_callback (CmdLists ex_frame)) by (repeat constructor).
  split; [exact Hcb |].
  refine (proj1 (Render_keeps_statics_and_io (ex_platform true true true 0%Q)
                   (Some ex_frame) ex_running _)).
  intros dd Hdd. injection Hdd as <-. exact Hcb.
Defined.

Lemma HandleInputEvent_follows_named_pointer_witness :
  g_Initialized (backend ex_running) = true /\
  AMotionEvent_getAction ex_second_down =
    action_word 1 AMOTION_EVENT_ACTION_POINTER_DOWN /\
  MousePos (io (final (ImGui_ImplAndroid_HandleInputEvent ex_second_down
                         ex_running))) = mkVec2 30%Q 40%Q /\
  MouseDown0 (io (final (ImGui_ImplAndroid_HandleInputEvent ex_second_down
                           ex_running))) = true.
Proof.
  do 2 (split; [reflexivity |]).
  refine (proj1 (HandleInputEvent_follows_named_pointer ex_second_down 1
                   AMOTION_EVENT_ACTION_POINTER_DOWN (mkPointer 1 30%Q 40%Q)
                   ex_running eq_refl eq_refl eq_refl _ eq_refl)
            (or_intror eq_refl)).
  lia.
Defined.

Lemma font_id_consistent_kept_witness :
  font_id_consistent ex_running /\
  font_id_consistent (final (ImGui_ImplAndroid_Shutdown ex_running)) /\
  font_id_consistent
    (final (ImGui_ImplAndroid_NewFrame (ex_platform true true true 5%Q) ex_running)) /\
  font_id_consistent
    (final (ImGui_ImplAndroid_RenderDrawData (ex_platform true true true 5%Q)
              (Some ex_frame) ex_running)).
Proof.
  assert (H : font_id_consistent ex_running) by reflexivity.
  split; [exact H |].
  destruct (font_id_consistent_kept (ex_platform true true true 5%Q) ex_window
              (Some ex_frame) ex_down ex_running H)
    as (_ & Hshutdown & Hframe & Hrender & _).
  split; [exact Hshutdown |]. split; [exact Hframe |].
  apply Hrender. intros dd Hdd. injection Hdd as <-. repeat constructor.
Defined.

Lemma initialized_is_bound_kept_witness :
  initialized_is_bound ex_start /\
  g_Initialized (backend ex_start) = false /\
  initialized_is_bound ex_running /\
  initialized_is_bound
    (final (ImGui_ImplAndroid_RenderDrawData (ex_platform true true true 0%Q)
              (Some ex_frame) ex_running)).
Proof.
  assert (H : initialized_is_bound ex_start) by (intro Hf; discriminate Hf).
  split; [exact H |]. split; [reflexivity |].
  assert (Hrun : initialized_is_bound ex_running).
  { exact (proj1 (initialized_is_bound_kept (ex_platform true true true 0%Q)
                    ex_window (Some ex_frame) ex_down ex_start H) eq_refl). }
  split; [exact Hrun |].
  destruct (initialized_is_bound_kept (ex_platform true true true 0%Q)
              ex_window (Some ex_frame) ex_down ex_running Hrun)
    as (_ & _ & _ & Hrender & _).
  apply Hrender. intros dd Hdd. injection Hdd as <-. repeat constructor.
Defined.

Lemma getOpenSSLVersionFromNative_reports_failing_step_witness :
  java_find_class ex_java_without_method
    "com/example/imguihelloworld/OpenSSLLoader" <> 0 /\
  fst (Java_com_example_imguihelloworld_ImGuiJNI_getOpenSSLVersionFromNative
         ex_java_without_method) =
    "Error: getOpenSSLVersion method not found"%string.
Proof.
  split; [discriminate |].
  refine (proj1 (proj1 (proj2 (getOpenSSLVersionFromNative_reports_failing_step
                                 ex_java_without_method)) _ eq_refl)).
  discriminate.
Defined.

Lemma run_never_calls_bridge_witness :
  exists st' t,
    run false true [Some ex_press_start; None] initial_AppState = Some (st', t) /\
    filter is_bridge_call t = [] /\
    m_tickerMonitorId st' = -1.
Proof.
  eexists. eexists. split; [reflexivity |].
  exact (run_never_calls_bridge false true [Some ex_press_start; None]
           initial_AppState _ _ eq_refl).
Defined.

Lemma clickCount_counts_presses_witness :
  clickCount initial_AppState + clicks [ex_click; ex_idle; ex_click] <= 2147483647 /\
  clickCount (fst (render_frames false [ex_click; ex_idle; ex_click]
                     initial_AppState)) = 2.
Proof.
  assert (H : clickCount initial_AppState + clicks [ex_click; ex_idle; ex_click]
              <= 2147483647) by (vm_compute; discriminate).
  split; [exact H |].
  exact (proj1 (clickCount_counts_presses false [ex_click; ex_idle; ex_click]
                  initial_AppState H)).
Defined.

Lemma frames_keep_one_outstanding_witness :
  outstanding_after []
    (snd (render_frames true [ex_press_start] initial_AppState)) = [7] /\
  outstanding_after []
    (snd (render_frames true [ex_press_start] initial_AppState)
     ++ snd (renderImGui true ex_press_both
               (fst (render_frames true [ex_press_start] initial_AppState)))) = [].
Proof.
  destruct (frames_keep_one_outstanding [ex_press_start] ex_press_both)
    as (H & _ & Hstop).
  split; [exact H | exact (Hstop eq_refl)].
Defined.
